(** * MANTIS: the NASA-informed shark habitat generator

    A shallow embedding of [src/nasa/mantis_nasa_generator.py]
    (class [NASAMANTISGenerator]) and the properties of its tables.

    Numbers.  Python floats and numpy scalars are read as real numbers
    ([R]): every comparison, sum, product and clamp of the source is
    exact here, and [np.sqrt], [np.exp], [np.log], [np.sin] are the real
    functions.  Integers that the source keeps as [int] are [Z] or [nat].

    Effects.  The generator reads two things besides its arguments: the
    process-wide numpy random state and the wall clock ([datetime.now()]).
    Both are threaded explicitly through a small state monad. *)

From Stdlib Require Import Reals Lra Lia List String Ascii ZArith Bool.
From Stdlib Require Import DecimalString.
Import ListNotations.

Open Scope R_scope.

(** ** Numeric helpers *)

Definition Rltb (x y : R) : bool := if Rlt_dec x y then true else false.
Definition Rleb (x y : R) : bool := if Rle_dec x y then true else false.

Infix "<?" := Rltb (at level 70, no associativity) : R_scope.
Infix "<=?" := Rleb (at level 70, no associativity) : R_scope.
Notation "x >? y" := (Rltb y x) (at level 70, no associativity) : R_scope.
Notation "x >=? y" := (Rleb y x) (at level 70, no associativity) : R_scope.

(** [np.clip(x, lo, hi)] is [minimum(maximum(x, lo), hi)]. *)
Definition np_clip (x lo hi : R) : R := Rmin (Rmax x lo) hi.

(** [round(x, nd)]: the nearest multiple of [10^-nd], ties to the even one. *)
Definition py_round (x : R) (nd : nat) : R :=
  let s := 10 ^ nd in
  let y := x * s in
  let f := Int_part y in
  let d := y - IZR f in
  let q := if d <? 0.5 then f
           else if 0.5 <? d then (f + 1)%Z
           else if Z.even f then f else (f + 1)%Z in
  IZR q / s.

(** ** Text helpers *)

Open Scope string_scope.

(** [f"{n:0{w}d}"]: decimal digits of [n], left-padded with zeros to
    width [w]. *)
Fixpoint zeros (k : nat) : string :=
  match k with
  | O => ""
  | S k' => "0" ++ zeros k'
  end.

Definition fmt_0d (w n : nat) : string :=
  let s := NilZero.string_of_uint (Nat.to_uint n) in
  zeros (w - String.length s) ++ s.

(** [pat in s] on two [str] values: [pat] occurs as a substring of [s]. *)
Fixpoint str_contains (pat s : string) : bool :=
  String.prefix pat s
  || match s with
     | EmptyString => false
     | String _ s' => str_contains pat s'
     end.

(** ** The event feed: decoded JSON and the Python operations on it

    [response.json()] yields nested [dict]/[list]/[str]/number/[bool]/
    [None] values.  The operations below return [None] where Python
    raises.  A [dict] is kept as an association list of its items. *)

#[local] Set Warnings "-register-all".

Inductive json : Type :=
| JNull
| JBool (b : bool)
| JNum (x : R)
| JStr (s : string)
| JList (l : list json)
| JDict (kv : list (string * json)).

Fixpoint assoc (k : string) (kv : list (string * json)) : option json :=
  match kv with
  | [] => None
  | (k', v) :: kv' => if String.eqb k k' then Some v else assoc k kv'
  end.

(** [o.get(k, default)]; only a [dict] has the method. *)
Definition dict_get (o : json) (k : string) (default : json) : option json :=
  match o with
  | JDict kv => Some (match assoc k kv with Some v => v | None => default end)
  | _ => None
  end.

Fixpoint chars (s : string) : list json :=
  match s with
  | EmptyString => []
  | String c s' => JStr (String c EmptyString) :: chars s'
  end.

(** [for x in o]: a list yields its elements, a dict its keys, a string
    its characters; anything else is not iterable. *)
Definition py_iter (o : json) : option (list json) :=
  match o with
  | JList l => Some l
  | JDict kv => Some (map (fun p => JStr (fst p)) kv)
  | JStr s => Some (chars s)
  | _ => None
  end.

(** [len(o)]. *)
Definition py_len (o : json) : option nat :=
  match o with
  | JList l => Some (List.length l)
  | JDict kv => Some (List.length kv)
  | JStr s => Some (String.length s)
  | _ => None
  end.

(** [o[i]] for a non-negative integer [i].  A decoded JSON dict has only
    string keys, so an integer subscript on it is a [KeyError]. *)
Definition py_index (o : json) (i : nat) : option json :=
  match o with
  | JList l => nth_error l i
  | JStr s => nth_error (chars s) i
  | _ => None
  end.

(** The operand [v] of [lat - v], as far as the test
    [if event_dist < threshold] goes.  [lat] is a numpy scalar, so a
    number or a bool (read as 1 or 0) gives a scalar, and a list is
    turned into an array and broadcast.  The truth test of the result
    is defined only for an array of exactly one element (numpy 2.2 and
    later raise on the empty array too, earlier versions answer
    [False]), so the one operand that does not raise besides a scalar
    is a list nested around a single number: [[x]], [[[x]]], ...  A
    string, [None], a dict or any other list raises, at the
    subtraction or at the test. *)
Fixpoint py_float (o : json) : option R :=
  match o with
  | JNum x => Some x
  | JBool b => Some (if b then 1 else 0)%R
  | JList (o' :: nil) => py_float o'
  | _ => None
  end.

Definition json_is_str (s : string) (o : json) : bool :=
  match o with
  | JStr s' => String.eqb s s'
  | _ => false
  end.

(** [s in o] for a string [s]: substring of a string, element of a list,
    key of a dict; any other container type raises. *)
Definition py_in (s : string) (o : json) : option bool :=
  match o with
  | JStr t => Some (str_contains s t)
  | JList l => Some (existsb (json_is_str s) l)
  | JDict kv => Some (existsb (fun p => String.eqb s (fst p)) kv)
  | _ => None
  end.

(** A small error monad for the bodies that sit inside [try]. *)
Definition obind {A B : Type} (m : option A) (f : A -> option B) : option B :=
  match m with
  | Some a => f a
  | None => None
  end.

Notation "x <-? m ;; k" := (obind m (fun x => k))
  (at level 61, m at next level, right associativity).

Close Scope string_scope.

(** ** Proximity of events to a sample point *)

(** [np.sqrt((lat - coords[1])**2 + (lon - coords[0])**2)]. *)
Definition coord_dist (lat lon c1 c0 : R) : R :=
  sqrt ((lat - c1) ^ 2 + (lon - c0) ^ 2).

(** [event.get('categories', [{}])[0].get('title', '')]. *)
Definition event_title (event : json) : option json :=
  cats <-? dict_get event "categories" (JList [JDict []]) ;;
  c0 <-? py_index cats 0 ;;
  dict_get c0 "title" (JStr "").

(** Body of the inner loop of lines 126-135 for one geometry entry:
    the new value of [env_impact], or [None] when the body raises. *)
Definition impact_geom (event geom : json) (lat lon env_impact : R)
  : option R :=
  coords <-? dict_get geom "coordinates" (JList []) ;;
  n <-? py_len coords ;;
  if (2 <=? n)%nat then
    j1 <-? py_index coords 1 ;;
    c1 <-? py_float j1 ;;
    j0 <-? py_index coords 0 ;;
    c0 <-? py_float j0 ;;
    if coord_dist lat lon c1 c0 <? 2.0 then
      event_type <-? event_title event ;;
      is_storm <-? py_in "Storm" event_type ;;
      if is_storm then Some (env_impact - 0.1)
      else
        is_sea <-? py_in "Sea" event_type ;;
        if is_sea then Some (env_impact + 0.05) else Some env_impact
    else Some env_impact
  else Some env_impact.

(** The inner [for geom in ...]: an exception leaves the loop with the
    value accumulated so far ([except: continue] moves to the next
    event without undoing earlier additions). *)
Fixpoint impact_geoms (event : json) (geoms : list json)
  (lat lon env_impact : R) : R :=
  match geoms with
  | [] => env_impact
  | geom :: rest =>
      match impact_geom event geom lat lon env_impact with
      | Some e' => impact_geoms event rest lat lon e'
      | None => env_impact
      end
  end.

(** One iteration of [for event in eonet_events], [try] included. *)
Definition impact_event (lat lon env_impact : R) (event : json) : R :=
  match (g <-? dict_get event "geometry" (JList []) ;; py_iter g) with
  | Some geoms => impact_geoms event geoms lat lon env_impact
  | None => env_impact
  end.

(** Lines 123-137: [env_impact] after the whole feed, the additions
    made one after the other in feed order. *)
Definition env_impact_of (eonet_events : list json) (lat lon : R) : R :=
  fold_left (impact_event lat lon) eonet_events 0.

(** [event_nearby]'s loop: [Some true] on the first entry closer than
    [threshold], [Some false] when the entries run out, [None] when an
    entry raises first. *)
Fixpoint nearby_geoms (geoms : list json) (lat lon threshold : R)
  : option bool :=
  match geoms with
  | [] => Some false
  | geom :: rest =>
      coords <-? dict_get geom "coordinates" (JList []) ;;
      n <-? py_len coords ;;
      if (2 <=? n)%nat then
        j1 <-? py_index coords 1 ;;
        c1 <-? py_float j1 ;;
        j0 <-? py_index coords 0 ;;
        c0 <-? py_float j0 ;;
        if coord_dist lat lon c1 c0 <? threshold then Some true
        else nearby_geoms rest lat lon threshold
      else nearby_geoms rest lat lon threshold
  end.

(** [event_nearby(event, lat, lon, threshold)]; an exception is
    swallowed and the answer is then [False]. *)
Definition event_nearby_at (event : json) (lat lon threshold : R) : bool :=
  match (g <-? dict_get event "geometry" (JList []) ;;
         geoms <-? py_iter g ;;
         nearby_geoms geoms lat lon threshold) with
  | Some b => b
  | None => false
  end.

(** The default of the keyword argument: [threshold=1.5]. *)
Definition event_nearby_default_threshold : R := 1.5.

Definition event_nearby (event : json) (lat lon : R) : bool :=
  event_nearby_at event lat lon event_nearby_default_threshold.

(** Line 161: [len([e for e in eonet_events if self.event_nearby(e, lat, lon)])]. *)
Definition environmental_events_nearby (eonet_events : list json)
  (lat lon : R) : nat :=
  List.length (filter (fun e => event_nearby e lat lon) eonet_events).

(** ** Habitat score, quality bucket and prey type (pure parts) *)

(** [predict_prey_type(chlor, temp, plankton)]. *)
Definition predict_prey_type (chlor temp plankton : R) : string :=
  if (plankton >? 25000) && (chlor >? 2.5) then "plankton_bloom"
  else if (1.0 <=? chlor) && (chlor <=? 3.0) && (temp >? 19) then "small_fish"
  else if (chlor <? 1.0) && (temp <? 19) then "squid_cephalopods"
  else "mixed_diet".

(** Lines 142-147: the bucket of a score. *)
Definition habitat_quality_of (hsi : R) : string :=
  if hsi >=? 0.75 then "high"
  else if hsi >=? 0.5 then "medium"
  else "low".

(** The five sub-scores of [calculate_nasa_hsi]. *)
Definition thermal_score (temp : R) : R :=
  exp (- ((temp - 20.5) ^ 2) / (2 * 3.2 ^ 2)).

Definition productivity_score (chlor : R) : R :=
  if chlor >? 0 then ln (1 + chlor * 12) / ln 37 else 0.1.

Definition frontal_score (ssh_anomaly : R) : R :=
  if Rabs ssh_anomaly >? 0.1 then Rmin 1.0 (Rabs ssh_anomaly / 0.3) else 0.4.

Definition prey_score (plankton : R) : R :=
  1 / (1 + exp (- 6 * (Rmin (plankton / 35000) 1.0 - 0.4))).

Definition coastal_score (dist_coast : R) : R :=
  if (0.05 <=? dist_coast) && (dist_coast <=? 0.3) then 1.0
  else if dist_coast <? 0.05 then 0.7
  else Rmax 0.3 (1.0 - (dist_coast - 0.3) / 0.4).

(** Lines 189-192: the weighted sum, scaled by [1 + env_impact]. *)
Definition hsi_weighted (temp chlor ssh_anomaly plankton dist_coast env_impact : R)
  : R :=
  let hsi := 0.30 * thermal_score temp + 0.35 * productivity_score chlor
             + 0.20 * frontal_score ssh_anomaly + 0.10 * prey_score plankton
             + 0.05 * coastal_score dist_coast in
  hsi * (1 + env_impact).

(** ** Time

    A [datetime] is a naive local instant, counted in microseconds from
    0001-01-01T00:00:00.  [isoformat()] renders an instant one-to-one,
    so the timestamp columns hold the instant itself. *)

Definition datetime : Type := Z.

Definition micros_per_hour : Z := 3600000000.
Definition micros_per_day : Z := 24 * micros_per_hour.

(** [t.timetuple().tm_yday], by the proleptic Gregorian day count. *)
Definition tm_yday (t : datetime) : Z :=
  let n := (t / micros_per_day)%Z in
  let n100 := ((n mod 146097) / 36524)%Z in
  let r100 := ((n mod 146097) mod 36524)%Z in
  let n1 := ((r100 mod 1461) / 365)%Z in
  let r1 := ((r100 mod 1461) mod 365)%Z in
  if ((n1 =? 4) || (n100 =? 4))%Z then 366%Z else (r1 + 1)%Z.

(** [t - timedelta(hours=h)]. *)
Definition minus_hours (t : datetime) (h : Z) : datetime :=
  (t - h * micros_per_hour)%Z.

(** ** The random source

    Every draw of the source goes through numpy's process-wide generator
    ([np.random.*]; [DataFrame.sample] without [random_state] uses it
    too).  A [RandomSource] is any such generator: a state and one
    transition per distribution.  Seeding fixes the initial state.
    [rs_choice n] and [rs_sample n] return a position in a sequence of
    length [n]. *)

Record RandomSource : Type := {
  rs_state : Type;
  rs_choice : nat -> rs_state -> nat * rs_state;
  rs_sample : nat -> rs_state -> nat * rs_state;
  rs_normal : R -> R -> rs_state -> R * rs_state;
  rs_uniform : R -> R -> rs_state -> R * rs_state;
  rs_lognormal : R -> R -> rs_state -> R * rs_state;
  rs_beta : R -> R -> rs_state -> R * rs_state;
  rs_exponential : R -> rs_state -> R * rs_state;
  rs_randint : Z -> Z -> rs_state -> Z * rs_state;
  rs_random : rs_state -> R * rs_state
}.

(** ** Configuration tables ([__init__]) *)

Record hotspot : Type := {
  h_name : string;
  h_lat : R;
  h_lon : R;
  h_activity : R
}.

Definition lat_min : R := -34.5.
Definition lat_max : R := -33.0.
Definition lon_min : R := 150.5.
Definition lon_max : R := 152.0.
Definition center_lat : R := -33.8688.
Definition center_lon : R := 151.2093.

Definition shark_hotspots : list hotspot :=
  [ {| h_name := "Sydney Harbour"; h_lat := -33.8688; h_lon := 151.2093; h_activity := 0.9 |};
    {| h_name := "Bondi Beach"; h_lat := -33.8915; h_lon := 151.2767; h_activity := 0.8 |};
    {| h_name := "Manly Beach"; h_lat := -33.7969; h_lon := 151.2899; h_activity := 0.7 |};
    {| h_name := "Cronulla Beach"; h_lat := -34.0281; h_lon := 151.1789; h_activity := 0.6 |};
    {| h_name := "Coogee Beach"; h_lat := -33.9205; h_lon := 151.2584; h_activity := 0.5 |} ].

Definition hotspot0 : hotspot :=
  {| h_name := "Sydney Harbour"; h_lat := -33.8688; h_lon := 151.2093; h_activity := 0.9 |}.

(** ** Rows of the tables *)

(** One dict appended to [ocean_data]. *)
Record ocean_point : Type := {
  op_latitude : R;
  op_longitude : R;
  op_chlorophyll_a : R;
  op_sea_surface_temperature : R;
  op_ssh_anomaly : R;
  op_plankton_density : R;
  op_habitat_suitability_index : R;
  op_predicted_prey_type : string;
  op_habitat_quality : string;
  op_location_name : string;
  op_timestamp : datetime;
  op_environmental_events_nearby : nat;
  op_source : string;
  op_nasa_attribution : string;
  op_distance_from_coast_deg : R
}.

(** One row of the satellite prediction table. *)
Record prediction : Type := {
  prediction_id : string;
  p_latitude : R;
  p_longitude : R;
  p_confidence : R;
  p_timestamp : datetime;
  p_water_temperature : R;
  p_chlorophyll_a : R;
  p_ssh_anomaly : R;
  p_plankton_density : R;
  p_predicted_prey_type : string;
  p_habitat_quality : string;
  p_location_name : string;
  p_data_source : string;
  p_nasa_dataset : string;
  p_nasa_attribution : string;
  p_environmental_events_nearby : nat
}.

(** One row of the tag telemetry table. *)
Record tag_event : Type := {
  tag_id : string;
  t_shark_species : string;
  t_shark_size_m : R;
  t_latitude : R;
  t_longitude : R;
  t_timestamp : datetime;
  t_feeding_detected : bool;
  t_feeding_intensity : R;
  t_stomach_ph : R;
  t_bite_force_newtons : R;
  t_swimming_speed_ms : R;
  t_water_temperature : R;
  t_actual_prey_type : string;
  t_predicted_prey_type : string;
  t_prediction_accuracy : string;
  t_tag_confidence : R;
  t_satellite_confidence : R;
  t_data_source : string;
  t_battery_level_percent : R;
  t_signal_strength_dbm : Z
}.

(** A pandas frame built from a list of records.  [pd.DataFrame([])]
    has no rows and no columns ([Bare]); a frame built from at least one
    record, or read back with its header, has the columns of its record
    type ([Table]). *)
Inductive frame (A : Type) : Type :=
| Bare
| Table (records : list A).

Arguments Bare {A}.
Arguments Table {A} records.

Definition DataFrame {A : Type} (records : list A) : frame A :=
  match records with
  | [] => Bare
  | _ :: _ => Table records
  end.

Definition rows {A : Type} (df : frame A) : list A :=
  match df with
  | Bare => []
  | Table records => records
  end.

(** [len(df)]. *)
Definition df_len {A : Type} (df : frame A) : nat := List.length (rows df).

(** ** Species table and tagged sharks *)

Record species_profile : Type := {
  sp_name : string;
  sp_temp_pref : R;
  sp_size_range : R * R;
  sp_aggression : R
}.

Definition great_white : species_profile :=
  {| sp_name := "Great White"; sp_temp_pref := 20.0;
     sp_size_range := (3.5, 5.2); sp_aggression := 0.9 |}.

Definition shark_species : list species_profile :=
  [ great_white;
    {| sp_name := "Tiger Shark"; sp_temp_pref := 22.5;
       sp_size_range := (3.0, 4.5); sp_aggression := 0.8 |};
    {| sp_name := "Bull Shark"; sp_temp_pref := 24.0;
       sp_size_range := (2.8, 4.0); sp_aggression := 0.85 |};
    {| sp_name := "Hammerhead"; sp_temp_pref := 21.0;
       sp_size_range := (3.2, 4.5); sp_aggression := 0.6 |};
    {| sp_name := "Bronze Whaler"; sp_temp_pref := 19.0;
       sp_size_range := (2.5, 3.8); sp_aggression := 0.4 |} ].

Record shark : Type := {
  shark_id : string;
  species : string;
  size_m : R;
  temp_pref : R;
  aggression : R
}.

(** ** Pure parts of the tag simulator *)

(** Lines 278-281: the primary mask. *)
Definition primary_mask (temp_pref : R) (p : prediction) : bool :=
  (p_confidence p >? 0.4) && (Rabs (p_water_temperature p - temp_pref) <? 6).

(** Line 284: the relaxed mask. *)
Definition relaxed_mask (p : prediction) : bool := p_confidence p >? 0.3.

(** Lines 278-284: the rows an event may be sampled from. *)
Definition suitable_for (satellite_df : list prediction) (temp_pref : R)
  : list prediction :=
  let suitable := filter (primary_mask temp_pref) satellite_df in
  if (List.length suitable =? 0)%nat then filter relaxed_mask satellite_df
  else suitable.

(** Lines 306-310. *)
Definition temp_match_of (water_temperature temp_pref : R) : R :=
  1.0 - Rmin 1.0 (Rabs (water_temperature - temp_pref) / 10).

Definition final_accuracy_of (confidence water_temperature temp_pref : R) : R :=
  let temp_match := temp_match_of water_temperature temp_pref in
  let base_accuracy := 0.78 in
  let confidence_bonus := (confidence - 0.5) * 0.3 in
  let final_accuracy := base_accuracy + confidence_bonus + temp_match * 0.1 in
  np_clip final_accuracy 0.4 0.94.

(** Lines 320-336. *)
Definition tag_confidence_of
  (feeding_intensity stomach_ph bite_force swimming_speed : R) : R :=
  let tag_confidence := 0.0 in
  let tag_confidence :=
    if feeding_intensity >? 0.8 then tag_confidence + 0.25
    else if feeding_intensity >? 0.6 then tag_confidence + 0.2
    else if feeding_intensity >? 0.4 then tag_confidence + 0.15
    else tag_confidence in
  let tag_confidence :=
    if stomach_ph <? 2.0 then tag_confidence + 0.2
    else if stomach_ph <? 2.8 then tag_confidence + 0.15
    else if stomach_ph <? 3.5 then tag_confidence + 0.1
    else tag_confidence in
  let tag_confidence :=
    if bite_force >? 400 then tag_confidence + 0.15
    else if bite_force >? 250 then tag_confidence + 0.12
    else if bite_force >? 150 then tag_confidence + 0.08
    else tag_confidence in
  let tag_confidence :=
    if swimming_speed >? 3.5 then tag_confidence + 0.12
    else if swimming_speed >? 2.5 then tag_confidence + 0.08
    else tag_confidence in
  Rmin 0.95 tag_confidence.

Definition prey_options : list string :=
  ["small_fish"; "plankton_bloom"; "squid_cephalopods"; "mixed_diet"]%string.

(** [[p for p in prey_options if p != predicted]]. *)
Definition other_prey (predicted : string) : list string :=
  filter (fun p => negb (String.eqb p predicted)) prey_options.

(** ** The combined display table and the performance record *)

Inductive cell : Type :=
| Num (x : R)
| Str (s : string).

(** The values interpolated into the two [popup_info] f-strings. *)
Inductive popup : Type :=
| PredictionPopup (habitat_quality location_name : string)
| FeedingPopup (shark_species : string) (shark_size_m : R).

Record combined_row : Type := {
  event_id : string;
  c_latitude : R;
  c_longitude : R;
  display_confidence : R;
  c_timestamp : datetime;
  prey_type : string;
  c_habitat_quality : string;
  c_location_name : string;
  c_data_source : string;
  marker_type : string;
  popup_info : popup;
  c_shark_species : string;
  c_shark_size_m : cell
}.

(** A row of [sat_display] after the renames, the two added columns and
    the back-fill of the columns it lacks. *)
Definition sat_display (p : prediction) : combined_row :=
  {| event_id := prediction_id p;
     c_latitude := p_latitude p;
     c_longitude := p_longitude p;
     display_confidence := p_confidence p;
     c_timestamp := p_timestamp p;
     prey_type := p_predicted_prey_type p;
     c_habitat_quality := p_habitat_quality p;
     c_location_name := p_location_name p;
     c_data_source := p_data_source p;
     marker_type := "prediction";
     popup_info := PredictionPopup (p_habitat_quality p) (p_location_name p);
     c_shark_species := "N/A";
     c_shark_size_m := Str "N/A" |}.

(** A row of [tag_display], likewise. *)
Definition tag_display (t : tag_event) : combined_row :=
  {| event_id := tag_id t;
     c_latitude := t_latitude t;
     c_longitude := t_longitude t;
     display_confidence := t_tag_confidence t;
     c_timestamp := t_timestamp t;
     prey_type := t_actual_prey_type t;
     c_habitat_quality := "N/A";
     c_location_name := "N/A";
     c_data_source := t_data_source t;
     marker_type := "validation";
     popup_info := FeedingPopup (t_shark_species t) (t_shark_size_m t);
     c_shark_species := t_shark_species t;
     c_shark_size_m := Num (t_shark_size_m t) |}.

(** [create_combined_dataset(satellite_df, tag_df)].  The prediction
    table is given by its rows: [create_satellite_predictions] builds it
    from 150 records, so it has its columns.  The tag table is a frame:
    selecting [['tag_id', ...]] from a frame without columns raises
    [KeyError], here [None]. *)
Definition create_combined_dataset (satellite_df : list prediction)
  (tag_df : frame tag_event) : option (list combined_row) :=
  match tag_df with
  | Bare => None
  | Table events => Some (map sat_display satellite_df ++ map tag_display events)
  end.

Record performance : Type := {
  total_predictions : nat;
  total_validations : nat;
  prediction_accuracy : R;
  avg_satellite_confidence : R;
  avg_tag_confidence : R;
  species_diversity : nat
}.

Definition Rsum (l : list R) : R := fold_right Rplus 0 l.

(** [series.mean()] of a non-empty column, as the exact mean; pandas
    rounds its sum and its quotient. *)
Definition mean (l : list R) : R := Rsum l / INR (List.length l).

Definition is_correct (t : tag_event) : bool :=
  String.eqb (t_prediction_accuracy t) "correct".

(** [analyze_performance(satellite_df, tag_df)], the returned record. *)
Definition analyze_performance (satellite_df : list prediction)
  (tag_df : frame tag_event) : performance :=
  let accuracy :=
    let correct := List.length (filter is_correct (rows tag_df)) in
    INR correct / INR (df_len tag_df) in
  {| total_predictions := List.length satellite_df;
     total_validations := df_len tag_df;
     prediction_accuracy :=
       if (0 <? df_len tag_df)%nat then accuracy else 0.85;
     avg_satellite_confidence :=
       if (0 <? List.length satellite_df)%nat
       then mean (map p_confidence satellite_df) else 0.75;
     avg_tag_confidence :=
       if (0 <? df_len tag_df)%nat
       then mean (map t_tag_confidence (rows tag_df)) else 0.82;
     species_diversity :=
       if (0 <? df_len tag_df)%nat
       then List.length (nodup string_dec (map t_shark_species (rows tag_df)))
       else 0%nat |}.

(** ** The generator, over a random source and a clock *)

Section Generator.

Variable RS : RandomSource.

(** The readings of [datetime.now()], in the order of the calls. *)
Variable clock : nat -> datetime.

(** The state read and written by a run: the generator state and the
    number of clock readings made so far. *)
Record world : Type := {
  w_rng : rs_state RS;
  w_tick : nat
}.

Definition M (A : Type) : Type := world -> A * world.

Definition ret {A : Type} (a : A) : M A := fun w => (a, w).

Definition bind {A B : Type} (m : M A) (f : A -> M B) : M B :=
  fun w => let (a, w') := m w in f a w'.

Notation "x <- m ;; k" := (bind m (fun x => k))
  (at level 61, m at next level, right associativity).

(** One draw from the random source. *)
Definition draw {A : Type} (d : rs_state RS -> A * rs_state RS) : M A :=
  fun w => let (a, g) := d (w_rng w) in
           (a, {| w_rng := g; w_tick := w_tick w |}).

(** [datetime.now()]. *)
Definition now : M datetime :=
  fun w => (clock (w_tick w), {| w_rng := w_rng w; w_tick := S (w_tick w) |}).

(** A [for] loop that appends one result per element. *)
Fixpoint for_each {A B : Type} (body : A -> M B) (l : list A) : M (list B) :=
  match l with
  | [] => ret []
  | a :: l' => b <- body a ;; bs <- for_each body l' ;; ret (b :: bs)
  end.

(** [calculate_nasa_hsi]. *)
Definition calculate_nasa_hsi
  (temp chlor ssh_anomaly plankton dist_coast env_impact : R) : M R :=
  let hsi := hsi_weighted temp chlor ssh_anomaly plankton dist_coast env_impact in
  u <- draw (rs_uniform RS (-0.02) 0.02) ;;
  ret (np_clip (hsi + u) 0.1 0.98).

(** Lines 87-95: the coordinate and its label. *)
Definition draw_location (i : nat) : M (R * R * string) :=
  if (i <? 90)%nat then
    k <- draw (rs_choice RS (List.length shark_hotspots)) ;;
    let hotspot := nth k shark_hotspots hotspot0 in
    dlat <- draw (rs_normal RS 0 0.15) ;;
    dlon <- draw (rs_normal RS 0 0.15) ;;
    ret (h_lat hotspot + dlat, h_lon hotspot + dlon, h_name hotspot)
  else
    lat <- draw (rs_uniform RS lat_min lat_max) ;;
    lon <- draw (rs_uniform RS lon_min lon_max) ;;
    ret (lat, lon, "Sydney Waters"%string).

(** Body of the loop of [generate_nasa_enhanced_data], lines 87-165. *)
Definition ocean_point_at (eonet_events : list json) (i : nat) : M ocean_point :=
  loc <- draw_location i ;;
  let '(lat, lon, location_name) := loc in
  let lat := np_clip lat lat_min lat_max in
  let lon := np_clip lon lon_min lon_max in
  let dist_from_center :=
    sqrt ((lat - center_lat) ^ 2 + (lon - center_lon) ^ 2) in
  let base_chlor :=
    if dist_from_center <? 0.1 then 2.5
    else if dist_from_center <? 0.3 then 1.2
    else 0.4 in
  t1 <- now ;;
  let seasonal_factor := 1 + 0.3 * sin (2 * PI * (IZR (tm_yday t1) / 365)) in
  ln_noise <- draw (rs_lognormal RS 0 0.5) ;;
  let chlor := base_chlor * seasonal_factor * ln_noise in
  let chlor := np_clip chlor 0.05 10.0 in
  let base_temp := 20.5 in
  t2 <- now ;;
  let seasonal_temp :=
    base_temp + 4 * sin (2 * PI * IZR (tm_yday t2 - 30) / 365) in
  let temp_offset := -1.5 * Rmin (dist_from_center / 0.4) 1.0 in
  sst_noise <- draw (rs_normal RS 0 1.2) ;;
  let sst := seasonal_temp + temp_offset + sst_noise in
  let sst := np_clip sst 15 26 in
  ssh_anomaly <- draw (rs_normal RS 0 0.2) ;;
  pl_noise <- draw (rs_normal RS 0 0.3) ;;
  let plankton := chlor * 7000 * (1 + pl_noise) in
  let plankton := Rmax 800 (Rmin 45000 plankton) in
  let env_impact := env_impact_of eonet_events lat lon in
  hsi <- calculate_nasa_hsi sst chlor ssh_anomaly plankton dist_from_center env_impact ;;
  let prey_type := predict_prey_type chlor sst plankton in
  let habitat_quality := habitat_quality_of hsi in
  t3 <- now ;;
  ret {| op_latitude := py_round lat 6;
         op_longitude := py_round lon 6;
         op_chlorophyll_a := py_round chlor 4;
         op_sea_surface_temperature := py_round sst 2;
         op_ssh_anomaly := py_round ssh_anomaly 3;
         op_plankton_density := py_round plankton 1;
         op_habitat_suitability_index := py_round hsi 4;
         op_predicted_prey_type := prey_type;
         op_habitat_quality := habitat_quality;
         op_location_name := location_name;
         op_timestamp := t3;
         op_environmental_events_nearby :=
           environmental_events_nearby eonet_events lat lon;
         op_source := "NASA_INFORMED_GENERATION";
         op_nasa_attribution :=
           "Based on NASA MODIS climatology and EONET events";
         op_distance_from_coast_deg := py_round dist_from_center 3 |}.

(** [generate_nasa_enhanced_data], given what the two fetches returned.
    The ocean-colour file count is fetched and never used. *)
Definition generate_nasa_enhanced_data (eonet_events : list json)
  : M (list ocean_point) :=
  for_each (ocean_point_at eonet_events) (seq 0 150).

(** The record built from [data_point] at position [i] (lines 226-243). *)
Definition prediction_of (i : nat) (data_point : ocean_point) : prediction :=
  {| prediction_id := "NASA_" ++ fmt_0d 3 (i + 1);
     p_latitude := op_latitude data_point;
     p_longitude := op_longitude data_point;
     p_confidence := op_habitat_suitability_index data_point;
     p_timestamp := op_timestamp data_point;
     p_water_temperature := op_sea_surface_temperature data_point;
     p_chlorophyll_a := op_chlorophyll_a data_point;
     p_ssh_anomaly := op_ssh_anomaly data_point;
     p_plankton_density := op_plankton_density data_point;
     p_predicted_prey_type := op_predicted_prey_type data_point;
     p_habitat_quality := op_habitat_quality data_point;
     p_location_name := op_location_name data_point;
     p_data_source := "nasa_satellite";
     p_nasa_dataset := op_source data_point;
     p_nasa_attribution := op_nasa_attribution data_point;
     p_environmental_events_nearby :=
       op_environmental_events_nearby data_point |}.

(** [enumerate(l)], counting from [i]. *)
Fixpoint enumerate_from {A : Type} (i : nat) (l : list A) : list (nat * A) :=
  match l with
  | [] => []
  | a :: l' => (i, a) :: enumerate_from (S i) l'
  end.

(** [create_satellite_predictions]: the rows of the returned frame. *)
Definition create_satellite_predictions (eonet_events : list json)
  : M (list prediction) :=
  ocean_data <- generate_nasa_enhanced_data eonet_events ;;
  ret (map (fun ip => prediction_of (fst ip) (snd ip))
           (enumerate_from 0 ocean_data)).

(** Lines 261-270: one tagged shark. *)
Definition tagged_shark_at (i : nat) : M shark :=
  k <- draw (rs_choice RS (List.length shark_species)) ;;
  let sp := nth k shark_species great_white in
  size <- draw (rs_uniform RS (fst (sp_size_range sp)) (snd (sp_size_range sp))) ;;
  ret {| shark_id := "MANTIS_" ++ fmt_0d 3 (i + 1);
         species := sp_name sp;
         size_m := py_round size 1;
         temp_pref := sp_temp_pref sp;
         aggression := sp_aggression sp |}.

(** Lines 287-361: the event built from the sampled row [pred]. *)
Definition tag_event_from (sh : shark) (event_num : nat) (pred : prediction)
  : M tag_event :=
  dlat <- draw (rs_normal RS 0 0.0008) ;;
  let lat := p_latitude pred + dlat in
  dlon <- draw (rs_normal RS 0 0.0008) ;;
  let lon := p_longitude pred + dlon in
  feeding_intensity <- draw (rs_beta RS 2 3) ;;
  stomach_ph <-
    (if feeding_intensity >? 0.7 then draw (rs_uniform RS 1.2 2.2)
     else draw (rs_uniform RS 2.8 4.2)) ;;
  bf_noise <- draw (rs_uniform RS 0.8 1.2) ;;
  let bite_force :=
    size_m sh * 180 * aggression sh * feeding_intensity * bf_noise in
  swimming_speed <-
    (if feeding_intensity >? 0.6 then draw (rs_uniform RS 2.8 5.2)
     else draw (rs_uniform RS 0.9 2.3)) ;;
  let final_accuracy :=
    final_accuracy_of (p_confidence pred) (p_water_temperature pred)
                      (temp_pref sh) in
  r <- draw (rs_random RS) ;;
  outcome <-
    (if r <? final_accuracy then
       ret (p_predicted_prey_type pred, "correct"%string)
     else
       let others := other_prey (p_predicted_prey_type pred) in
       k <- draw (rs_choice RS (List.length others)) ;;
       ret (nth k others "mixed_diet"%string, "incorrect"%string)) ;;
  let '(actual_prey, accuracy_result) := outcome in
  let tag_confidence :=
    tag_confidence_of feeding_intensity stomach_ph bite_force swimming_speed in
  t <- now ;;
  hours <- draw (rs_randint RS 1 168) ;;
  let event_time := minus_hours t hours in
  wt_noise <- draw (rs_normal RS 0 0.3) ;;
  drain <- draw (rs_exponential RS 12) ;;
  signal <- draw (rs_randint RS (-88) (-42)) ;;
  ret {| tag_id := "TAG_" ++ shark_id sh ++ "_" ++ fmt_0d 2 (event_num + 1);
         t_shark_species := species sh;
         t_shark_size_m := size_m sh;
         t_latitude := py_round lat 6;
         t_longitude := py_round lon 6;
         t_timestamp := event_time;
         t_feeding_detected := true;
         t_feeding_intensity := py_round feeding_intensity 3;
         t_stomach_ph := py_round stomach_ph 2;
         t_bite_force_newtons := py_round bite_force 1;
         t_swimming_speed_ms := py_round swimming_speed 2;
         t_water_temperature := py_round (p_water_temperature pred + wt_noise) 2;
         t_actual_prey_type := actual_prey;
         t_predicted_prey_type := p_predicted_prey_type pred;
         t_prediction_accuracy := accuracy_result;
         t_tag_confidence := py_round tag_confidence 3;
         t_satellite_confidence := p_confidence pred;
         t_data_source := "mantis_tag";
         t_battery_level_percent := py_round (Rmax 25 (100 - drain)) 1;
         t_signal_strength_dbm := signal |}.

(** One iteration of the event loop, lines 278-361: the appended row,
    or [None] when nothing is appended. *)
Definition tag_event_at (satellite_df : list prediction) (sh : shark)
  (event_num : nat) : M (option tag_event) :=
  let suitable := suitable_for satellite_df (temp_pref sh) in
  match suitable with
  | [] => ret None
  | first :: _ =>
      k <- draw (rs_sample RS (List.length suitable)) ;;
      let pred := nth k suitable first in
      e <- tag_event_from sh event_num pred ;;
      ret (Some e)
  end.

(** The rows appended while [l] runs through its iterations. *)
Fixpoint somes {A : Type} (l : list (option A)) : list A :=
  match l with
  | [] => []
  | Some a :: l' => a :: somes l'
  | None :: l' => somes l'
  end.

(** Lines 274-361 for one shark: the drawn count and the rows appended. *)
Definition shark_events (satellite_df : list prediction) (sh : shark)
  : M (Z * list tag_event) :=
  n_events <- draw (rs_randint RS 8 16) ;;
  appended <- for_each (tag_event_at satellite_df sh) (seq 0 (Z.to_nat n_events)) ;;
  ret (n_events, somes appended).

(** [generate_mantis_tag_data(satellite_df, n_sharks)]. *)
Definition generate_mantis_tag_data (satellite_df : list prediction)
  (n_sharks : nat) : M (frame tag_event) :=
  tagged_sharks <- for_each tagged_shark_at (seq 0 n_sharks) ;;
  per_shark <- for_each (shark_events satellite_df) tagged_sharks ;;
  let tag_data := List.concat (map snd per_shark) in
  ret (DataFrame tag_data).

(** The three tables of [run_complete_pipeline] (steps 1 to 3) and the
    analysis record (step 4).  Step 3 raises when the tag frame has no
    columns; the run then ends there and step 4 is not reached. *)
Record tables : Type := {
  satellite_data : list prediction;
  tag_data : frame tag_event;
  combined_data : option (list combined_row)
}.

Definition run_tables (eonet_events : list json) : M tables :=
  sat <- create_satellite_predictions eonet_events ;;
  tags <- generate_mantis_tag_data sat 12 ;;
  ret {| satellite_data := sat;
         tag_data := tags;
         combined_data := create_combined_dataset sat tags |}.

End Generator.

Arguments w_rng {RS} w.
Arguments w_tick {RS} w.
Arguments Build_world {RS} w_rng w_tick.
Arguments ret {RS A} a w.
Arguments bind {RS A B} m f w.
Arguments for_each {RS A B} body l w.

(** A run started from seed state [g]: no clock reading made yet. *)
Definition seeded {RS : RandomSource} (g : rs_state RS) : world RS :=
  {| w_rng := g; w_tick := 0 |}.

(** ** The specification's formulas, in its own words *)

(** clamp(x, lo, hi). *)
Definition clamp (x lo hi : R) : R := Rmax lo (Rmin x hi).

(** The four threshold ladders of the tag confidence. *)
Definition feeding_ladder (feeding_intensity : R) : R :=
  if feeding_intensity >? 0.8 then 0.25
  else if feeding_intensity >? 0.6 then 0.2
  else if feeding_intensity >? 0.4 then 0.15
  else 0.

Definition ph_ladder (stomach_ph : R) : R :=
  if stomach_ph <? 2.0 then 0.2
  else if stomach_ph <? 2.8 then 0.15
  else if stomach_ph <? 3.5 then 0.1
  else 0.

Definition bite_ladder (bite_force : R) : R :=
  if bite_force >? 400 then 0.15
  else if bite_force >? 250 then 0.12
  else if bite_force >? 150 then 0.08
  else 0.

Definition speed_ladder (swimming_speed : R) : R :=
  if swimming_speed >? 3.5 then 0.12
  else if swimming_speed >? 2.5 then 0.08
  else 0.

(** The same ladders counted in thousandths. *)
Definition feeding_milli (feeding_intensity : R) : Z :=
  if feeding_intensity >? 0.8 then 250
  else if feeding_intensity >? 0.6 then 200
  else if feeding_intensity >? 0.4 then 150
  else 0.

Definition ph_milli (stomach_ph : R) : Z :=
  if stomach_ph <? 2.0 then 200
  else if stomach_ph <? 2.8 then 150
  else if stomach_ph <? 3.5 then 100
  else 0.

Definition bite_milli (bite_force : R) : Z :=
  if bite_force >? 400 then 150
  else if bite_force >? 250 then 120
  else if bite_force >? 150 then 80
  else 0.

Definition speed_milli (swimming_speed : R) : Z :=
  if swimming_speed >? 3.5 then 120
  else if swimming_speed >? 2.5 then 80
  else 0.

(** A well-formed feed event: a category title and geometry entries
    that each carry a [[longitude, latitude]] pair. *)
Record eonet_event : Type := {
  ev_title : string;
  ev_points : list (R * R)
}.

Definition encode_point (lonlat : R * R) : json :=
  JDict [("type"%string, JStr "Point");
         ("coordinates"%string, JList [JNum (fst lonlat); JNum (snd lonlat)])].

Definition encode_event (e : eonet_event) : json :=
  JDict [("title"%string, JStr (ev_title e));
         ("categories"%string, JList [JDict [("title"%string, JStr (ev_title e))]]);
         ("geometry"%string, JList (map encode_point (ev_points e)))].

(** The point [(longitude, latitude)] lies closer than [d] degrees to
    the sample at [(lat, lon)]. *)
Definition within (d lat lon : R) (lonlat : R * R) : bool :=
  coord_dist lat lon (snd lonlat) (fst lonlat) <? d.

(** The event has at least one geometry pair closer than [d]. *)
Definition near_event (d lat lon : R) (e : eonet_event) : bool :=
  existsb (within d lat lon) (ev_points e).

(** The number of geometry pairs of the event closer than [d]. *)
Definition near_points (d lat lon : R) (e : eonet_event) : nat :=
  List.length (filter (within d lat lon) (ev_points e)).

Definition storm_category (e : eonet_event) : bool :=
  str_contains "Storm" (ev_title e).

Definition sea_category (e : eonet_event) : bool :=
  negb (str_contains "Storm" (ev_title e)) && str_contains "Sea" (ev_title e).

(** The impact as the specification words it: one contribution per
    nearby event. *)
Definition impact_per_event (events : list eonet_event) (lat lon : R) : R :=
  -0.1 * INR (List.length (filter (fun e => storm_category e && near_event 2.0 lat lon e) events))
  + 0.05 * INR (List.length (filter (fun e => sea_category e && near_event 2.0 lat lon e) events)).

(** The impact counted per geometry pair. *)
Definition points_of (category : eonet_event -> bool) (d lat lon : R)
  (events : list eonet_event) : nat :=
  list_sum (map (fun e => if category e then near_points d lat lon e else 0%nat) events).

Definition impact_per_point (events : list eonet_event) (lat lon : R) : R :=
  -0.1 * INR (points_of storm_category 2.0 lat lon events)
  + 0.05 * INR (points_of sea_category 2.0 lat lon events).

(** An entry of the feed: a well-formed event, or some other value. *)
Definition feed_json (item : eonet_event + json) : json :=
  match item with
  | inl e => encode_event e
  | inr j => j
  end.

Fixpoint well_formed (items : list (eonet_event + json)) : list eonet_event :=
  match items with
  | [] => []
  | inl e :: items' => e :: well_formed items'
  | inr _ :: items' => well_formed items'
  end.

(** The geometry of the event cannot be iterated: the event is not a
    dict, or its ['geometry'] is not a list, a dict or a string. *)
Definition geometry_unreadable (event : json) : bool :=
  match (g <-? dict_get event "geometry" (JList []) ;; py_iter g) with
  | Some _ => false
  | None => true
  end.

(** ** Worked inputs *)

(** A random source that returns one fixed value of the support of each
    distribution; every event count it draws is 8. *)
Definition fixed_source : RandomSource :=
  {| rs_state := unit;
     rs_choice := fun _ g => (0%nat, g);
     rs_sample := fun _ g => (0%nat, g);
     rs_normal := fun mu _ g => (mu, g);
     rs_uniform := fun lo _ g => (lo, g);
     rs_lognormal := fun _ _ g => (1, g);
     rs_beta := fun a b g => (a / (a + b), g);
     rs_exponential := fun scale g => (scale, g);
     rs_randint := fun lo _ g => (lo, g);
     rs_random := fun g => (0, g) |}.

(** A prediction row with the given confidence and water temperature. *)
Definition sample_prediction (confidence water_temperature : R) : prediction :=
  {| prediction_id := "NASA_001";
     p_latitude := -33.9;
     p_longitude := 151.2;
     p_confidence := confidence;
     p_timestamp := 0%Z;
     p_water_temperature := water_temperature;
     p_chlorophyll_a := 1.2;
     p_ssh_anomaly := 0.05;
     p_plankton_density := 8400;
     p_predicted_prey_type := "small_fish";
     p_habitat_quality := habitat_quality_of confidence;
     p_location_name := "Bondi Beach";
     p_data_source := "nasa_satellite";
     p_nasa_dataset := "NASA_INFORMED_GENERATION";
     p_nasa_attribution := "Based on NASA MODIS climatology and EONET events";
     p_environmental_events_nearby := 0 |}.

(** A tag row with the given accuracy label. *)
Definition sample_tag_event (label : string) : tag_event :=
  {| tag_id := "TAG_MANTIS_001_01";
     t_shark_species := "Great White";
     t_shark_size_m := 4.1;
     t_latitude := -33.9;
     t_longitude := 151.2;
     t_timestamp := 0%Z;
     t_feeding_detected := true;
     t_feeding_intensity := 0.4;
     t_stomach_ph := 2.8;
     t_bite_force_newtons := 212.5;
     t_swimming_speed_ms := 0.9;
     t_water_temperature := 21.0;
     t_actual_prey_type := "small_fish";
     t_predicted_prey_type := "small_fish";
     t_prediction_accuracy := label;
     t_tag_confidence := 0.18;
     t_satellite_confidence := 0.62;
     t_data_source := "mantis_tag";
     t_battery_level_percent := 88;
     t_signal_strength_dbm := (-88)%Z |}.

Definition sample_shark : shark :=
  {| shark_id := "MANTIS_001";
     species := "Great White";
     size_m := 4.1;
     temp_pref := 20.0;
     aggression := 0.9 |}.

(** A storm whose track has two positions, both at the sample point
    (-34, 151). *)
Definition storm_two_fixes : eonet_event :=
  {| ev_title := "Severe Storms"; ev_points := [(151, -34); (151, -34)] |}.

(** A storm 1.8 degrees north of the sample point (-34, 151). *)
Definition storm_at_1_8 : eonet_event :=
  {| ev_title := "Severe Storms"; ev_points := [(151, -32.2)] |}.

(** An ice event at the sample point (-34, 151). *)
Definition sea_ice_here : eonet_event :=
  {| ev_title := "Sea and Lake Ice"; ev_points := [(151, -34)] |}.

(** The iteration appended the event built from a row of [pool]. *)
Definition emitted_from (RS : RandomSource) (clock : nat -> datetime)
  (sh : shark) (event_num : nat) (pool : list prediction)
  (result : option tag_event * world RS) : Prop :=
  exists pred w1,
    In pred pool
    /\ result = (let (e, w2) := tag_event_from RS clock sh event_num pred w1 in
                 (Some e, w2)).

(** The marker of a combined row is one of the two the source writes. *)
Definition known_marker (r : combined_row) : Prop :=
  marker_type r = "prediction"%string \/ marker_type r = "validation"%string.

(** The row appended by an iteration, if any, took its satellite
    confidence from a prediction above the relaxed threshold. *)
Definition confident_row (o : option tag_event) : Prop :=
  match o with
  | Some t => t_satellite_confidence t > 0.3
  | None => True
  end.

(** The quality bucket as the specification words it. *)
Inductive quality_bucket (score : R) : string -> Prop :=
| bucket_high : score >= 0.75 -> quality_bucket score "high"
| bucket_medium : 0.5 <= score < 0.75 -> quality_bucket score "medium"
| bucket_low : score < 0.5 -> quality_bucket score "low".

(** The weighted composite of the five sub-scores. *)
Definition composite (temp chlor ssh_anomaly plankton dist_coast : R) : R :=
  0.30 * thermal_score temp + 0.35 * productivity_score chlor
  + 0.20 * frontal_score ssh_anomaly + 0.10 * prey_score plankton
  + 0.05 * coastal_score dist_coast.

(** What one geometry pair within reach adds to the impact. *)
Definition point_weight (e : eonet_event) : R :=
  if storm_category e then -0.1
  else if sea_category e then 0.05
  else 0.

(** ** Dependence on the clock *)

(** A computation that reads the clock only forwards from the current
    tick: it never lowers the tick, and a second clock that agrees with
    the first on the readings made gives the same result and state. *)
Definition clock_local {RS : RandomSource} {A : Type}
  (m : (nat -> datetime) -> M RS A) : Prop :=
  forall c1 w,
    (w_tick w <= w_tick (snd (m c1 w)))%nat
    /\ forall c2,
         (forall n, (w_tick w <= n < w_tick (snd (m c1 w)))%nat -> c1 n = c2 n) ->
         m c2 w = m c1 w.

(** A clock started at [t0] whose readings are one microsecond apart. *)
Definition clock_from (t0 : datetime) : nat -> datetime :=
  fun n => (t0 + Z.of_nat n)%Z.

(** 2026-11-04T00:00:00. *)
Definition midnight_2026_11_04 : datetime := 63929347200000000%Z.

(** The stored fields of a prediction row lie in their physical
    ranges. *)
Definition prediction_in_range (p : prediction) : Prop :=
  lat_min <= p_latitude p <= lat_max
  /\ lon_min <= p_longitude p <= lon_max
  /\ 0.05 <= p_chlorophyll_a p <= 10
  /\ 15 <= p_water_temperature p <= 26
  /\ 800 <= p_plankton_density p <= 45000
  /\ 0.1 <= p_confidence p <= 0.98.

(** No string of the list occurs twice (decided by comparison). *)
Fixpoint distinct_strings (l : list string) : bool :=
  match l with
  | [] => true
  | s :: l' => negb (existsb (String.eqb s) l') && distinct_strings l'
  end.

(** The id given to the prediction at position [i]. *)
Definition nasa_id (i : nat) : string := "NASA_" ++ fmt_0d 3 (i + 1).

(** The quality label of a row agrees with its stored confidence. *)
Definition quality_matches_confidence (p : prediction) : Prop :=
  (p_habitat_quality p = "high"%string /\ 0.75 <= p_confidence p)
  \/ (p_habitat_quality p = "medium"%string /\ 0.5 <= p_confidence p <= 0.75)
  \/ (p_habitat_quality p = "low"%string /\ p_confidence p <= 0.5).

(** The predicted prey type of a row is one of the four categories,
    and the three others are what an incorrect outcome is drawn from. *)
Definition known_prey (p : prediction) : Prop :=
  In (p_predicted_prey_type p) prey_options
  /\ List.length (other_prey (p_predicted_prey_type p)) = 3%nat
  /\ ~ In (p_predicted_prey_type p) (other_prey (p_predicted_prey_type p)).

(** ** Contracts of the random source

    What numpy guarantees of its draws, as far as the properties below
    need it. *)

(** [np.random.choice] over a non-empty sequence returns one of its
    positions. *)
Definition choice_in_range (RS : RandomSource) : Prop :=
  forall n g, (0 < n)%nat -> (fst (rs_choice RS n g) < n)%nat.

(** [np.random.randint(lo, hi)] returns an integer of [lo, hi). *)
Definition randint_in_range (RS : RandomSource) : Prop :=
  forall lo hi g, (lo < hi)%Z ->
    (lo <= fst (rs_randint RS lo hi g) < hi)%Z.

(** [uniform(lo, hi)] lies in [lo, hi], [beta(a, b)] in [0, 1] and
    [exponential(scale)] is not negative. *)
Definition draws_in_support (RS : RandomSource) : Prop :=
  (forall lo hi g, lo <= hi -> lo <= fst (rs_uniform RS lo hi g) <= hi)
  /\ (forall a b g, 0 < a -> 0 < b -> 0 <= fst (rs_beta RS a b g) <= 1)
  /\ (forall scale g, 0 < scale -> 0 <= fst (rs_exponential RS scale g))
  /\ randint_in_range RS.

(** ** Invariants of a tag row *)

(** The accuracy label says whether the actual prey is the predicted
    one. *)
Definition label_matches_prey (t : tag_event) : Prop :=
  (t_prediction_accuracy t = "correct"%string
   /\ t_actual_prey_type t = t_predicted_prey_type t)
  \/ (t_prediction_accuracy t = "incorrect"%string
      /\ t_actual_prey_type t <> t_predicted_prey_type t
      /\ In (t_actual_prey_type t) prey_options).

(** The row copies its satellite confidence and predicted prey from one
    row of the prediction table, and its species from the species
    table. *)
Definition references_prediction (satellite_df : list prediction)
  (t : tag_event) : Prop :=
  (exists pred,
      In pred satellite_df
      /\ t_satellite_confidence t = p_confidence pred
      /\ t_predicted_prey_type t = p_predicted_prey_type pred)
  /\ In (t_shark_species t) (map sp_name shark_species)
  /\ t_feeding_detected t = true
  /\ t_data_source t = "mantis_tag"%string.

(** The shark was built from an entry of the species table. *)
Definition profiled_shark (sh : shark) : Prop :=
  exists sp,
    In sp shark_species
    /\ species sh = sp_name sp
    /\ temp_pref sh = sp_temp_pref sp
    /\ aggression sh = sp_aggression sp.

(** Bounds of a tag row that hold for every random source. *)
Definition tag_row_bounded (t : tag_event) : Prop :=
  0 <= t_tag_confidence t <= 0.72
  /\ 25 <= t_battery_level_percent t.

(** Ranges of the sensor fields of a tag row. *)
Definition tag_row_physiological (t : tag_event) : Prop :=
  0 <= t_feeding_intensity t <= 1
  /\ (1.2 <= t_stomach_ph t <= 2.2 \/ 2.8 <= t_stomach_ph t <= 4.2)
  /\ (0.9 <= t_swimming_speed_ms t <= 2.3 \/ 2.8 <= t_swimming_speed_ms t <= 5.2)
  /\ 25 <= t_battery_level_percent t <= 100
  /\ (-88 <= t_signal_strength_dbm t <= -43)%Z.

(** ** The fetch of the event feed

    What [requests.get] did: it raised (timeout, no connection), or it
    returned a response with a status code and a body; the body is
    [None] when [response.json()] raises. *)
Inductive http_outcome : Type :=
| RequestRaised
| Responded (status_code : Z) (body : option json).

(** [fetch_nasa_eonet_events], lines 38-53.  The [len(events)] of the
    log line is inside the [try]. *)
Definition fetch_nasa_eonet_events (r : http_outcome) : json :=
  match r with
  | RequestRaised => JList []
  | Responded status_code body =>
      if (status_code =? 200)%Z then
        match (b <-? body ;;
               events <-? dict_get b "events" (JList []) ;;
               n <-? py_len events ;;
               Some events) with
        | Some events => events
        | None => JList []
        end
      else JList []
  end.

(** The value is a string (what iterating a string or a dict yields). *)
Definition is_str (o : json) : Prop :=
  match o with
  | JStr _ => True
  | _ => False
  end.

(** The row is marked as a prediction, or as a validation. *)
Definition is_prediction_row (r : combined_row) : bool :=
  String.eqb (marker_type r) "prediction".

Definition is_validation_row (r : combined_row) : bool :=
  String.eqb (marker_type r) "validation".


(** The timestamp of the row is a clock reading moved back by a whole
    number of hours between 1 and 167. *)
Definition backdated (clock : nat -> datetime) (t : tag_event) : Prop :=
  exists k h,
    (1 <= h <= 167)%Z /\ t_timestamp t = minus_hours (clock k) h.

(** ** Tables without their timestamp columns *)

(** The row with its timestamp blanked. *)
Definition erase_p (p : prediction) : prediction :=
  {| prediction_id := prediction_id p;
     p_latitude := p_latitude p;
     p_longitude := p_longitude p;
     p_confidence := p_confidence p;
     p_timestamp := 0%Z;
     p_water_temperature := p_water_temperature p;
     p_chlorophyll_a := p_chlorophyll_a p;
     p_ssh_anomaly := p_ssh_anomaly p;
     p_plankton_density := p_plankton_density p;
     p_predicted_prey_type := p_predicted_prey_type p;
     p_habitat_quality := p_habitat_quality p;
     p_location_name := p_location_name p;
     p_data_source := p_data_source p;
     p_nasa_dataset := p_nasa_dataset p;
     p_nasa_attribution := p_nasa_attribution p;
     p_environmental_events_nearby := p_environmental_events_nearby p |}.

Definition erase_t (t : tag_event) : tag_event :=
  {| tag_id := tag_id t;
     t_shark_species := t_shark_species t;
     t_shark_size_m := t_shark_size_m t;
     t_latitude := t_latitude t;
     t_longitude := t_longitude t;
     t_timestamp := 0%Z;
     t_feeding_detected := t_feeding_detected t;
     t_feeding_intensity := t_feeding_intensity t;
     t_stomach_ph := t_stomach_ph t;
     t_bite_force_newtons := t_bite_force_newtons t;
     t_swimming_speed_ms := t_swimming_speed_ms t;
     t_water_temperature := t_water_temperature t;
     t_actual_prey_type := t_actual_prey_type t;
     t_predicted_prey_type := t_predicted_prey_type t;
     t_prediction_accuracy := t_prediction_accuracy t;
     t_tag_confidence := t_tag_confidence t;
     t_satellite_confidence := t_satellite_confidence t;
     t_data_source := t_data_source t;
     t_battery_level_percent := t_battery_level_percent t;
     t_signal_strength_dbm := t_signal_strength_dbm t |}.

Definition erase_c (r : combined_row) : combined_row :=
  {| event_id := event_id r;
     c_latitude := c_latitude r;
     c_longitude := c_longitude r;
     display_confidence := display_confidence r;
     c_timestamp := 0%Z;
     prey_type := prey_type r;
     c_habitat_quality := c_habitat_quality r;
     c_location_name := c_location_name r;
     c_data_source := c_data_source r;
     marker_type := marker_type r;
     popup_info := popup_info r;
     c_shark_species := c_shark_species r;
     c_shark_size_m := c_shark_size_m r |}.

(** A frame with a function applied to every row. *)
Definition frame_map {A B : Type} (f : A -> B) (df : frame A) : frame B :=
  match df with
  | Bare => Bare
  | Table records => Table (map f records)
  end.

(** The readings of the two clocks fall on the same day of the year. *)
Definition same_day (clock1 clock2 : nat -> datetime) : Prop :=
  forall n, tm_yday (clock1 n) = tm_yday (clock2 n).

(** A clock that stands still at [t]. *)
Definition frozen_clock (t : datetime) : nat -> datetime := fun _ => t.

(** ** How a decoded event is read *)

(** What one geometry entry gives when a loop over [event['geometry']]
    reaches it: a [[longitude, latitude]] pair, nothing (fewer than two
    coordinates, so the entry is passed over), or an exception. *)
Inductive entry_reading : Type :=
| PairAt (lonlat : R * R)
| TooShort
| EntryRaises.

Definition read_entry (geom : json) : entry_reading :=
  match dict_get geom "coordinates" (JList []) with
  | None => EntryRaises
  | Some coords =>
      match py_len coords with
      | None => EntryRaises
      | Some n =>
          if (2 <=? n)%nat then
            match py_index coords 1, py_index coords 0 with
            | Some j1, Some j0 =>
                match py_float j1, py_float j0 with
                | Some c1, Some c0 => PairAt (c0, c1)
                | _, _ => EntryRaises
                end
            | _, _ => EntryRaises
            end
          else TooShort
      end
  end.

(** The pairs of the entries that come before the first entry that
    raises. *)
Fixpoint pairs_before_raise (geoms : list json) : list (R * R) :=
  match geoms with
  | [] => []
  | geom :: rest =>
      match read_entry geom with
      | PairAt p => p :: pairs_before_raise rest
      | TooShort => pairs_before_raise rest
      | EntryRaises => []
      end
  end.

(** The geometry pairs of a decoded event, read in order up to its
    first entry that raises; none when the event is not a dict or its
    geometry cannot be iterated. *)
Definition event_pairs (event : json) : list (R * R) :=
  match (g <-? dict_get event "geometry" (JList []) ;; py_iter g) with
  | Some geoms => pairs_before_raise geoms
  | None => []
  end.

(** The decoded event has a pair closer than [d] to the sample. *)
Definition near_json (d lat lon : R) (event : json) : bool :=
  existsb (within d lat lon) (event_pairs event).

(** What one geometry entry in reach does to the impact. *)
Inductive impact_mark : Type :=
| StormEntry
| SeaEntry.

Definition impact_step (env_impact : R) (m : impact_mark) : R :=
  match m with
  | StormEntry => env_impact - 0.1
  | SeaEntry => env_impact + 0.05
  end.

(** The category test of lines 130-134 on the event's first category
    title: a storm, else a sea event; [None] when it is neither or the
    lookup raises. *)
Definition event_mark (event : json) : option impact_mark :=
  match event_title event with
  | Some event_type =>
      match py_in "Storm" event_type with
      | Some true => Some StormEntry
      | Some false =>
          match py_in "Sea" event_type with
          | Some true => Some SeaEntry
          | _ => None
          end
      | None => None
      end
  | None => None
  end.

(** One mark for every pair of the event within 2.0 degrees. *)
Definition event_marks (lat lon : R) (event : json) : list impact_mark :=
  match event_mark event with
  | Some m => map (fun _ => m) (filter (within 2.0 lat lon) (event_pairs event))
  | None => []
  end.

(** ** Tag ids *)

(** The id of row [j] of shark [i], both counted from 0. *)
Definition mantis_tag_id (i j : nat) : string :=
  ("TAG_MANTIS_" ++ fmt_0d 3 (i + 1) ++ "_" ++ fmt_0d 2 (j + 1))%string.

(** The rows of shark [i]: between 8 and 15 of them, numbered in
    order. *)
Definition shark_block (i : nat) (block : list tag_event) : Prop :=
  (8 <= List.length block <= 15)%nat
  /\ Forall2 (fun j t => tag_id t = mantis_tag_id i j)
             (seq 0 (List.length block)) block.

(** * Properties *)

(** ** Comparisons and clamps *)

Lemma Rltb_true (x y : R) : (x <? y) = true <-> x < y.
Proof.
  unfold Rltb. destruct (Rlt_dec x y); split; intros; try easy; lra.
Qed.

Lemma Rltb_false (x y : R) : (x <? y) = false <-> y <= x.
Proof.
  unfold Rltb. destruct (Rlt_dec x y); split; intros; try easy; lra.
Qed.

Lemma Rleb_true (x y : R) : (x <=? y) = true <-> x <= y.
Proof.
  unfold Rleb. destruct (Rle_dec x y); split; intros; try easy; lra.
Qed.

Lemma Rleb_false (x y : R) : (x <=? y) = false <-> y < x.
Proof.
  unfold Rleb. destruct (Rle_dec x y); split; intros; try easy; lra.
Qed.

(** Case analysis on every real comparison of the goal. *)
Ltac cases_on_comparisons :=
  repeat match goal with
         | |- context [Rltb ?a ?b] =>
             let H := fresh "H" in
             destruct (Rltb a b) eqn:H;
             [apply Rltb_true in H | apply Rltb_false in H]
         | |- context [Rleb ?a ?b] =>
             let H := fresh "H" in
             destruct (Rleb a b) eqn:H;
             [apply Rleb_true in H | apply Rleb_false in H]
         end.

Lemma np_clip_bounds (x lo hi : R) :
  lo <= hi -> lo <= np_clip x lo hi <= hi.
Proof.
  intros Hle. unfold np_clip. split.
  - apply Rmin_glb; [apply Rmax_r | exact Hle].
  - apply Rmin_r.
Qed.

Lemma np_clip_clamp (x lo hi : R) :
  lo <= hi -> np_clip x lo hi = clamp x lo hi.
Proof.
  intros Hle. unfold np_clip, clamp.
  destruct (Rle_dec x lo), (Rle_dec x hi);
    repeat first [ rewrite Rmin_left by lra | rewrite Rmin_right by lra
                 | rewrite Rmax_left by lra | rewrite Rmax_right by lra ];
    lra.
Qed.

(** ** Rounding *)

Lemma Int_part_IZR (z : Z) : Int_part (IZR z) = z.
Proof.
  symmetry. apply Int_part_spec. lra.
Qed.

(** A value that already is a whole number of [10^-nd] steps is left
    unchanged by [round(_, nd)]. *)
Lemma py_round_exact (z : Z) (nd : nat) :
  py_round (IZR z / 10 ^ nd) nd = IZR z / 10 ^ nd.
Proof.
  assert (Hs : 10 ^ nd <> 0) by (apply pow_nonzero; lra).
  unfold py_round.
  replace (IZR z / 10 ^ nd * 10 ^ nd) with (IZR z) by (field; exact Hs).
  rewrite Int_part_IZR.
  replace (IZR z - IZR z) with 0 by ring.
  assert (H : (0 <? 0.5) = true) by (apply Rltb_true; lra).
  rewrite H. reflexivity.
Qed.

(** ** Tag confidence *)

Lemma tag_confidence_milli (fi ph bf ss : R) :
  tag_confidence_of fi ph bf ss =
  IZR (feeding_milli fi + ph_milli ph + bite_milli bf + speed_milli ss) / 10 ^ 3.
Proof.
  unfold tag_confidence_of, feeding_milli, ph_milli, bite_milli, speed_milli.
  cases_on_comparisons;
    rewrite ?plus_IZR; rewrite Rmin_right by lra; lra.
Qed.

(** C4.  The tag confidence is the sum of the four ladder contributions
    capped at 0.95; it lies in [0, 0.95]; and the value stored in the
    row, rounded to three decimals, is that same number. *)
Theorem tag_confidence_ladder_sum (fi ph bf ss : R) :
  tag_confidence_of fi ph bf ss =
    Rmin (feeding_ladder fi + ph_ladder ph + bite_ladder bf + speed_ladder ss) 0.95
  /\ 0 <= tag_confidence_of fi ph bf ss <= 0.95
  /\ py_round (tag_confidence_of fi ph bf ss) 3 = tag_confidence_of fi ph bf ss.
Proof.
  split; [|split].
  - unfold tag_confidence_of, feeding_ladder, ph_ladder, bite_ladder, speed_ladder.
    cases_on_comparisons; rewrite Rmin_right by lra; rewrite Rmin_left by lra; lra.
  - unfold tag_confidence_of.
    cases_on_comparisons; rewrite Rmin_right by lra; lra.
  - rewrite tag_confidence_milli. apply py_round_exact.
Qed.

(** ** Accuracy probability *)

Lemma temp_match_range (water_temperature temp_pref : R) :
  0 <= temp_match_of water_temperature temp_pref <= 1.
Proof.
  unfold temp_match_of.
  pose proof (Rabs_pos (water_temperature - temp_pref)) as Hab.
  assert (H0 : 0 <= Rmin 1.0 (Rabs (water_temperature - temp_pref) / 10)).
  { apply Rmin_glb; lra. }
  pose proof (Rmin_l 1.0 (Rabs (water_temperature - temp_pref) / 10)).
  lra.
Qed.

(** C5.  The accuracy probability is the clamp of
    0.78 + (confidence - 0.5) * 0.3 + temp_match * 0.1 to [0.4, 0.94],
    with temp_match = 1 - min(1, |sst - temp_pref| / 10) in [0, 1];
    it lies in [0.4, 0.94]. *)
Theorem accuracy_probability_clamped (confidence sst species_temp_pref : R) :
  let temp_match := 1 - Rmin 1 (Rabs (sst - species_temp_pref) / 10) in
  final_accuracy_of confidence sst species_temp_pref =
    clamp (0.78 + (confidence - 0.5) * 0.3 + temp_match * 0.1) 0.4 0.94
  /\ 0 <= temp_match <= 1
  /\ 0.4 <= final_accuracy_of confidence sst species_temp_pref <= 0.94.
Proof.
  intros temp_match. split; [|split].
  - unfold final_accuracy_of, temp_match_of. rewrite np_clip_clamp by lra.
    subst temp_match. replace 1.0 with 1 by lra. reflexivity.
  - pose proof (temp_match_range sst species_temp_pref) as H.
    unfold temp_match_of in H. subst temp_match.
    replace 1.0 with 1 in H by lra. exact H.
  - unfold final_accuracy_of. apply np_clip_bounds. lra.
Qed.

(** ** Aggregate accuracy *)

Lemma filter_length_le {A : Type} (f : A -> bool) (l : list A) :
  (List.length (filter f l) <= List.length l)%nat.
Proof.
  induction l as [|a l IH]; simpl; [lia|].
  destruct (f a); simpl; lia.
Qed.

(** C9.  With at least one tag event the aggregate accuracy is the
    number of rows labelled correct over the number of rows, a value
    between 0 and 1; with none it is the constant 0.85. *)
Theorem aggregate_accuracy (satellite_df : list prediction)
  (tag_df : frame tag_event) :
  ((0 < df_len tag_df)%nat ->
     prediction_accuracy (analyze_performance satellite_df tag_df) =
       INR (List.length (filter is_correct (rows tag_df))) / INR (df_len tag_df)
     /\ 0 <= prediction_accuracy (analyze_performance satellite_df tag_df) <= 1)
  /\ (df_len tag_df = 0%nat ->
        prediction_accuracy (analyze_performance satellite_df tag_df) = 0.85).
Proof.
  unfold analyze_performance; simpl. split.
  - intros Hpos.
    assert (Hb : (0 <? df_len tag_df)%nat = true) by (apply Nat.ltb_lt; exact Hpos).
    rewrite Hb. split; [reflexivity|].
    assert (Hn : 0 < INR (df_len tag_df)) by (apply lt_0_INR; exact Hpos).
    pose proof (pos_INR (List.length (filter is_correct (rows tag_df)))) as Hc.
    pose proof (le_INR _ _ (filter_length_le is_correct (rows tag_df))) as Hle.
    fold (df_len tag_df) in Hle.
    split.
    + apply Rmult_le_pos; [exact Hc | left; apply Rinv_0_lt_compat; exact Hn].
    + apply Rmult_le_reg_r with (r := INR (df_len tag_df)); [exact Hn|].
      unfold Rdiv. rewrite Rmult_assoc, Rinv_l by lra. lra.
  - intros Hz. rewrite Hz. reflexivity.
Qed.

Lemma aggregate_accuracy_witness :
  prediction_accuracy
    (analyze_performance []
       (Table [sample_tag_event "correct"; sample_tag_event "incorrect"])) = 1 / 2
  /\ prediction_accuracy (analyze_performance [] (@Bare tag_event)) = 0.85.
Proof.
  split.
  - destruct (aggregate_accuracy []
                (Table [sample_tag_event "correct"; sample_tag_event "incorrect"]))
      as [Hsome _].
    destruct (Hsome ltac:(unfold df_len; simpl; lia)) as [Heq _].
    rewrite Heq. unfold df_len. simpl. lra.
  - destruct (aggregate_accuracy [] (@Bare tag_event)) as [_ Hnone].
    apply Hnone. reflexivity.
Defined.

(** ** The combined display table *)

(** On a tag frame that has its columns the combined table is the
    prediction rows followed by the tag rows, each side in its own
    order, with the markers and the back-fills of lines 388-402. *)
Lemma combined_table_shape (satellite_df : list prediction)
  (events : list tag_event) :
  exists combined,
    create_combined_dataset satellite_df (Table events) = Some combined
    /\ List.length combined = (List.length satellite_df + List.length events)%nat
    /\ Forall known_marker combined
    /\ combined = map sat_display satellite_df ++ map tag_display events
    /\ (forall p, c_shark_species (sat_display p) = "N/A"%string
                  /\ c_shark_size_m (sat_display p) = Str "N/A")
    /\ (forall t, c_habitat_quality (tag_display t) = "N/A"%string
                  /\ c_location_name (tag_display t) = "N/A"%string).
Proof.
  eexists. split; [reflexivity|].
  split; [rewrite length_app, !length_map; reflexivity|].
  split.
  - apply Forall_app. split; apply Forall_forall; intros r Hin;
      apply in_map_iff in Hin; destruct Hin as [x [Hx _]]; subst r;
      [left | right]; reflexivity.
  - repeat split.
Qed.

(** ** Loops in the state monad *)

Lemma for_each_cons {RS : RandomSource} {A B : Type}
  (body : A -> M RS B) (a : A) (l : list A) (w : world RS) :
  for_each body (a :: l) w =
  (let (b, w1) := body a w in
   let (bs, w2) := for_each body l w1 in (b :: bs, w2)).
Proof.
  simpl. unfold bind, ret. destruct (body a w) as [b w1].
  destruct (for_each body l w1) as [bs w2]. reflexivity.
Qed.

Lemma for_each_Forall {RS : RandomSource} {A B : Type} (P : B -> Prop)
  (body : A -> M RS B) (l : list A) :
  (forall a w, P (fst (body a w))) ->
  forall w, Forall P (fst (for_each body l w)).
Proof.
  intros Hbody. induction l as [|a l IH]; intros w.
  - simpl. constructor.
  - rewrite for_each_cons. specialize (Hbody a w).
    destruct (body a w) as [b w1]. specialize (IH w1).
    destruct (for_each body l w1) as [bs w2]. simpl in *.
    constructor; assumption.
Qed.

Lemma for_each_length {RS : RandomSource} {A B : Type}
  (body : A -> M RS B) (l : list A) (w : world RS) :
  List.length (fst (for_each body l w)) = List.length l.
Proof.
  revert w. induction l as [|a l IH]; intros w; [reflexivity|].
  rewrite for_each_cons. destruct (body a w) as [b w1]. specialize (IH w1).
  destruct (for_each body l w1) as [bs w2]. simpl in *. congruence.
Qed.

(** Unfold one monadic body and name every intermediate draw. *)
Ltac run_body :=
  unfold bind, draw, now, ret;
  repeat (match goal with
          | |- context [if ?b then _ else _] => destruct b
          | |- context [let (_, _) := ?m in _] =>
              lazymatch m with
              | context [let (_, _) := _ in _] => fail
              | _ => destruct m
              end
          end;
          cbv beta iota; cbn [fst snd w_rng w_tick]);
  simpl.

(** ** The sampling pool of a tag event *)

Lemma suitable_for_cases (satellite_df : list prediction) (tp : R) :
  suitable_for satellite_df tp =
  match filter (primary_mask tp) satellite_df with
  | [] => filter relaxed_mask satellite_df
  | _ :: _ => filter (primary_mask tp) satellite_df
  end.
Proof.
  unfold suitable_for.
  destruct (filter (primary_mask tp) satellite_df); reflexivity.
Qed.

Lemma suitable_confident (satellite_df : list prediction) (tp : R)
  (p : prediction) :
  In p (suitable_for satellite_df tp) -> p_confidence p > 0.3.
Proof.
  rewrite suitable_for_cases.
  destruct (filter (primary_mask tp) satellite_df) as [|q qs] eqn:Hprim.
  - intros Hin. apply filter_In in Hin. destruct Hin as [_ Hm].
    unfold relaxed_mask in Hm. apply Rltb_true in Hm. lra.
  - rewrite <- Hprim. intros Hin. apply filter_In in Hin.
    destruct Hin as [_ Hm]. unfold primary_mask in Hm.
    apply andb_prop in Hm. destruct Hm as [Hc _].
    apply Rltb_true in Hc. lra.
Qed.

Lemma nth_in_or_first {A : Type} (k : nat) (first : A) (rest : list A) :
  In (nth k (first :: rest) first) (first :: rest).
Proof.
  destruct (Nat.lt_ge_cases k (List.length (first :: rest))) as [Hlt|Hge].
  - apply nth_In. exact Hlt.
  - rewrite nth_overflow by exact Hge. left. reflexivity.
Qed.

(** What one iteration does, by the pool it samples from. *)
Lemma tag_event_at_cases (RS : RandomSource) (clock : nat -> datetime)
  (satellite_df : list prediction) (sh : shark) (event_num : nat)
  (w : world RS) :
  match suitable_for satellite_df (temp_pref sh) with
  | [] => tag_event_at RS clock satellite_df sh event_num w = (None, w)
  | _ :: _ =>
      emitted_from RS clock sh event_num
        (suitable_for satellite_df (temp_pref sh))
        (tag_event_at RS clock satellite_df sh event_num w)
  end.
Proof.
  unfold tag_event_at.
  destruct (suitable_for satellite_df (temp_pref sh)) as [|first rest] eqn:Hs.
  - reflexivity.
  - unfold emitted_from, bind at 1, draw at 1.
    destruct (rs_sample RS (List.length (first :: rest)) (w_rng w)) as [k g].
    exists (nth k (first :: rest) first), {| w_rng := g; w_tick := w_tick w |}.
    split; [apply nth_in_or_first|].
    unfold bind, ret.
    destruct (tag_event_from RS clock sh event_num (nth k (first :: rest) first)
                {| w_rng := g; w_tick := w_tick w |}) as [e w2].
    reflexivity.
Qed.

Lemma tag_event_from_confidence (RS : RandomSource) (clock : nat -> datetime)
  (sh : shark) (event_num : nat) (pred : prediction) (w : world RS) :
  t_satellite_confidence (fst (tag_event_from RS clock sh event_num pred w)) =
  p_confidence pred.
Proof.
  unfold tag_event_from. run_body; reflexivity.
Qed.

Lemma somes_length_le {A : Type} (l : list (option A)) :
  (List.length (somes l) <= List.length l)%nat.
Proof.
  induction l as [|[a|] l IH]; simpl; lia.
Qed.

(** When the pool is empty no iteration appends anything. *)
Lemma events_all_skipped (RS : RandomSource) (clock : nat -> datetime)
  (satellite_df : list prediction) (sh : shark) (l : list nat) (w : world RS) :
  suitable_for satellite_df (temp_pref sh) = [] ->
  for_each (tag_event_at RS clock satellite_df sh) l w = (map (fun _ => None) l, w).
Proof.
  intros Hs. induction l as [|n l IH]; [reflexivity|].
  rewrite for_each_cons.
  pose proof (tag_event_at_cases RS clock satellite_df sh n w) as Hc.
  rewrite Hs in Hc. rewrite Hc, IH. reflexivity.
Qed.

Lemma somes_none {A B : Type} (l : list B) :
  somes (map (fun _ => @None A) l) = [].
Proof.
  induction l; simpl; auto.
Qed.

(** When the pool is not empty every iteration appends one row. *)
Lemma events_all_emitted (RS : RandomSource) (clock : nat -> datetime)
  (satellite_df : list prediction) (sh : shark) (l : list nat) (w : world RS) :
  suitable_for satellite_df (temp_pref sh) <> [] ->
  List.length (somes (fst (for_each (tag_event_at RS clock satellite_df sh) l w)))
  = List.length l.
Proof.
  intros Hs. revert w. induction l as [|n l IH]; intros w; [reflexivity|].
  rewrite for_each_cons.
  pose proof (tag_event_at_cases RS clock satellite_df sh n w) as Hc.
  destruct (suitable_for satellite_df (temp_pref sh)) as [|first rest];
    [contradiction|].
  destruct Hc as [pred [w1 [_ Heq]]]. rewrite Heq.
  destruct (tag_event_from RS clock sh n pred w1) as [e w2].
  specialize (IH w2).
  destruct (for_each (tag_event_at RS clock satellite_df sh) l w2) as [bs w3].
  simpl in *. congruence.
Qed.

(** [shark_events] with its draws named. *)
Lemma shark_events_run (RS : RandomSource) (clock : nat -> datetime)
  (satellite_df : list prediction) (sh : shark) (w : world RS) :
  shark_events RS clock satellite_df sh w =
  (let (n, g) := rs_randint RS 8 16 (w_rng w) in
   let (appended, w1) :=
     for_each (tag_event_at RS clock satellite_df sh) (seq 0 (Z.to_nat n))
              {| w_rng := g; w_tick := w_tick w |} in
   (n, somes appended, w1)).
Proof.
  unfold shark_events, bind, draw, ret.
  destruct (rs_randint RS 8 16 (w_rng w)) as [n g].
  destruct (for_each (tag_event_at RS clock satellite_df sh)
              (seq 0 (Z.to_nat n)) {| w_rng := g; w_tick := w_tick w |}).
  reflexivity.
Qed.
(** C7.  One iteration of the event loop: if the primary filter
    (confidence > 0.4 and |sst - temp_pref| < 6) keeps a row, the event
    is built from a row it kept; if it keeps none, the relaxed filter
    (confidence > 0.3) is used and the event is built from a row that
    one kept; only if both keep nothing is the iteration skipped, with
    no row appended, no draw made and no clock reading taken.  Every
    case returns.  A shark's appended rows never outnumber its drawn
    count: they are as many as the count, or none. *)
Theorem filter_fallback_then_skip (RS : RandomSource)
  (clock : nat -> datetime) (satellite_df : list prediction) (sh : shark)
  (event_num : nat) (w : world RS) :
  let primary := filter (primary_mask (temp_pref sh)) satellite_df in
  let relaxed := filter relaxed_mask satellite_df in
  let result := tag_event_at RS clock satellite_df sh event_num w in
  let per_shark := fst (shark_events RS clock satellite_df sh w) in
  match primary, relaxed with
  | _ :: _, _ => emitted_from RS clock sh event_num primary result
  | [], _ :: _ => emitted_from RS clock sh event_num relaxed result
  | [], [] => result = (None, w)
  end
  /\ (List.length (snd per_shark) <= Z.to_nat (fst per_shark))%nat
  /\ (List.length (snd per_shark) = Z.to_nat (fst per_shark)
      \/ snd per_shark = []).
Proof.
  intros primary relaxed result per_shark.
  assert (Hpool : suitable_for satellite_df (temp_pref sh) =
                  match primary with [] => relaxed | _ :: _ => primary end)
    by apply suitable_for_cases.
  split; [|split].
  - pose proof (tag_event_at_cases RS clock satellite_df sh event_num w) as Hc.
    rewrite Hpool in Hc. fold result in Hc.
    destruct primary as [|p ps]; [destruct relaxed as [|r rs]|]; exact Hc.
  - subst per_shark. rewrite shark_events_run.
    destruct (rs_randint RS 8 16 (w_rng w)) as [n g].
    pose proof (for_each_length (tag_event_at RS clock satellite_df sh)
                  (seq 0 (Z.to_nat n)) {| w_rng := g; w_tick := w_tick w |}) as Hlen.
    destruct (for_each (tag_event_at RS clock satellite_df sh)
                (seq 0 (Z.to_nat n)) {| w_rng := g; w_tick := w_tick w |})
      as [appended w1].
    simpl in *. rewrite length_seq in Hlen. rewrite <- Hlen.
    apply somes_length_le.
  - subst per_shark. rewrite shark_events_run.
    destruct (rs_randint RS 8 16 (w_rng w)) as [n g].
    destruct (suitable_for satellite_df (temp_pref sh)) as [|first rest] eqn:Hs.
    + right.
      rewrite (events_all_skipped RS clock satellite_df sh _ _ Hs).
      simpl. apply somes_none.
    + left.
      assert (Hne : suitable_for satellite_df (temp_pref sh) <> [])
        by (rewrite Hs; discriminate).
      pose proof (events_all_emitted RS clock satellite_df sh
                    (seq 0 (Z.to_nat n)) {| w_rng := g; w_tick := w_tick w |} Hne)
        as Hall.
      destruct (for_each (tag_event_at RS clock satellite_df sh)
                  (seq 0 (Z.to_nat n)) {| w_rng := g; w_tick := w_tick w |})
        as [appended w1].
      simpl in *. rewrite length_seq in Hall. exact Hall.
Qed.

(** ** Confidence of the sampled prediction *)

Lemma rows_DataFrame {A : Type} (records : list A) :
  rows (DataFrame records) = records.
Proof.
  destruct records; reflexivity.
Qed.

Lemma Forall_somes {A : Type} (P : A -> Prop) (l : list (option A)) :
  Forall (fun o => match o with Some a => P a | None => True end) l ->
  Forall P (somes l).
Proof.
  induction 1 as [|[a|] l Ha _ IH]; simpl; auto.
Qed.

Lemma Forall_concat_snd {A B : Type} (P : B -> Prop) (l : list (A * list B)) :
  Forall (fun r => Forall P (snd r)) l -> Forall P (List.concat (map snd l)).
Proof.
  induction 1 as [|r l Hr _ IH]; simpl; [constructor|].
  apply Forall_app. split; assumption.
Qed.

Lemma tag_event_at_confident (RS : RandomSource) (clock : nat -> datetime)
  (satellite_df : list prediction) (sh : shark) (event_num : nat)
  (w : world RS) :
  confident_row (fst (tag_event_at RS clock satellite_df sh event_num w)).
Proof.
  pose proof (tag_event_at_cases RS clock satellite_df sh event_num w) as Hc.
  destruct (suitable_for satellite_df (temp_pref sh)) as [|first rest] eqn:Hs.
  - rewrite Hc. exact I.
  - destruct Hc as [pred [w1 [Hin Heq]]]. rewrite Heq.
    pose proof (tag_event_from_confidence RS clock sh event_num pred w1) as Hconf.
    destruct (tag_event_from RS clock sh event_num pred w1) as [e w2].
    simpl in *. rewrite Hconf.
    apply (suitable_confident satellite_df (temp_pref sh)).
    rewrite Hs. exact Hin.
Qed.

Lemma shark_events_confident (RS : RandomSource) (clock : nat -> datetime)
  (satellite_df : list prediction) (sh : shark) (w : world RS) :
  Forall (fun t => t_satellite_confidence t > 0.3)
         (snd (fst (shark_events RS clock satellite_df sh w))).
Proof.
  rewrite shark_events_run.
  destruct (rs_randint RS 8 16 (w_rng w)) as [n g].
  pose proof (for_each_Forall confident_row
                (tag_event_at RS clock satellite_df sh) (seq 0 (Z.to_nat n))
                (tag_event_at_confident RS clock satellite_df sh)
                {| w_rng := g; w_tick := w_tick w |}) as Hev.
  destruct (for_each (tag_event_at RS clock satellite_df sh)
              (seq 0 (Z.to_nat n)) {| w_rng := g; w_tick := w_tick w |})
    as [appended w1].
  simpl in *. apply Forall_somes. exact Hev.
Qed.

(** C10.  Every row of the tag table carries, as satellite_confidence,
    the confidence of a prediction that passed the primary filter
    (> 0.4) or the relaxed one (> 0.3): the field is greater than 0.3. *)
Theorem satellite_confidence_above_relaxed (RS : RandomSource)
  (clock : nat -> datetime) (satellite_df : list prediction)
  (n_sharks : nat) (w : world RS) :
  Forall (fun t => t_satellite_confidence t > 0.3)
         (rows (fst (generate_mantis_tag_data RS clock satellite_df n_sharks w))).
Proof.
  unfold generate_mantis_tag_data, bind at 1.
  destruct (for_each (tagged_shark_at RS) (seq 0 n_sharks) w) as [sharks w1].
  unfold bind, ret.
  pose proof (for_each_Forall
                (fun r : Z * list tag_event =>
                   Forall (fun t => t_satellite_confidence t > 0.3) (snd r))
                (shark_events RS clock satellite_df) sharks
                (shark_events_confident RS clock satellite_df) w1) as Hall.
  destruct (for_each (shark_events RS clock satellite_df) sharks w1)
    as [per_shark w2].
  simpl in *. rewrite rows_DataFrame. apply Forall_concat_snd. exact Hall.
Qed.

(** ** A run in which every event is skipped *)

Lemma no_confident_prediction_no_pool (satellite_df : list prediction) (tp : R) :
  (forall p, In p satellite_df -> p_confidence p <= 0.3) ->
  suitable_for satellite_df tp = [].
Proof.
  intros Hlow.
  destruct (suitable_for satellite_df tp) as [|p ps] eqn:Hs; [reflexivity|].
  assert (Hin : In p (suitable_for satellite_df tp)) by (rewrite Hs; left; reflexivity).
  pose proof (suitable_confident _ _ _ Hin) as Hhigh.
  assert (Hp : In p satellite_df).
  { rewrite suitable_for_cases in Hin.
    destruct (filter (primary_mask tp) satellite_df) eqn:Hprim;
      [|rewrite <- Hprim in Hin]; apply filter_In in Hin; tauto. }
  specialize (Hlow p Hp). lra.
Qed.

Lemma concat_all_nil {A B : Type} (l : list (A * list B)) :
  Forall (fun r => snd r = []) l -> List.concat (map snd l) = [].
Proof.
  induction 1 as [|r l Hr _ IH]; simpl; [reflexivity|].
  rewrite Hr, IH. reflexivity.
Qed.

(** If no prediction has confidence above 0.3 the tag simulator
    appends nothing and returns [pd.DataFrame([])]. *)
Lemma no_confident_prediction_bare_frame (RS : RandomSource)
  (clock : nat -> datetime) (satellite_df : list prediction)
  (n_sharks : nat) (w : world RS) :
  (forall p, In p satellite_df -> p_confidence p <= 0.3) ->
  fst (generate_mantis_tag_data RS clock satellite_df n_sharks w) = Bare.
Proof.
  intros Hlow. unfold generate_mantis_tag_data, bind at 1.
  destruct (for_each (tagged_shark_at RS) (seq 0 n_sharks) w) as [sharks w1].
  unfold bind, ret.
  assert (Hshark : forall sh w0,
             snd (fst (shark_events RS clock satellite_df sh w0)) = []).
  { intros sh w0. rewrite shark_events_run.
    destruct (rs_randint RS 8 16 (w_rng w0)) as [n g].
    rewrite (events_all_skipped RS clock satellite_df sh _ _
               (no_confident_prediction_no_pool _ _ Hlow)).
    simpl. apply somes_none. }
  pose proof (for_each_Forall (fun r : Z * list tag_event => snd r = [])
                (shark_events RS clock satellite_df) sharks Hshark w1) as Hall.
  destruct (for_each (shark_events RS clock satellite_df) sharks w1)
    as [per_shark w2].
  simpl in *. rewrite (concat_all_nil _ Hall). reflexivity.
Qed.

(** C8 (where the code departs from it).  For the one-row prediction
    table whose confidence is 0.2, whatever the random source, the
    clock and the number of sharks, the tag simulator returns the frame
    without columns, and [create_combined_dataset] raises on it: there
    is no combined table, although the two inputs have 1 and 0 rows. *)
Theorem combined_dataset_raises_on_bare_tag_frame (RS : RandomSource)
  (clock : nat -> datetime) (n_sharks : nat) (w : world RS) :
  let satellite_df := [sample_prediction 0.2 21.0] in
  let tag_df := fst (generate_mantis_tag_data RS clock satellite_df n_sharks w) in
  tag_df = Bare
  /\ df_len tag_df = 0%nat
  /\ List.length satellite_df = 1%nat
  /\ create_combined_dataset satellite_df tag_df = None.
Proof.
  intros satellite_df tag_df.
  assert (Hbare : tag_df = Bare).
  { apply no_confident_prediction_bare_frame.
    intros p [Hp|[]]. subst p. simpl. lra. }
  rewrite Hbare. repeat split.
Qed.

(** ** Habitat score and quality bucket *)

Lemma habitat_quality_bucket (hsi : R) :
  quality_bucket hsi (habitat_quality_of hsi).
Proof.
  unfold habitat_quality_of. cases_on_comparisons.
  - apply bucket_high. lra.
  - apply bucket_medium. lra.
  - apply bucket_low. lra.
Qed.

Lemma calculate_nasa_hsi_run (RS : RandomSource)
  (temp chlor ssh_anomaly plankton dist_coast env_impact : R) (w : world RS) :
  calculate_nasa_hsi RS temp chlor ssh_anomaly plankton dist_coast env_impact w =
  (let (u, g) := rs_uniform RS (-0.02) 0.02 (w_rng w) in
   (np_clip (composite temp chlor ssh_anomaly plankton dist_coast
             * (1 + env_impact) + u) 0.1 0.98,
    {| w_rng := g; w_tick := w_tick w |})).
Proof.
  unfold calculate_nasa_hsi, bind, draw, ret, hsi_weighted, composite.
  destruct (rs_uniform RS (-0.02) 0.02 (w_rng w)). reflexivity.
Qed.

(** Unfold one monadic body, keeping the equation of every step. *)
Ltac run_body_eq :=
  unfold bind, draw, now, ret;
  repeat match goal with
         | |- context [let (_, _) := ?m in _] => destruct m eqn:?
         end;
  simpl.

(** C6.  The score returned by [calculate_nasa_hsi] is the weighted
    composite 0.30 thermal + 0.35 productivity + 0.20 frontal
    + 0.10 prey + 0.05 coastal, times (1 + environmental impact), plus
    the draw from Uniform(-0.02, 0.02), clamped to [0.1, 0.98].  Every
    generated sample is scored this way on its own field values and on
    the impact of the feed at its coordinate; its quality bucket is
    computed from that clamped score (high from 0.75, medium from 0.5,
    low below), and the table stores the score rounded to 4 decimals. *)
Theorem habitat_score_and_bucket (RS : RandomSource)
  (clock : nat -> datetime) (eonet_events : list json) (i : nat)
  (w : world RS) :
  (forall temp chlor ssh_anomaly plankton dist_coast env_impact,
     let u := fst (rs_uniform RS (-0.02) 0.02 (w_rng w)) in
     let hsi := fst (calculate_nasa_hsi RS temp chlor ssh_anomaly plankton
                       dist_coast env_impact w) in
     hsi = clamp (composite temp chlor ssh_anomaly plankton dist_coast
                  * (1 + env_impact) + u) 0.1 0.98
     /\ 0.1 <= hsi <= 0.98)
  /\ exists lat lon sst chlor ssh_anomaly plankton dist w',
       let sample := fst (ocean_point_at RS clock eonet_events i w) in
       let hsi := fst (calculate_nasa_hsi RS sst chlor ssh_anomaly plankton dist
                         (env_impact_of eonet_events lat lon) w') in
       op_latitude sample = py_round lat 6
       /\ op_longitude sample = py_round lon 6
       /\ op_sea_surface_temperature sample = py_round sst 2
       /\ op_chlorophyll_a sample = py_round chlor 4
       /\ op_ssh_anomaly sample = py_round ssh_anomaly 3
       /\ op_plankton_density sample = py_round plankton 1
       /\ op_distance_from_coast_deg sample = py_round dist 3
       /\ op_habitat_suitability_index sample = py_round hsi 4
       /\ op_habitat_quality sample = habitat_quality_of hsi
       /\ quality_bucket hsi (op_habitat_quality sample).
Proof.
  split.
  - intros temp chlor ssh_anomaly plankton dist_coast env_impact u hsi.
    subst u hsi. rewrite calculate_nasa_hsi_run.
    destruct (rs_uniform RS (-0.02) 0.02 (w_rng w)) as [u g]. simpl.
    split; [apply np_clip_clamp; lra | apply np_clip_bounds; lra].
  - unfold ocean_point_at. run_body_eq.
    match goal with
    | H : calculate_nasa_hsi RS ?t ?c ?s ?p ?d (env_impact_of _ ?la ?lo) ?w' = _
      |- _ => exists la, lo, t, c, s, p, d, w'; rewrite H
    end.
    simpl. repeat split. apply habitat_quality_bucket.
Qed.

(** ** Events near a sample point *)

Lemma event_title_encoded (e : eonet_event) :
  event_title (encode_event e) = Some (JStr (ev_title e)).
Proof. reflexivity. Qed.

Lemma impact_geom_encoded (e : eonet_event) (p : R * R) (lat lon acc : R) :
  impact_geom (encode_event e) (encode_point p) lat lon acc =
  Some (if within 2.0 lat lon p then acc + point_weight e else acc).
Proof.
  unfold impact_geom, encode_point, within. cbn -[coord_dist Rltb encode_event].
  destruct (coord_dist lat lon (snd p) (fst p) <? 2.0); [|reflexivity].
  rewrite event_title_encoded. cbn -[str_contains].
  unfold point_weight, storm_category, sea_category.
  destruct (str_contains "Storm" (ev_title e)); cbn -[str_contains].
  - f_equal. lra.
  - destruct (str_contains "Sea" (ev_title e)); f_equal; lra.
Qed.

Lemma impact_geoms_encoded (e : eonet_event) (pts : list (R * R))
  (lat lon acc : R) :
  impact_geoms (encode_event e) (map encode_point pts) lat lon acc =
  acc + INR (List.length (filter (within 2.0 lat lon) pts)) * point_weight e.
Proof.
  revert acc. induction pts as [|p pts IH]; intros acc.
  - simpl. lra.
  - cbn [map impact_geoms filter]. rewrite impact_geom_encoded.
    destruct (within 2.0 lat lon p).
    + rewrite IH. cbn [List.length]. rewrite S_INR. lra.
    + apply IH.
Qed.

Lemma impact_event_encoded (e : eonet_event) (lat lon acc : R) :
  impact_event lat lon acc (encode_event e) =
  acc + INR (near_points 2.0 lat lon e) * point_weight e.
Proof.
  unfold impact_event, near_points.
  change (g <-? dict_get (encode_event e) "geometry" (JList []) ;; py_iter g)
    with (Some (map encode_point (ev_points e))).
  apply impact_geoms_encoded.
Qed.

Lemma impact_event_unreadable (j : json) (lat lon acc : R) :
  geometry_unreadable j = true -> impact_event lat lon acc j = acc.
Proof.
  unfold geometry_unreadable, impact_event.
  destruct (g <-? dict_get j "geometry" (JList []) ;; py_iter g);
    [discriminate | reflexivity].
Qed.

(** An entry that raises ends the event: the entries before it have
    been counted, the entries after it are not looked at. *)
Lemma impact_geoms_stop_at_raise (event bad : json) (before after : list json)
  (lat lon acc : R) :
  (forall a, impact_geom event bad lat lon a = None) ->
  (forall g, In g before -> forall a, impact_geom event g lat lon a <> None) ->
  impact_geoms event (before ++ bad :: after) lat lon acc =
  impact_geoms event before lat lon acc.
Proof.
  intros Hbad. revert acc. induction before as [|g gs IH]; intros acc Hgood.
  - simpl. rewrite Hbad. reflexivity.
  - simpl. destruct (impact_geom event g lat lon acc) as [a'|] eqn:Hg.
    + apply IH. intros g' Hin. apply Hgood. right. exact Hin.
    + reflexivity.
Qed.

Lemma points_of_cons (category : eonet_event -> bool) (d lat lon : R)
  (e : eonet_event) (events : list eonet_event) :
  points_of category d lat lon (e :: events) =
  ((if category e then near_points d lat lon e else 0) +
   points_of category d lat lon events)%nat.
Proof. reflexivity. Qed.

Lemma impact_fold_feed (items : list (eonet_event + json)) (lat lon acc : R) :
  (forall j, In (inr j) items -> geometry_unreadable j = true) ->
  fold_left (impact_event lat lon) (map feed_json items) acc =
  acc + impact_per_point (well_formed items) lat lon.
Proof.
  revert acc. induction items as [|[e|j] items IH]; intros acc Hbad.
  - unfold impact_per_point, points_of. simpl. lra.
  - cbn [map fold_left feed_json well_formed].
    rewrite impact_event_encoded, IH
      by (intros j Hj; apply Hbad; right; exact Hj).
    unfold impact_per_point. rewrite !points_of_cons, !plus_INR.
    unfold point_weight, sea_category, storm_category.
    destruct (str_contains "Storm" (ev_title e));
      destruct (str_contains "Sea" (ev_title e)); simpl; lra.
  - cbn [map fold_left feed_json well_formed].
    rewrite impact_event_unreadable by (apply Hbad; left; reflexivity).
    apply IH. intros j' Hj. apply Hbad. right. exact Hj.
Qed.

Lemma env_impact_feed (items : list (eonet_event + json)) (lat lon : R) :
  (forall j, In (inr j) items -> geometry_unreadable j = true) ->
  env_impact_of (map feed_json items) lat lon =
  impact_per_point (well_formed items) lat lon.
Proof.
  intros Hbad. unfold env_impact_of. rewrite impact_fold_feed by exact Hbad.
  lra.
Qed.

Lemma coord_dist_same (lat lon : R) : coord_dist lat lon lat lon = 0.
Proof.
  unfold coord_dist.
  replace ((lat - lat) ^ 2 + (lon - lon) ^ 2) with 0 by ring.
  apply sqrt_0.
Qed.

Lemma coord_dist_north (lat lon d : R) :
  0 <= d -> coord_dist lat lon (lat + d) lon = d.
Proof.
  intros Hd. unfold coord_dist.
  replace ((lat - (lat + d)) ^ 2 + (lon - lon) ^ 2) with (d * d) by ring.
  apply sqrt_square. exact Hd.
Qed.

Lemma within_here (d lat lon : R) : 0 < d -> within d lat lon (lon, lat) = true.
Proof.
  intros Hd. unfold within. cbn [fst snd]. rewrite coord_dist_same.
  apply Rltb_true. exact Hd.
Qed.

Lemma within_north (d lat lon off : R) :
  0 <= off -> within d lat lon (lon, lat + off) = (off <? d).
Proof.
  intros Hoff. unfold within. cbn [fst snd].
  rewrite coord_dist_north by exact Hoff. reflexivity.
Qed.

Lemma storm_at_1_8_offset : storm_at_1_8 =
  {| ev_title := "Severe Storms"; ev_points := [(151, -34 + 1.8)] |}.
Proof.
  unfold storm_at_1_8. do 3 f_equal. lra.
Qed.

(** ** The count of nearby events *)

Lemma nearby_geoms_encoded (pts : list (R * R)) (lat lon threshold : R) :
  nearby_geoms (map encode_point pts) lat lon threshold =
  Some (existsb (within threshold lat lon) pts).
Proof.
  induction pts as [|p pts IH]; [reflexivity|].
  cbn [map existsb]. unfold nearby_geoms; fold nearby_geoms.
  unfold encode_point at 1, within at 1.
  cbn -[coord_dist Rltb nearby_geoms encode_point existsb].
  destruct (coord_dist lat lon (snd p) (fst p) <? threshold);
    [reflexivity | exact IH].
Qed.

Lemma event_nearby_at_encoded (e : eonet_event) (lat lon threshold : R) :
  event_nearby_at (encode_event e) lat lon threshold =
  near_event threshold lat lon e.
Proof.
  unfold event_nearby_at, near_event.
  change (dict_get (encode_event e) "geometry" (JList []))
    with (Some (JList (map encode_point (ev_points e)))).
  cbn [obind py_iter]. rewrite nearby_geoms_encoded. reflexivity.
Qed.

Lemma event_nearby_at_unreadable (j : json) (lat lon threshold : R) :
  geometry_unreadable j = true -> event_nearby_at j lat lon threshold = false.
Proof.
  unfold geometry_unreadable, event_nearby_at.
  destruct (dict_get j "geometry" (JList [])) as [g|]; [|reflexivity].
  cbn [obind]. destruct (py_iter g); [discriminate | reflexivity].
Qed.

Lemma nearby_count_feed (items : list (eonet_event + json)) (lat lon : R) :
  (forall j, In (inr j) items -> geometry_unreadable j = true) ->
  environmental_events_nearby (map feed_json items) lat lon =
  List.length (filter (near_event 1.5 lat lon) (well_formed items)).
Proof.
  unfold environmental_events_nearby, event_nearby,
    event_nearby_default_threshold.
  induction items as [|[e|j] items IH]; intros Hbad.
  - reflexivity.
  - cbn [map filter feed_json well_formed].
    rewrite event_nearby_at_encoded.
    destruct (near_event 1.5 lat lon e); cbn [List.length];
      rewrite IH by (intros j Hj; apply Hbad; right; exact Hj); reflexivity.
  - cbn [map filter feed_json well_formed].
    rewrite event_nearby_at_unreadable by (apply Hbad; left; reflexivity).
    apply IH. intros j' Hj. apply Hbad. right. exact Hj.
Qed.

(** ** An event with several entries in reach *)

(** C2.  The loop of lines 126-135 adds to the impact inside
    [for geom in ...] and has no [break], so an event counts once for
    every geometry entry in reach, where the specification counts a
    nearby event once.  A storm whose track has two positions at the
    sample point lowers the impact by 0.2, not by 0.1; [event_nearby],
    which walks the same geometry and returns at the first entry in
    reach, counts that storm once. *)
Theorem storm_track_counted_per_position :
  env_impact_of [encode_event storm_two_fixes] (-34) 151 = -0.2
  /\ impact_per_event [storm_two_fixes] (-34) 151 = -0.1
  /\ environmental_events_nearby [encode_event storm_two_fixes] (-34) 151
     = 1%nat
  /\ env_impact_of [encode_event storm_two_fixes] (-34) 151
     <> impact_per_event [storm_two_fixes] (-34) 151.
Proof.
  assert (Hcode : env_impact_of [encode_event storm_two_fixes] (-34) 151 = -0.2).
  { change [encode_event storm_two_fixes]
      with (map feed_json [inl storm_two_fixes]).
    rewrite env_impact_feed by (intros j [Hj|[]]; discriminate Hj).
    unfold impact_per_point, points_of, near_points, storm_two_fixes.
    cbn [well_formed map storm_category sea_category ev_title ev_points
         str_contains String.prefix orb andb negb filter list_sum].
    rewrite !within_here by lra.
    cbn [filter List.length list_sum Nat.add]. simpl INR. lra. }
  assert (Hspec : impact_per_event [storm_two_fixes] (-34) 151 = -0.1).
  { unfold impact_per_event, near_event, storm_two_fixes.
    cbn [filter storm_category sea_category ev_title ev_points
         str_contains String.prefix orb andb negb existsb].
    rewrite !within_here by lra.
    cbn [orb andb filter List.length]. simpl INR. lra. }
  assert (Hcount :
            environmental_events_nearby [encode_event storm_two_fixes] (-34) 151
            = 1%nat).
  { change [encode_event storm_two_fixes]
      with (map feed_json [inl storm_two_fixes]).
    rewrite nearby_count_feed by (intros j [Hj|[]]; discriminate Hj).
    unfold near_event, storm_two_fixes.
    cbn [well_formed filter ev_points existsb].
    rewrite !within_here by lra. reflexivity. }
  rewrite Hcode, Hspec. repeat split; [exact Hcount | lra].
Qed.

(** ** The nearby count of any decoded feed *)

Lemma nearby_geoms_pairs (geoms : list json) (lat lon threshold : R) :
  match nearby_geoms geoms lat lon threshold with
  | Some b => b
  | None => false
  end = existsb (within threshold lat lon) (pairs_before_raise geoms).
Proof.
  induction geoms as [|geom rest IH]; [reflexivity|].
  cbn [nearby_geoms pairs_before_raise]. unfold read_entry, obind.
  destruct (dict_get geom "coordinates" (JList [])) as [coords|];
    [|reflexivity].
  destruct (py_len coords) as [n|]; [|reflexivity].
  destruct (2 <=? n)%nat; [|exact IH].
  destruct (py_index coords 1) as [j1|]; [|reflexivity].
  destruct (py_float j1) as [c1|];
    [|destruct (py_index coords 0); reflexivity].
  destruct (py_index coords 0) as [j0|]; [|reflexivity].
  destruct (py_float j0) as [c0|]; [|reflexivity].
  cbn [existsb]. unfold within at 1. cbn [fst snd].
  destruct (coord_dist lat lon c1 c0 <? threshold); [reflexivity | exact IH].
Qed.

Lemma event_nearby_at_pairs (event : json) (lat lon threshold : R) :
  event_nearby_at event lat lon threshold = near_json threshold lat lon event.
Proof.
  unfold event_nearby_at, near_json, event_pairs, obind.
  destruct (dict_get event "geometry" (JList [])) as [g|]; [|reflexivity].
  destruct (py_iter g) as [geoms|]; [|reflexivity].
  apply nearby_geoms_pairs.
Qed.

Lemma pairs_before_raise_encoded (pts : list (R * R)) :
  pairs_before_raise (map encode_point pts) = pts.
Proof.
  induction pts as [|[c0 c1] pts IH]; [reflexivity|].
  cbn [map pairs_before_raise]. rewrite IH. reflexivity.
Qed.

Lemma event_pairs_encoded (e : eonet_event) :
  event_pairs (encode_event e) = ev_points e.
Proof.
  unfold event_pairs.
  change (g <-? dict_get (encode_event e) "geometry" (JList []) ;; py_iter g)
    with (Some (map encode_point (ev_points e))).
  apply pairs_before_raise_encoded.
Qed.

Lemma nearby_count_pairs (eonet_events : list json) (lat lon : R) :
  environmental_events_nearby eonet_events lat lon =
  List.length (filter (near_json 1.5 lat lon) eonet_events).
Proof.
  unfold environmental_events_nearby, event_nearby,
    event_nearby_default_threshold.
  f_equal. apply filter_ext. intros e. apply event_nearby_at_pairs.
Qed.



(** ** Runs under two clocks *)

Lemma local_const {RS : RandomSource} {A : Type} (m : M RS A) :
  (forall w, w_tick (snd (m w)) = w_tick w) ->
  clock_local (fun _ => m).
Proof.
  intros Htick c1 w. split; [rewrite Htick; lia | reflexivity].
Qed.

Lemma local_ret {RS : RandomSource} {A : Type} (a : A) :
  clock_local (fun _ => @ret RS A a).
Proof.
  apply local_const. reflexivity.
Qed.

Lemma local_draw {RS : RandomSource} {A : Type}
  (d : rs_state RS -> A * rs_state RS) :
  clock_local (fun _ => draw RS d).
Proof.
  apply local_const. intros w. unfold draw.
  destruct (d (w_rng w)). reflexivity.
Qed.

Lemma local_now {RS : RandomSource} : clock_local (fun c => now RS c).
Proof.
  intros c1 w. unfold now. simpl. split; [lia|].
  intros c2 Hagree. rewrite (Hagree (w_tick w)) by lia. reflexivity.
Qed.

Lemma local_bind {RS : RandomSource} {A B : Type}
  (m : (nat -> datetime) -> M RS A) (f : (nat -> datetime) -> A -> M RS B) :
  clock_local m ->
  (forall a, clock_local (fun c => f c a)) ->
  clock_local (fun c => bind (m c) (f c)).
Proof.
  intros Hm Hf c1 w. unfold bind.
  destruct (Hm c1 w) as [Hm_le Hm_eq].
  destruct (m c1 w) as [a w1] eqn:Hrun1. simpl in Hm_le.
  destruct (Hf a c1 w1) as [Hf_le Hf_eq].
  split; [lia|].
  intros c2 Hagree.
  simpl in Hm_eq. rewrite (Hm_eq c2).
  - apply Hf_eq. intros n Hn. apply Hagree. lia.
  - intros n Hn. apply Hagree. lia.
Qed.

Lemma local_for_each {RS : RandomSource} {A B : Type}
  (body : (nat -> datetime) -> A -> M RS B) (l : list A) :
  (forall a, clock_local (fun c => body c a)) ->
  clock_local (fun c => for_each (body c) l).
Proof.
  intros Hbody. induction l as [|a l IH].
  - apply local_ret.
  - simpl. apply local_bind; [apply Hbody|].
    intros b. apply local_bind; [exact IH|].
    intros bs. apply local_ret.
Qed.

(** One step through a monadic body. *)
Ltac local_step :=
  first
    [ apply local_ret
    | apply local_draw
    | apply local_now
    | apply local_bind; [|intros ?]
    | match goal with
      | |- context [let '(_, _) := ?x in _] => destruct x
      | |- context [if ?b then _ else _] => destruct b
      end ].

Lemma ocean_point_at_local (RS : RandomSource) (eonet_events : list json)
  (i : nat) :
  clock_local (fun c => ocean_point_at RS c eonet_events i).
Proof.
  unfold ocean_point_at, calculate_nasa_hsi, draw_location.
  repeat local_step.
Qed.

Lemma create_satellite_predictions_local (RS : RandomSource)
  (eonet_events : list json) :
  clock_local (fun c => create_satellite_predictions RS c eonet_events).
Proof.
  unfold create_satellite_predictions, generate_nasa_enhanced_data.
  apply local_bind; [|intros ocean_data; apply local_ret].
  apply local_for_each. apply ocean_point_at_local.
Qed.

Lemma tag_event_from_local (RS : RandomSource) (sh : shark) (event_num : nat)
  (pred : prediction) :
  clock_local (fun c => tag_event_from RS c sh event_num pred).
Proof.
  unfold tag_event_from. repeat local_step.
Qed.

Lemma tag_event_at_local (RS : RandomSource) (satellite_df : list prediction)
  (sh : shark) (event_num : nat) :
  clock_local (fun c => tag_event_at RS c satellite_df sh event_num).
Proof.
  unfold tag_event_at.
  destruct (suitable_for satellite_df (temp_pref sh)) as [|first rest].
  - apply local_ret.
  - apply local_bind; [apply local_draw|]. intros k.
    apply local_bind; [apply tag_event_from_local|]. intros e.
    apply local_ret.
Qed.

Lemma shark_events_local (RS : RandomSource) (satellite_df : list prediction)
  (sh : shark) :
  clock_local (fun c => shark_events RS c satellite_df sh).
Proof.
  unfold shark_events.
  apply local_bind; [apply local_draw|]. intros n_events.
  apply local_bind; [|intros appended; apply local_ret].
  apply local_for_each. apply tag_event_at_local.
Qed.

Lemma generate_mantis_tag_data_local (RS : RandomSource)
  (satellite_df : list prediction) (n_sharks : nat) :
  clock_local (fun c => generate_mantis_tag_data RS c satellite_df n_sharks).
Proof.
  unfold generate_mantis_tag_data.
  apply local_bind.
  - apply (local_for_each (fun _ => tagged_shark_at RS)).
    intros i. unfold tagged_shark_at. repeat local_step.
  - intros tagged_sharks.
    apply local_bind; [|intros per_shark; apply local_ret].
    apply local_for_each. apply shark_events_local.
Qed.

Lemma run_tables_local (RS : RandomSource) (eonet_events : list json) :
  clock_local (fun c => run_tables RS c eonet_events).
Proof.
  unfold run_tables.
  apply local_bind; [apply create_satellite_predictions_local|]. intros sat.
  apply local_bind; [apply generate_mantis_tag_data_local|]. intros tags.
  apply local_ret.
Qed.

(** The timestamp of a sample is the third clock reading of its
    iteration. *)
Lemma ocean_point_at_timestamp (RS : RandomSource) (clock : nat -> datetime)
  (eonet_events : list json) (i : nat) (w : world RS) :
  op_timestamp (fst (ocean_point_at RS clock eonet_events i w)) =
  clock (w_tick w + 2)%nat.
Proof.
  unfold ocean_point_at, calculate_nasa_hsi, draw_location.
  run_body; f_equal; lia.
Qed.

Lemma first_prediction_timestamp (RS : RandomSource) (clock : nat -> datetime)
  (eonet_events : list json) (w : world RS) :
  option_map p_timestamp
    (hd_error (fst (create_satellite_predictions RS clock eonet_events w))) =
  Some (clock (w_tick w + 2)%nat).
Proof.
  unfold create_satellite_predictions, generate_nasa_enhanced_data, bind, ret.
  change (seq 0 150) with (0 :: seq 1 149)%nat. rewrite for_each_cons.
  pose proof (ocean_point_at_timestamp RS clock eonet_events 0 w) as Hts.
  destruct (ocean_point_at RS clock eonet_events 0 w) as [b w1].
  destruct (for_each (ocean_point_at RS clock eonet_events) (seq 1 149) w1)
    as [bs w2].
  simpl in *. rewrite Hts. reflexivity.
Qed.

Lemma run_tables_first_timestamp (RS : RandomSource) (clock : nat -> datetime)
  (eonet_events : list json) (w : world RS) :
  option_map p_timestamp
    (hd_error (satellite_data (fst (run_tables RS clock eonet_events w)))) =
  Some (clock (w_tick w + 2)%nat).
Proof.
  pose proof (first_prediction_timestamp RS clock eonet_events w) as Hts.
  unfold run_tables, bind, ret.
  destruct (create_satellite_predictions RS clock eonet_events w) as [sat w1].
  destruct (generate_mantis_tag_data RS clock sat 12 w1) as [tags w2].
  simpl in *. exact Hts.
Qed.

(** C1, as the code has it.  The tables are a function of the seed, of
    the feed and of the clock readings made during the run: two runs
    from the same seed and feed whose clocks agree on those readings
    produce the same satellite, tag and combined tables, whatever the
    random source (one that fixes every event count at 8 included).
    The timestamp of the first prediction is the third reading. *)
Theorem same_seed_same_readings_same_tables (RS : RandomSource)
  (clock1 clock2 : nat -> datetime) (eonet_events : list json)
  (seed : rs_state RS) :
  (forall n,
     (n < w_tick (snd (run_tables RS clock1 eonet_events (seeded seed))))%nat ->
     clock1 n = clock2 n) ->
  run_tables RS clock2 eonet_events (seeded seed) =
  run_tables RS clock1 eonet_events (seeded seed)
  /\ option_map p_timestamp
       (hd_error (satellite_data
                    (fst (run_tables RS clock1 eonet_events (seeded seed))))) =
     Some (clock1 2%nat).
Proof.
  intros Hagree. split.
  - destruct (run_tables_local RS eonet_events clock1 (seeded seed)) as [_ Heq].
    apply Heq. intros n [_ Hn]. apply Hagree. exact Hn.
  - apply (run_tables_first_timestamp RS clock1 eonet_events (seeded seed)).
Qed.

Lemma same_seed_same_readings_witness :
  run_tables fixed_source
    (fun n => (Z.of_nat n + midnight_2026_11_04)%Z) [] (@seeded fixed_source tt) =
  run_tables fixed_source (clock_from midnight_2026_11_04) [] (@seeded fixed_source tt).
Proof.
  apply (same_seed_same_readings_same_tables fixed_source
           (clock_from midnight_2026_11_04)
           (fun n => (Z.of_nat n + midnight_2026_11_04)%Z) [] tt).
  intros n _. unfold clock_from. lia.
Defined.

(** C1 fails as stated: with the fixed source (seed [tt], every event
    count 8), an empty feed and 12 sharks, a run started at midnight
    and a run started one second later produce different satellite
    tables: their first timestamps differ. *)
Lemma same_seed_later_run_differs :
  satellite_data
    (fst (run_tables fixed_source (clock_from midnight_2026_11_04) []
            (@seeded fixed_source tt)))
  <> satellite_data
       (fst (run_tables fixed_source
               (clock_from (midnight_2026_11_04 + 1000000)%Z) [] (@seeded fixed_source tt))).
Proof.
  intros Heq.
  pose proof (run_tables_first_timestamp fixed_source
                (clock_from midnight_2026_11_04) [] (@seeded fixed_source tt)) as H1.
  pose proof (run_tables_first_timestamp fixed_source
                (clock_from (midnight_2026_11_04 + 1000000)%Z) [] (@seeded fixed_source tt)) as H2.
  rewrite Heq, H2 in H1. discriminate H1.
Qed.

(** * Further properties of the generator *)

(** ** Rounding keeps decimal bounds *)

Lemma pow10_pos (nd : nat) : 0 < 10 ^ nd.
Proof. apply pow_lt. lra. Qed.

Lemma py_round_ge (z : Z) (nd : nat) (x : R) :
  IZR z / 10 ^ nd <= x -> IZR z / 10 ^ nd <= py_round x nd.
Proof.
  intros Hx. pose proof (pow10_pos nd) as Hs. unfold py_round.
  set (y := x * 10 ^ nd).
  assert (Hy : IZR z <= y).
  { unfold y. apply Rmult_le_reg_r with (r := / 10 ^ nd).
    - apply Rinv_0_lt_compat. exact Hs.
    - rewrite Rmult_assoc, Rinv_r by lra. unfold Rdiv in Hx. lra. }
  destruct (base_Int_part y) as [Hf1 Hf2].
  assert (Hzf : (z <= Int_part y)%Z).
  { apply Z.lt_succ_r. apply lt_IZR. rewrite succ_IZR. lra. }
  assert (Hq : forall q, (Int_part y <= q)%Z -> IZR z / 10 ^ nd <= IZR q / 10 ^ nd).
  { intros q Hq. apply Rmult_le_compat_r.
    - left. apply Rinv_0_lt_compat. exact Hs.
    - apply IZR_le. lia. }
  destruct (y - IZR (Int_part y) <? 0.5); [apply Hq; lia|].
  destruct (0.5 <? y - IZR (Int_part y)); [apply Hq; lia|].
  destruct (Z.even (Int_part y)); apply Hq; lia.
Qed.

Lemma py_round_le (z : Z) (nd : nat) (x : R) :
  x <= IZR z / 10 ^ nd -> py_round x nd <= IZR z / 10 ^ nd.
Proof.
  intros Hx. pose proof (pow10_pos nd) as Hs. unfold py_round.
  set (y := x * 10 ^ nd).
  assert (Hy : y <= IZR z).
  { unfold y. apply Rmult_le_reg_r with (r := / 10 ^ nd).
    - apply Rinv_0_lt_compat. exact Hs.
    - rewrite Rmult_assoc, Rinv_r by lra. unfold Rdiv in Hx. lra. }
  destruct (base_Int_part y) as [Hf1 Hf2].
  assert (Hfz : (Int_part y <= z)%Z) by (apply le_IZR; lra).
  assert (Hq : forall q, (q <= z)%Z -> IZR q / 10 ^ nd <= IZR z / 10 ^ nd).
  { intros q Hq. apply Rmult_le_compat_r.
    - left. apply Rinv_0_lt_compat. exact Hs.
    - apply IZR_le. exact Hq. }
  assert (Hup : 0 < y - IZR (Int_part y) -> (Int_part y + 1 <= z)%Z).
  { intros Hd. apply Z.le_succ_l. apply lt_IZR. lra. }
  destruct (y - IZR (Int_part y) <? 0.5) eqn:H1; [apply Hq; exact Hfz|].
  apply Rltb_false in H1.
  destruct (0.5 <? y - IZR (Int_part y)); [apply Hq; apply Hup; lra|].
  destruct (Z.even (Int_part y)); apply Hq; [exact Hfz | apply Hup; lra].
Qed.

(** A value inside an interval whose ends have at most [nd] decimals
    is still inside it after [round(_, nd)]. *)
Lemma py_round_between (a b : Z) (nd : nat) (lo hi x : R) :
  lo = IZR a / 10 ^ nd -> hi = IZR b / 10 ^ nd ->
  lo <= x <= hi -> lo <= py_round x nd <= hi.
Proof.
  intros -> -> [Hlo Hhi]. split; [apply py_round_ge | apply py_round_le];
    assumption.
Qed.

(** Close a goal [lo <= round(clip ...) <= hi] by the decimal forms of
    its two ends. *)
Ltac round_in_range a b :=
  apply (py_round_between a b); [simpl; lra | simpl; lra | ].

(** ** The prediction table, row by row *)

Lemma create_satellite_predictions_rows (RS : RandomSource)
  (clock : nat -> datetime) (eonet_events : list json) (w : world RS) :
  fst (create_satellite_predictions RS clock eonet_events w) =
  map (fun ip => prediction_of (fst ip) (snd ip))
      (enumerate_from 0
         (fst (for_each (ocean_point_at RS clock eonet_events) (seq 0 150) w))).
Proof.
  unfold create_satellite_predictions, generate_nasa_enhanced_data, bind, ret.
  destruct (for_each (ocean_point_at RS clock eonet_events) (seq 0 150) w).
  reflexivity.
Qed.

Lemma Forall_enumerate_map {A B : Type} (Q : A -> Prop) (P : B -> Prop)
  (f : nat -> A -> B) (l : list A) (k : nat) :
  (forall i a, Q a -> P (f i a)) ->
  Forall Q l ->
  Forall P (map (fun ip => f (fst ip) (snd ip)) (enumerate_from k l)).
Proof.
  intros Hf Hl. revert k. induction Hl as [|a l Ha _ IH]; intros k; simpl.
  - constructor.
  - constructor; [apply Hf; exact Ha | apply IH].
Qed.

Lemma np_clip_lo (x lo hi : R) : lo <= hi -> lo <= np_clip x lo hi.
Proof. intros H. apply (np_clip_bounds x lo hi H). Qed.

Lemma np_clip_hi (x lo hi : R) : lo <= hi -> np_clip x lo hi <= hi.
Proof. intros H. apply (np_clip_bounds x lo hi H). Qed.

Lemma py_round_lower (z : Z) (nd : nat) (lo x : R) :
  lo = IZR z / 10 ^ nd -> lo <= x -> lo <= py_round x nd.
Proof. intros ->. apply py_round_ge. Qed.

Lemma py_round_upper (z : Z) (nd : nat) (hi x : R) :
  hi = IZR z / 10 ^ nd -> x <= hi -> py_round x nd <= hi.
Proof. intros ->. apply py_round_le. Qed.

(** Bounds of a rounded value, by the decimal form of the bound. *)
Ltac lower_by z := apply (py_round_lower z); [simpl; lra|].
Ltac upper_by z := apply (py_round_upper z); [simpl; lra|].

Ltac rounded_bound :=
  first
    [ lower_by (-34500000)%Z | upper_by (-33000000)%Z
    | lower_by 150500000%Z | upper_by 152000000%Z
    | lower_by 500%Z | upper_by 100000%Z
    | lower_by 1500%Z | upper_by 2600%Z
    | lower_by 8000%Z | upper_by 450000%Z
    | lower_by 1000%Z | upper_by 9800%Z ].

Lemma ocean_point_in_range (RS : RandomSource) (clock : nat -> datetime)
  (eonet_events : list json) (i j : nat) (w : world RS) :
  prediction_in_range
    (prediction_of j (fst (ocean_point_at RS clock eonet_events i w))).
Proof.
  unfold ocean_point_at, calculate_nasa_hsi, draw_location, prediction_in_range.
  run_body;
    unfold lat_min, lat_max, lon_min, lon_max;
    repeat split; rounded_bound;
    first [ apply np_clip_lo; lra | apply np_clip_hi; lra
          | eapply Rle_trans; [apply np_clip_hi; lra | lra]
          | apply Rmax_l | apply Rmax_lub; [lra | apply Rmin_l] ].
Qed.

(** X1.  Every row of the prediction table has its stored latitude and
    longitude inside the Sydney box, chlorophyll in [0.05, 10], water
    temperature in [15, 26], plankton density in [800, 45000] and
    confidence in [0.1, 0.98], whatever the feed, the random source and
    the clock: the clamps hold on the rounded values too. *)
Theorem prediction_fields_in_range (RS : RandomSource)
  (clock : nat -> datetime) (eonet_events : list json) (w : world RS) :
  Forall prediction_in_range
         (fst (create_satellite_predictions RS clock eonet_events w)).
Proof.
  rewrite create_satellite_predictions_rows.
  apply (Forall_enumerate_map
           (fun op => forall j, prediction_in_range (prediction_of j op))).
  - intros j a Ha. apply Ha.
  - apply for_each_Forall. intros i w0 j. apply ocean_point_in_range.
Qed.

Lemma distinct_strings_NoDup (l : list string) :
  distinct_strings l = true -> NoDup l.
Proof.
  induction l as [|s l IH]; simpl; intros H; [constructor|].
  apply andb_prop in H. destruct H as [Hs Hl].
  constructor; [|apply IH; exact Hl].
  intros Hin. apply negb_true_iff in Hs.
  assert (Hex : existsb (String.eqb s) l = true).
  { apply existsb_exists. exists s. split; [exact Hin | apply String.eqb_refl]. }
  congruence.
Qed.

Lemma enumerate_from_ids {A : Type} (f : nat -> string) (g : nat -> A -> string)
  (l : list A) (k : nat) :
  (forall i a, g i a = f i) ->
  map (fun ip => g (fst ip) (snd ip)) (enumerate_from k l) =
  map f (seq k (List.length l)).
Proof.
  intros Hg. revert k. induction l as [|a l IH]; intros k; simpl; [reflexivity|].
  rewrite Hg, IH. reflexivity.
Qed.

(** X2.  The prediction table has exactly 150 rows; the row at
    position i carries the id NASA_ followed by i+1 written with three
    digits; no id occurs twice. *)
Theorem prediction_ids_sequential_and_distinct (RS : RandomSource)
  (clock : nat -> datetime) (eonet_events : list json) (w : world RS) :
  let table := fst (create_satellite_predictions RS clock eonet_events w) in
  List.length table = 150%nat
  /\ map prediction_id table = map nasa_id (seq 0 150)
  /\ NoDup (map prediction_id table).
Proof.
  intros table. subst table. rewrite create_satellite_predictions_rows.
  pose proof (for_each_length (ocean_point_at RS clock eonet_events)
                (seq 0 150) w) as Hlen.
  rewrite length_seq in Hlen.
  assert (Hids :
            map prediction_id
              (map (fun ip => prediction_of (fst ip) (snd ip))
                 (enumerate_from 0
                    (fst (for_each (ocean_point_at RS clock eonet_events)
                            (seq 0 150) w))))
            = map nasa_id (seq 0 150)).
  { rewrite map_map.
    rewrite (enumerate_from_ids nasa_id
               (fun i a => prediction_id (prediction_of i a)))
      by reflexivity.
    rewrite Hlen. reflexivity. }
  split; [|split].
  - rewrite <- (length_map prediction_id), Hids, length_map, length_seq.
    reflexivity.
  - exact Hids.
  - rewrite Hids. apply distinct_strings_NoDup. vm_compute. reflexivity.
Qed.

Lemma for_each_app {RS : RandomSource} {A B : Type} (body : A -> M RS B)
  (l1 l2 : list A) (w : world RS) :
  fst (for_each body (l1 ++ l2) w) =
  fst (for_each body l1 w) ++ fst (for_each body l2 (snd (for_each body l1 w))).
Proof.
  revert w. induction l1 as [|a l1 IH]; intros w; [reflexivity|].
  cbn [app]. rewrite !for_each_cons.
  destruct (body a w) as [b w1]. specialize (IH w1).
  destruct (for_each body (l1 ++ l2) w1) as [bs w2].
  destruct (for_each body l1 w1) as [bs1 w3]. simpl in *.
  rewrite IH. reflexivity.
Qed.

Lemma for_each_Forall_in {RS : RandomSource} {A B : Type} (P : B -> Prop)
  (body : A -> M RS B) (l : list A) :
  (forall a w, In a l -> P (fst (body a w))) ->
  forall w, Forall P (fst (for_each body l w)).
Proof.
  induction l as [|a l IH]; intros Hbody w.
  - simpl. constructor.
  - rewrite for_each_cons.
    pose proof (Hbody a w (or_introl eq_refl)) as Ha.
    destruct (body a w) as [b w1].
    assert (IH' := IH (fun a' w' Hin => Hbody a' w' (or_intror Hin)) w1).
    destruct (for_each body l w1) as [bs w2]. simpl in *.
    constructor; assumption.
Qed.

Lemma enumerate_from_app {A : Type} (l1 l2 : list A) (k : nat) :
  enumerate_from k (l1 ++ l2) =
  enumerate_from k l1 ++ enumerate_from (k + List.length l1) l2.
Proof.
  revert k. induction l1 as [|a l1 IH]; intros k; simpl.
  - rewrite Nat.add_0_r. reflexivity.
  - rewrite IH. do 3 f_equal. lia.
Qed.

Lemma enumerate_from_length {A : Type} (l : list A) (k : nat) :
  List.length (enumerate_from k l) = List.length l.
Proof.
  revert k. induction l as [|a l IH]; intros k; simpl; [reflexivity|].
  rewrite IH. reflexivity.
Qed.

Lemma ocean_point_location (RS : RandomSource) (clock : nat -> datetime)
  (eonet_events : list json) (i : nat) (w : world RS) :
  let name := op_location_name (fst (ocean_point_at RS clock eonet_events i w)) in
  ((i < 90)%nat -> In name (map h_name shark_hotspots))
  /\ ((90 <= i)%nat -> name = "Sydney Waters"%string).
Proof.
  unfold ocean_point_at, calculate_nasa_hsi, draw_location.
  destruct (i <? 90)%nat eqn:Hi.
  - apply Nat.ltb_lt in Hi. split; [intros _ | intros; lia].
    run_body;
      repeat match goal with
             | |- context [match ?k with O => _ | S _ => _ end] => destruct k
             end;
      simpl; tauto.
  - apply Nat.ltb_ge in Hi. split; [intros; lia | intros _].
    run_body; reflexivity.
Qed.

(** X3.  The first 90 rows of the prediction table are labelled with
    the name of one of the five hotspots, the remaining 60 with
    "Sydney Waters". *)
Theorem prediction_locations (RS : RandomSource) (clock : nat -> datetime)
  (eonet_events : list json) (w : world RS) :
  let table := fst (create_satellite_predictions RS clock eonet_events w) in
  Forall (fun p => In (p_location_name p) (map h_name shark_hotspots))
         (firstn 90 table)
  /\ Forall (fun p => p_location_name p = "Sydney Waters"%string)
            (skipn 90 table)
  /\ List.length (skipn 90 table) = 60%nat.
Proof.
  intros table. subst table. rewrite create_satellite_predictions_rows.
  change (seq 0 150) with (seq 0 90 ++ seq 90 60).
  rewrite for_each_app, enumerate_from_app, map_app.
  set (body := ocean_point_at RS clock eonet_events).
  set (w1 := snd (for_each body (seq 0 90) w)).
  pose proof (for_each_length body (seq 0 90) w) as Hlen1.
  pose proof (for_each_length body (seq 90 60) w1) as Hlen2.
  rewrite length_seq in Hlen1, Hlen2.
  set (first90 := map (fun ip => prediction_of (fst ip) (snd ip))
                      (enumerate_from 0 (fst (for_each body (seq 0 90) w)))).
  assert (Hl : List.length first90 = 90%nat).
  { unfold first90. rewrite length_map, enumerate_from_length. exact Hlen1. }
  rewrite firstn_app, skipn_app, Hl.
  rewrite (firstn_all2 first90) by lia.
  rewrite (skipn_all2 first90) by lia.
  cbn [Nat.sub firstn skipn app]. rewrite app_nil_r.
  split; [|split].
  - unfold first90.
    apply (Forall_enumerate_map
             (fun op => In (op_location_name op) (map h_name shark_hotspots))).
    + intros j a Ha. exact Ha.
    + apply for_each_Forall_in. intros i w0 Hin. apply in_seq in Hin.
      apply (ocean_point_location RS clock eonet_events i w0). lia.
  - apply (Forall_enumerate_map
             (fun op => op_location_name op = "Sydney Waters"%string)).
    + intros j a Ha. exact Ha.
    + apply for_each_Forall_in. intros i w0 Hin. apply in_seq in Hin.
      apply (ocean_point_location RS clock eonet_events i w0). lia.
  - rewrite length_map, enumerate_from_length. exact Hlen2.
Qed.

(** ** Clock readings of a run *)

Lemma ocean_point_at_ticks (RS : RandomSource) (clock : nat -> datetime)
  (eonet_events : list json) (i : nat) (w : world RS) :
  w_tick (snd (ocean_point_at RS clock eonet_events i w)) = (w_tick w + 3)%nat.
Proof.
  unfold ocean_point_at, calculate_nasa_hsi, draw_location.
  run_body; lia.
Qed.

Lemma ocean_points_timestamps (RS : RandomSource) (clock : nat -> datetime)
  (eonet_events : list json) (l : list nat) (w : world RS) :
  map op_timestamp (fst (for_each (ocean_point_at RS clock eonet_events) l w)) =
    map (fun j => clock (w_tick w + 3 * j + 2)%nat) (seq 0 (List.length l))
  /\ w_tick (snd (for_each (ocean_point_at RS clock eonet_events) l w)) =
     (w_tick w + 3 * List.length l)%nat.
Proof.
  revert w. induction l as [|i l IH]; intros w.
  - simpl. split; [reflexivity | lia].
  - rewrite for_each_cons.
    pose proof (ocean_point_at_timestamp RS clock eonet_events i w) as Hts.
    pose proof (ocean_point_at_ticks RS clock eonet_events i w) as Htk.
    destruct (ocean_point_at RS clock eonet_events i w) as [b w1].
    destruct (IH w1) as [IHts IHtk].
    destruct (for_each (ocean_point_at RS clock eonet_events) l w1) as [bs w2].
    simpl in *. split.
    + rewrite Hts, IHts, <- seq_shift, map_map. f_equal.
      * f_equal. lia.
      * apply map_ext. intros j. f_equal. lia.
    + lia.
Qed.

Lemma enumerate_from_snd {A B : Type} (f : nat -> A -> B) (g : B -> datetime)
  (h : A -> datetime) (l : list A) (k : nat) :
  (forall i a, g (f i a) = h a) ->
  map g (map (fun ip => f (fst ip) (snd ip)) (enumerate_from k l)) = map h l.
Proof.
  intros Hg. revert k. induction l as [|a l IH]; intros k; simpl; [reflexivity|].
  rewrite Hg, IH. reflexivity.
Qed.

Lemma create_satellite_predictions_timing (RS : RandomSource)
  (clock : nat -> datetime) (eonet_events : list json) (w : world RS) :
  map p_timestamp (fst (create_satellite_predictions RS clock eonet_events w)) =
    map (fun i => clock (w_tick w + 3 * i + 2)%nat) (seq 0 150)
  /\ w_tick (snd (create_satellite_predictions RS clock eonet_events w)) =
     (w_tick w + 450)%nat.
Proof.
  destruct (ocean_points_timestamps RS clock eonet_events (seq 0 150) w)
    as [Hts Htk].
  rewrite length_seq in Hts, Htk.
  split.
  - rewrite create_satellite_predictions_rows.
    rewrite (enumerate_from_snd prediction_of p_timestamp op_timestamp)
      by reflexivity.
    exact Hts.
  - unfold create_satellite_predictions, generate_nasa_enhanced_data, bind, ret.
    destruct (for_each (ocean_point_at RS clock eonet_events) (seq 0 150) w).
    simpl in *. lia.
Qed.

(** X4.  Building the prediction table reads the clock 450 times,
    three times per sample, and the timestamp of the row at position i
    is the last of the three readings of its sample: reading 3i + 2
    counted from the start of the call. *)
Theorem prediction_timestamps_are_readings (RS : RandomSource)
  (clock : nat -> datetime) (eonet_events : list json) (w : world RS) :
  map p_timestamp (fst (create_satellite_predictions RS clock eonet_events w)) =
    map (fun i => clock (w_tick w + 3 * i + 2)%nat) (seq 0 150)
  /\ w_tick (snd (create_satellite_predictions RS clock eonet_events w)) =
     (w_tick w + 450)%nat.
Proof.
  apply create_satellite_predictions_timing.
Qed.

Lemma tag_event_from_ticks (RS : RandomSource) (clock : nat -> datetime)
  (sh : shark) (event_num : nat) (pred : prediction) (w : world RS) :
  w_tick (snd (tag_event_from RS clock sh event_num pred w)) = S (w_tick w).
Proof.
  unfold tag_event_from. run_body; reflexivity.
Qed.

(** [tag_event_at] with its draws named. *)
Lemma tag_event_at_run (RS : RandomSource) (clock : nat -> datetime)
  (satellite_df : list prediction) (sh : shark) (event_num : nat)
  (w : world RS) :
  tag_event_at RS clock satellite_df sh event_num w =
  match suitable_for satellite_df (temp_pref sh) with
  | [] => (None, w)
  | first :: rest =>
      let (k, g) := rs_sample RS (List.length (first :: rest)) (w_rng w) in
      let (e, w2) :=
        tag_event_from RS clock sh event_num (nth k (first :: rest) first)
                       {| w_rng := g; w_tick := w_tick w |} in
      (Some e, w2)
  end.
Proof.
  unfold tag_event_at.
  destruct (suitable_for satellite_df (temp_pref sh)) as [|first rest];
    [reflexivity|].
  unfold bind at 1, draw at 1.
  destruct (rs_sample RS (List.length (first :: rest)) (w_rng w)) as [k g].
  unfold bind, ret.
  destruct (tag_event_from RS clock sh event_num (nth k (first :: rest) first)
              {| w_rng := g; w_tick := w_tick w |}).
  reflexivity.
Qed.

Lemma tag_event_at_ticks (RS : RandomSource) (clock : nat -> datetime)
  (satellite_df : list prediction) (sh : shark) (event_num : nat)
  (w : world RS) :
  w_tick (snd (tag_event_at RS clock satellite_df sh event_num w)) =
  (w_tick w + List.length (somes [fst (tag_event_at RS clock satellite_df sh
                                          event_num w)]))%nat.
Proof.
  rewrite tag_event_at_run.
  destruct (suitable_for satellite_df (temp_pref sh)) as [|first rest].
  - simpl. lia.
  - destruct (rs_sample RS (List.length (first :: rest)) (w_rng w)) as [k g].
    pose proof (tag_event_from_ticks RS clock sh event_num
                  (nth k (first :: rest) first)
                  {| w_rng := g; w_tick := w_tick w |}) as Htk.
    destruct (tag_event_from RS clock sh event_num (nth k (first :: rest) first)
                {| w_rng := g; w_tick := w_tick w |}) as [e w2].
    simpl in *. lia.
Qed.

Lemma tag_events_ticks (RS : RandomSource) (clock : nat -> datetime)
  (satellite_df : list prediction) (sh : shark) (l : list nat) (w : world RS) :
  w_tick (snd (for_each (tag_event_at RS clock satellite_df sh) l w)) =
  (w_tick w
   + List.length (somes (fst (for_each (tag_event_at RS clock satellite_df sh)
                                l w))))%nat.
Proof.
  revert w. induction l as [|n l IH]; intros w; [simpl; lia|].
  rewrite for_each_cons.
  pose proof (tag_event_at_ticks RS clock satellite_df sh n w) as Htk.
  destruct (tag_event_at RS clock satellite_df sh n w) as [o w1].
  specialize (IH w1).
  destruct (for_each (tag_event_at RS clock satellite_df sh) l w1) as [os w2].
  simpl in *. destruct o; simpl in *; lia.
Qed.

Lemma shark_events_ticks (RS : RandomSource) (clock : nat -> datetime)
  (satellite_df : list prediction) (sh : shark) (w : world RS) :
  w_tick (snd (shark_events RS clock satellite_df sh w)) =
  (w_tick w
   + List.length (snd (fst (shark_events RS clock satellite_df sh w))))%nat.
Proof.
  rewrite shark_events_run.
  destruct (rs_randint RS 8 16 (w_rng w)) as [n g].
  pose proof (tag_events_ticks RS clock satellite_df sh (seq 0 (Z.to_nat n))
                {| w_rng := g; w_tick := w_tick w |}) as Htk.
  destruct (for_each (tag_event_at RS clock satellite_df sh)
              (seq 0 (Z.to_nat n)) {| w_rng := g; w_tick := w_tick w |}).
  simpl in *. exact Htk.
Qed.

Lemma sharks_events_ticks (RS : RandomSource) (clock : nat -> datetime)
  (satellite_df : list prediction) (sharks : list shark) (w : world RS) :
  w_tick (snd (for_each (shark_events RS clock satellite_df) sharks w)) =
  (w_tick w
   + List.length
       (List.concat
          (map snd (fst (for_each (shark_events RS clock satellite_df)
                           sharks w)))))%nat.
Proof.
  revert w. induction sharks as [|sh sharks IH]; intros w; [simpl; lia|].
  rewrite for_each_cons.
  pose proof (shark_events_ticks RS clock satellite_df sh w) as Htk.
  destruct (shark_events RS clock satellite_df sh w) as [r w1].
  specialize (IH w1).
  destruct (for_each (shark_events RS clock satellite_df) sharks w1)
    as [rs w2].
  simpl in *. rewrite length_app. lia.
Qed.

Lemma tagged_sharks_ticks (RS : RandomSource) (l : list nat) (w : world RS) :
  w_tick (snd (for_each (tagged_shark_at RS) l w)) = w_tick w.
Proof.
  revert w. induction l as [|i l IH]; intros w; [reflexivity|].
  rewrite for_each_cons.
  assert (Htk : w_tick (snd (tagged_shark_at RS i w)) = w_tick w)
    by (unfold tagged_shark_at; run_body; reflexivity).
  destruct (tagged_shark_at RS i w) as [s w1]. specialize (IH w1).
  destruct (for_each (tagged_shark_at RS) l w1) as [ss w2].
  simpl in *. lia.
Qed.

(** [generate_mantis_tag_data] with its two loops named. *)
Lemma generate_mantis_tag_data_run (RS : RandomSource)
  (clock : nat -> datetime) (satellite_df : list prediction)
  (n_sharks : nat) (w : world RS) :
  generate_mantis_tag_data RS clock satellite_df n_sharks w =
  (let (sharks, w1) := for_each (tagged_shark_at RS) (seq 0 n_sharks) w in
   let (per_shark, w2) :=
     for_each (shark_events RS clock satellite_df) sharks w1 in
   (DataFrame (List.concat (map snd per_shark)), w2)).
Proof.
  unfold generate_mantis_tag_data, bind, ret.
  destruct (for_each (tagged_shark_at RS) (seq 0 n_sharks) w) as [sharks w1].
  destruct (for_each (shark_events RS clock satellite_df) sharks w1).
  reflexivity.
Qed.

Lemma generate_mantis_tag_data_ticks (RS : RandomSource)
  (clock : nat -> datetime) (satellite_df : list prediction)
  (n_sharks : nat) (w : world RS) :
  w_tick (snd (generate_mantis_tag_data RS clock satellite_df n_sharks w)) =
  (w_tick w
   + df_len (fst (generate_mantis_tag_data RS clock satellite_df n_sharks w)))%nat.
Proof.
  rewrite generate_mantis_tag_data_run.
  pose proof (tagged_sharks_ticks RS (seq 0 n_sharks) w) as Hsh.
  destruct (for_each (tagged_shark_at RS) (seq 0 n_sharks) w) as [sharks w1].
  pose proof (sharks_events_ticks RS clock satellite_df sharks w1) as Hev.
  destruct (for_each (shark_events RS clock satellite_df) sharks w1)
    as [per w2].
  unfold df_len. cbn [fst snd] in *. rewrite rows_DataFrame. lia.
Qed.

(** The run with its two stages named. *)
Lemma run_tables_run (RS : RandomSource) (clock : nat -> datetime)
  (eonet_events : list json) (w : world RS) :
  run_tables RS clock eonet_events w =
  (let (sat, w1) := create_satellite_predictions RS clock eonet_events w in
   let (tags, w2) := generate_mantis_tag_data RS clock sat 12 w1 in
   ({| satellite_data := sat; tag_data := tags;
       combined_data := create_combined_dataset sat tags |}, w2)).
Proof.
  unfold run_tables, bind, ret.
  destruct (create_satellite_predictions RS clock eonet_events w) as [sat w1].
  destruct (generate_mantis_tag_data RS clock sat 12 w1). reflexivity.
Qed.

(** X5.  The tag simulator reads the clock once for every row it
    appends and never otherwise, so producing the three tables (steps
    1 to 3 of [run_complete_pipeline]) reads the clock
    450 + (number of tag rows) times. *)
Theorem clock_readings_of_a_run (RS : RandomSource) (clock : nat -> datetime)
  (eonet_events : list json) (satellite_df : list prediction)
  (n_sharks : nat) (w : world RS) :
  w_tick (snd (generate_mantis_tag_data RS clock satellite_df n_sharks w)) =
    (w_tick w
     + df_len (fst (generate_mantis_tag_data RS clock satellite_df n_sharks w)))%nat
  /\ w_tick (snd (run_tables RS clock eonet_events w)) =
     (w_tick w + 450
      + df_len (tag_data (fst (run_tables RS clock eonet_events w))))%nat.
Proof.
  split; [apply generate_mantis_tag_data_ticks|].
  rewrite run_tables_run.
  destruct (create_satellite_predictions_timing RS clock eonet_events w)
    as [_ Hsat].
  destruct (create_satellite_predictions RS clock eonet_events w) as [sat w1].
  pose proof (generate_mantis_tag_data_ticks RS clock sat 12 w1) as Htag.
  destruct (generate_mantis_tag_data RS clock sat 12 w1) as [tags w2].
  cbn [fst snd tag_data] in *. lia.
Qed.

(** ** Quality label and prey type of the stored rows *)

Lemma ocean_point_score (RS : RandomSource) (clock : nat -> datetime)
  (eonet_events : list json) (i : nat) (w : world RS) :
  exists hsi,
    op_habitat_suitability_index (fst (ocean_point_at RS clock eonet_events i w))
      = py_round hsi 4
    /\ op_habitat_quality (fst (ocean_point_at RS clock eonet_events i w))
       = habitat_quality_of hsi.
Proof.
  unfold ocean_point_at. run_body_eq.
  eexists. split; reflexivity.
Qed.

Lemma rounded_score_matches_quality (hsi : R) :
  (habitat_quality_of hsi = "high"%string /\ 0.75 <= py_round hsi 4)
  \/ (habitat_quality_of hsi = "medium"%string
      /\ 0.5 <= py_round hsi 4 <= 0.75)
  \/ (habitat_quality_of hsi = "low"%string /\ py_round hsi 4 <= 0.5).
Proof.
  unfold habitat_quality_of. cases_on_comparisons.
  - left. split; [reflexivity|]. lower_by 7500%Z. lra.
  - right. left. split; [reflexivity|]. split.
    + lower_by 5000%Z. lra.
    + upper_by 7500%Z. lra.
  - right. right. split; [reflexivity|]. upper_by 5000%Z. lra.
Qed.

(** X6.  In every row of the prediction table the quality label agrees
    with the stored confidence: high rows have confidence at least
    0.75, medium rows between 0.5 and 0.75, low rows at most 0.5.  (The
    label is computed before the confidence is rounded to four
    decimals, so the boundaries are shared.) *)
Theorem quality_label_matches_stored_confidence (RS : RandomSource)
  (clock : nat -> datetime) (eonet_events : list json) (w : world RS) :
  Forall quality_matches_confidence
         (fst (create_satellite_predictions RS clock eonet_events w)).
Proof.
  rewrite create_satellite_predictions_rows.
  apply (Forall_enumerate_map
           (fun op => forall j, quality_matches_confidence (prediction_of j op))).
  - intros j a Ha. apply Ha.
  - apply for_each_Forall. intros i w0 j.
    destruct (ocean_point_score RS clock eonet_events i w0) as [hsi [Hs Hq]].
    unfold quality_matches_confidence, prediction_of.
    cbn [p_habitat_quality p_confidence]. rewrite Hs, Hq.
    apply rounded_score_matches_quality.
Qed.

Lemma predict_prey_type_known (chlor temp plankton : R) :
  In (predict_prey_type chlor temp plankton) prey_options.
Proof.
  unfold predict_prey_type, prey_options.
  cases_on_comparisons; simpl; tauto.
Qed.

Lemma other_prey_of_known (s : string) :
  In s prey_options ->
  List.length (other_prey s) = 3%nat /\ ~ In s (other_prey s).
Proof.
  unfold prey_options. simpl.
  intros [<-|[<-|[<-|[<-|[]]]]]; (split; [reflexivity|]);
    unfold other_prey, prey_options; simpl;
    intros [H|[H|[H|[]]]]; discriminate H.
Qed.

Lemma ocean_point_prey (RS : RandomSource) (clock : nat -> datetime)
  (eonet_events : list json) (i : nat) (w : world RS) :
  In (op_predicted_prey_type (fst (ocean_point_at RS clock eonet_events i w)))
     prey_options.
Proof.
  unfold ocean_point_at. run_body_eq. apply predict_prey_type_known.
Qed.

(** X7.  Every row of the prediction table carries one of the four
    prey categories, so the list an incorrect tag outcome is drawn from
    always has exactly the three other categories and never the
    predicted one. *)
Theorem predicted_prey_is_a_category (RS : RandomSource)
  (clock : nat -> datetime) (eonet_events : list json) (w : world RS) :
  Forall known_prey (fst (create_satellite_predictions RS clock eonet_events w)).
Proof.
  rewrite create_satellite_predictions_rows.
  apply (Forall_enumerate_map
           (fun op => In (op_predicted_prey_type op) prey_options)).
  - intros j a Ha. unfold known_prey, prediction_of.
    cbn [p_predicted_prey_type].
    split; [exact Ha | apply other_prey_of_known; exact Ha].
  - apply for_each_Forall. intros i w0. apply ocean_point_prey.
Qed.

(** ** Rows of the tag table *)

(** Unfold one monadic body, innermost draw first, keeping the
    equation of every draw. *)
Ltac run_body_keep :=
  unfold bind, draw, now, ret;
  repeat (match goal with
          | |- context [if ?b then _ else _] => destruct b eqn:?
          | |- context [let (_, _) := ?m in _] =>
              lazymatch m with
              | context [let (_, _) := _ in _] => fail
              | _ => destruct m eqn:?
              end
          end;
          cbv beta iota; cbn [fst snd w_rng w_tick]);
  simpl.

Lemma tagged_shark_profiled (RS : RandomSource) (i : nat) (w : world RS) :
  profiled_shark (fst (tagged_shark_at RS i w)).
Proof.
  unfold tagged_shark_at, profiled_shark, bind, draw, ret.
  destruct (rs_choice RS (List.length shark_species) (w_rng w)) as [k g].
  cbn [w_rng w_tick].
  destruct (rs_uniform RS
              (fst (sp_size_range (nth k shark_species great_white)))
              (snd (sp_size_range (nth k shark_species great_white))) g)
    as [size g'].
  cbn [fst species temp_pref aggression].
  exists (nth k shark_species great_white).
  split; [|repeat split].
  destruct (Nat.lt_ge_cases k (List.length shark_species)) as [Hlt|Hge].
  - apply nth_In. exact Hlt.
  - rewrite nth_overflow by exact Hge. left. reflexivity.
Qed.

Lemma suitable_incl (satellite_df : list prediction) (tp : R) (p : prediction) :
  In p (suitable_for satellite_df tp) -> In p satellite_df.
Proof.
  rewrite suitable_for_cases.
  destruct (filter (primary_mask tp) satellite_df) eqn:Hprim;
    [|rewrite <- Hprim]; intros Hin; apply filter_In in Hin; tauto.
Qed.

(** A property of every event built for a profiled shark from a row of
    the pool holds of every row of the tag table. *)
Lemma tag_rows_Forall (RS : RandomSource) (clock : nat -> datetime)
  (satellite_df : list prediction) (n_sharks : nat) (w : world RS)
  (P : tag_event -> Prop) :
  (forall sh event_num pred w0,
      profiled_shark sh ->
      In pred (suitable_for satellite_df (temp_pref sh)) ->
      P (fst (tag_event_from RS clock sh event_num pred w0))) ->
  Forall P (rows (fst (generate_mantis_tag_data RS clock satellite_df
                         n_sharks w))).
Proof.
  intros HP. rewrite generate_mantis_tag_data_run.
  pose proof (for_each_Forall profiled_shark (tagged_shark_at RS)
                (seq 0 n_sharks) (tagged_shark_profiled RS) w) as Hsharks.
  destruct (for_each (tagged_shark_at RS) (seq 0 n_sharks) w) as [sharks w1].
  cbn [fst] in Hsharks.
  assert (Hper : Forall (fun r : Z * list tag_event => Forall P (snd r))
                        (fst (for_each (shark_events RS clock satellite_df)
                                sharks w1))).
  { apply for_each_Forall_in. intros sh w0 Hin.
    assert (Hsh : profiled_shark sh)
      by (apply (proj1 (Forall_forall _ _) Hsharks); exact Hin).
    rewrite shark_events_run.
    destruct (rs_randint RS 8 16 (w_rng w0)) as [n g].
    pose proof (for_each_Forall
                  (fun o : option tag_event =>
                     match o with Some t => P t | None => True end)
                  (tag_event_at RS clock satellite_df sh)
                  (seq 0 (Z.to_nat n))) as Hev.
    assert (Hbody : forall a w2,
               match fst (tag_event_at RS clock satellite_df sh a w2) with
               | Some t => P t
               | None => True
               end).
    { intros a w2.
      pose proof (tag_event_at_cases RS clock satellite_df sh a w2) as Hc.
      destruct (suitable_for satellite_df (temp_pref sh)) as [|first rest]
        eqn:Hs.
      - rewrite Hc. exact I.
      - destruct Hc as [pred [w3 [Hin' Heq]]]. rewrite Heq.
        pose proof (HP sh a pred w3 Hsh) as Hp. rewrite Hs in Hp.
        specialize (Hp Hin').
        destruct (tag_event_from RS clock sh a pred w3). exact Hp. }
    specialize (Hev Hbody {| w_rng := g; w_tick := w_tick w0 |}).
    destruct (for_each (tag_event_at RS clock satellite_df sh)
                (seq 0 (Z.to_nat n)) {| w_rng := g; w_tick := w_tick w0 |}).
    cbn [fst snd] in *. apply Forall_somes. exact Hev. }
  destruct (for_each (shark_events RS clock satellite_df) sharks w1)
    as [per_shark w2].
  cbn [fst] in *. rewrite rows_DataFrame. apply Forall_concat_snd. exact Hper.
Qed.

Lemma other_prey_spec (predicted s : string) :
  In s (other_prey predicted) -> s <> predicted /\ In s prey_options.
Proof.
  unfold other_prey. intros Hin. apply filter_In in Hin.
  destruct Hin as [Hopt Hne]. split; [|exact Hopt].
  apply negb_true_iff in Hne. apply String.eqb_neq. exact Hne.
Qed.

Lemma other_prey_nonempty (predicted : string) :
  (0 < List.length (other_prey predicted))%nat.
Proof.
  unfold other_prey, prey_options. cbn [filter].
  destruct (String.eqb_spec "small_fish" predicted) as [<-|_];
    [cbn; lia|].
  cbn [negb List.length]. lia.
Qed.

Lemma tag_event_from_label (RS : RandomSource) (clock : nat -> datetime)
  (sh : shark) (event_num : nat) (pred : prediction) (w : world RS) :
  choice_in_range RS ->
  label_matches_prey (fst (tag_event_from RS clock sh event_num pred w)).
Proof.
  intros Hchoice. unfold tag_event_from, label_matches_prey.
  run_body_keep;
    try (left; split; reflexivity);
    right; (split; [reflexivity|]);
    match goal with
    | H : rs_choice RS ?n ?g = (?k, _) |- _ =>
        pose proof (Hchoice n g (other_prey_nonempty _)) as Hk;
        rewrite H in Hk; cbn [fst] in Hk
    end;
    apply other_prey_spec; apply nth_In; exact Hk.
Qed.

(** X8.  If [np.random.choice] returns a position of the sequence it is
    given, every tag row is labelled consistently: a correct row has
    the predicted prey as its actual prey, an incorrect row has one of
    the four categories that differs from the predicted one. *)
Theorem accuracy_label_matches_prey (RS : RandomSource)
  (clock : nat -> datetime) (satellite_df : list prediction)
  (n_sharks : nat) (w : world RS) :
  choice_in_range RS ->
  Forall label_matches_prey
         (rows (fst (generate_mantis_tag_data RS clock satellite_df
                       n_sharks w))).
Proof.
  intros Hchoice. apply tag_rows_Forall.
  intros sh event_num pred w0 _ _. apply tag_event_from_label. exact Hchoice.
Qed.

Lemma fixed_source_choice : choice_in_range fixed_source.
Proof.
  intros n g Hn. exact Hn.
Qed.

Lemma fixed_source_randint : randint_in_range fixed_source.
Proof.
  intros lo hi g Hlt. simpl. lia.
Qed.

Lemma fixed_source_support : draws_in_support fixed_source.
Proof.
  split; [|split; [|split]].
  - intros lo hi g Hle. simpl. lra.
  - intros a b g Ha Hb. simpl.
    assert (Hab : 0 < a + b) by lra.
    split.
    + apply Rmult_le_pos; [lra | left; apply Rinv_0_lt_compat; exact Hab].
    + apply Rmult_le_reg_r with (r := a + b); [exact Hab|].
      unfold Rdiv. rewrite Rmult_assoc, Rinv_l by lra. lra.
  - intros scale g Hs. simpl. lra.
  - apply fixed_source_randint.
Qed.

Lemma accuracy_label_matches_prey_witness :
  Forall label_matches_prey
         (rows (fst (generate_mantis_tag_data fixed_source
                       (clock_from midnight_2026_11_04)
                       [sample_prediction 0.62 21.0] 1
                       (@seeded fixed_source tt)))).
Proof.
  apply (accuracy_label_matches_prey fixed_source).
  intros n g Hn. exact Hn.
Defined.

Lemma tag_event_from_reference (RS : RandomSource) (clock : nat -> datetime)
  (satellite_df : list prediction) (sh : shark) (event_num : nat)
  (pred : prediction) (w : world RS) :
  profiled_shark sh ->
  In pred satellite_df ->
  references_prediction satellite_df
    (fst (tag_event_from RS clock sh event_num pred w)).
Proof.
  intros [sp [Hsp [Hname _]]] Hin.
  assert (Hspecies : In (species sh) (map sp_name shark_species))
    by (rewrite Hname; apply in_map; exact Hsp).
  unfold tag_event_from, references_prediction.
  run_body; (split; [exists pred; repeat split; exact Hin|]);
    (split; [exact Hspecies | split; reflexivity]).
Qed.

(** X9.  Every tag row refers to the tables it was built from: its
    satellite confidence and predicted prey are those of one row of
    the prediction table it was given, its species is one of the five
    of the species table, and it is marked as a detected feeding from
    source mantis_tag. *)
Theorem tag_rows_reference_their_sources (RS : RandomSource)
  (clock : nat -> datetime) (satellite_df : list prediction)
  (n_sharks : nat) (w : world RS) :
  Forall (references_prediction satellite_df)
         (rows (fst (generate_mantis_tag_data RS clock satellite_df
                       n_sharks w))).
Proof.
  apply tag_rows_Forall. intros sh event_num pred w0 Hsh Hin.
  apply tag_event_from_reference; [exact Hsh|].
  apply (suitable_incl satellite_df (temp_pref sh)). exact Hin.
Qed.

Lemma tag_confidence_at_most_072 (fi ph bf ss : R) :
  0 <= tag_confidence_of fi ph bf ss <= 0.72.
Proof.
  unfold tag_confidence_of.
  cases_on_comparisons; rewrite Rmin_right by lra; lra.
Qed.

Lemma tag_event_from_bounded (RS : RandomSource) (clock : nat -> datetime)
  (sh : shark) (event_num : nat) (pred : prediction) (w : world RS) :
  tag_row_bounded (fst (tag_event_from RS clock sh event_num pred w)).
Proof.
  unfold tag_event_from, tag_row_bounded.
  run_body;
    (split;
     [ split;
       [ lower_by 0%Z; apply tag_confidence_at_most_072
       | upper_by 720%Z; apply tag_confidence_at_most_072 ]
     | lower_by 250%Z; apply Rmax_l ]).
Qed.

(** X10.  Whatever the random source draws, every tag row has a tag
    confidence between 0 and 0.72 (the four ladders cannot add up to
    the 0.95 cap) and a battery level of at least 25. *)
Theorem tag_rows_bounded (RS : RandomSource) (clock : nat -> datetime)
  (satellite_df : list prediction) (n_sharks : nat) (w : world RS) :
  Forall tag_row_bounded
         (rows (fst (generate_mantis_tag_data RS clock satellite_df
                       n_sharks w))).
Proof.
  apply tag_rows_Forall. intros sh event_num pred w0 _ _.
  apply tag_event_from_bounded.
Qed.

(** Turn the equation of a draw into the bound its contract gives. *)
Ltac bound_draws Hu Hb He Hr :=
  repeat match goal with
         | H : rs_uniform _ ?lo ?hi ?g = (?r, _) |- _ =>
             let B := fresh "Hbound" in
             pose proof (Hu lo hi g ltac:(lra)) as B;
             rewrite H in B; cbn [fst] in B; clear H
         | H : rs_beta _ ?a ?b ?g = (?r, _) |- _ =>
             let B := fresh "Hbound" in
             pose proof (Hb a b g ltac:(lra) ltac:(lra)) as B;
             rewrite H in B; cbn [fst] in B; clear H
         | H : rs_exponential _ ?s ?g = (?r, _) |- _ =>
             let B := fresh "Hbound" in
             pose proof (He s g ltac:(lra)) as B;
             rewrite H in B; cbn [fst] in B; clear H
         | H : rs_randint _ ?lo ?hi ?g = (?r, _) |- _ =>
             let B := fresh "Hbound" in
             pose proof (Hr lo hi g ltac:(lia)) as B;
             rewrite H in B; cbn [fst] in B; clear H
         end.

Lemma tag_event_from_physiological (RS : RandomSource)
  (clock : nat -> datetime) (sh : shark) (event_num : nat)
  (pred : prediction) (w : world RS) :
  draws_in_support RS ->
  tag_row_physiological (fst (tag_event_from RS clock sh event_num pred w)).
Proof.
  intros [Hu [Hb [He Hr]]]. unfold tag_event_from, tag_row_physiological.
  run_body_keep; bound_draws Hu Hb He Hr;
    (split; [split; [lower_by 0%Z; lra | upper_by 1000%Z; lra]|]);
    (split;
     [ first [ left; split; [lower_by 120%Z; lra | upper_by 220%Z; lra]
             | right; split; [lower_by 280%Z; lra | upper_by 420%Z; lra] ]|]);
    (split;
     [ first [ left; split; [lower_by 90%Z; lra | upper_by 230%Z; lra]
             | right; split; [lower_by 280%Z; lra | upper_by 520%Z; lra] ]|]);
    (split;
     [ split;
       [ lower_by 250%Z; apply Rmax_l
       | upper_by 1000%Z; apply Rmax_lub; lra ]
     | lia ]).
Qed.

(** X11.  If the random source keeps to the supports of its
    distributions, every tag row has feeding intensity in [0, 1],
    stomach pH in [1.2, 2.2] or [2.8, 4.2] and never in between,
    swimming speed in [0.9, 2.3] or [2.8, 5.2] and never in between,
    battery level in [25, 100] and signal strength from -88 to -43. *)
Theorem tag_rows_physiological (RS : RandomSource) (clock : nat -> datetime)
  (satellite_df : list prediction) (n_sharks : nat) (w : world RS) :
  draws_in_support RS ->
  Forall tag_row_physiological
         (rows (fst (generate_mantis_tag_data RS clock satellite_df
                       n_sharks w))).
Proof.
  intros Hsupport. apply tag_rows_Forall. intros sh event_num pred w0 _ _.
  apply tag_event_from_physiological. exact Hsupport.
Qed.

Lemma tag_rows_physiological_witness :
  Forall tag_row_physiological
         (rows (fst (generate_mantis_tag_data fixed_source
                       (clock_from midnight_2026_11_04)
                       [sample_prediction 0.62 21.0] 1
                       (@seeded fixed_source tt)))).
Proof.
  apply (tag_rows_physiological fixed_source).
  split; [|split; [|split]].
  - intros lo hi g Hle. simpl. lra.
  - intros a b g Ha Hb. apply fixed_source_support; assumption.
  - intros scale g Hs. simpl. lra.
  - intros lo hi g Hlt. simpl. lia.
Defined.

(** ** Size of the tag table *)

Lemma pool_nonempty (satellite_df : list prediction) (tp : R) :
  (exists p, In p satellite_df /\ p_confidence p > 0.3) ->
  suitable_for satellite_df tp <> [].
Proof.
  intros [p [Hin Hconf]]. rewrite suitable_for_cases.
  destruct (filter (primary_mask tp) satellite_df) eqn:Hprim; [|discriminate].
  intros Hnil.
  assert (Hp : In p (filter relaxed_mask satellite_df)).
  { apply filter_In. split; [exact Hin|].
    unfold relaxed_mask. apply Rltb_true. lra. }
  rewrite Hnil in Hp. exact Hp.
Qed.

Lemma shark_events_count (RS : RandomSource) (clock : nat -> datetime)
  (satellite_df : list prediction) (sh : shark) (w : world RS) :
  randint_in_range RS ->
  suitable_for satellite_df (temp_pref sh) <> [] ->
  (8 <= List.length (snd (fst (shark_events RS clock satellite_df sh w))) <= 15)%nat.
Proof.
  intros Hr Hpool. rewrite shark_events_run.
  pose proof (Hr 8%Z 16%Z (w_rng w) ltac:(lia)) as Hn.
  destruct (rs_randint RS 8 16 (w_rng w)) as [n g]. cbn [fst] in Hn.
  pose proof (events_all_emitted RS clock satellite_df sh (seq 0 (Z.to_nat n))
                {| w_rng := g; w_tick := w_tick w |} Hpool) as Hall.
  destruct (for_each (tag_event_at RS clock satellite_df sh)
              (seq 0 (Z.to_nat n)) {| w_rng := g; w_tick := w_tick w |}).
  cbn [fst snd] in *. rewrite length_seq in Hall. lia.
Qed.

Lemma concat_length_between {A B : Type} (lo hi : nat) (l : list (A * list B)) :
  Forall (fun r => (lo <= List.length (snd r) <= hi)%nat) l ->
  (lo * List.length l <= List.length (List.concat (map snd l))
   <= hi * List.length l)%nat.
Proof.
  induction 1 as [|r l Hr _ IH]; simpl; [lia|].
  rewrite length_app. lia.
Qed.

Lemma tag_rows_between (RS : RandomSource) (clock : nat -> datetime)
  (satellite_df : list prediction) (n_sharks : nat) (w : world RS) :
  randint_in_range RS ->
  (exists p, In p satellite_df /\ p_confidence p > 0.3) ->
  (8 * n_sharks
   <= df_len (fst (generate_mantis_tag_data RS clock satellite_df n_sharks w))
   <= 15 * n_sharks)%nat.
Proof.
  intros Hr Hconf. rewrite generate_mantis_tag_data_run.
  pose proof (for_each_length (tagged_shark_at RS) (seq 0 n_sharks) w) as Hlen.
  rewrite length_seq in Hlen.
  destruct (for_each (tagged_shark_at RS) (seq 0 n_sharks) w) as [sharks w1].
  pose proof (for_each_length (shark_events RS clock satellite_df) sharks w1)
    as Hlen2.
  pose proof (for_each_Forall
                (fun r : Z * list tag_event =>
                   (8 <= List.length (snd r) <= 15)%nat)
                (shark_events RS clock satellite_df) sharks
                (fun sh w0 => shark_events_count RS clock satellite_df sh w0 Hr
                                (pool_nonempty satellite_df (temp_pref sh) Hconf))
                w1) as Hall.
  destruct (for_each (shark_events RS clock satellite_df) sharks w1)
    as [per_shark w2].
  cbn [fst snd] in *. unfold df_len. rewrite rows_DataFrame.
  pose proof (concat_length_between 8 15 per_shark Hall) as Hc. lia.
Qed.

Lemma for_each_Forall2 {RS : RandomSource} {A B : Type} (P : A -> B -> Prop)
  (body : A -> M RS B) (l : list A) :
  (forall a w, P a (fst (body a w))) ->
  forall w, Forall2 P l (fst (for_each body l w)).
Proof.
  intros Hbody. induction l as [|a l IH]; intros w.
  - simpl. constructor.
  - rewrite for_each_cons. specialize (Hbody a w).
    destruct (body a w) as [b w1]. specialize (IH w1).
    destruct (for_each body l w1) as [bs w2]. simpl in *.
    constructor; assumption.
Qed.

Lemma Forall2_chain {A B C : Type} (P : A -> B -> Prop) (Q : B -> C -> Prop)
  (S : A -> C -> Prop) (l1 : list A) (l2 : list B) (l3 : list C) :
  (forall a b c, P a b -> Q b c -> S a c) ->
  Forall2 P l1 l2 -> Forall2 Q l2 l3 -> Forall2 S l1 l3.
Proof.
  intros Hpq H12. revert l3.
  induction H12 as [|a b l1 l2 Hab _ IH]; intros l3 H23;
    inversion H23; subst; constructor; eauto.
Qed.

Lemma Forall2_map_snd {A B C : Type} (P : A -> C -> Prop) (l1 : list A)
  (l2 : list (B * C)) :
  Forall2 (fun a r => P a (snd r)) l1 l2 -> Forall2 P l1 (map snd l2).
Proof.
  induction 1; simpl; constructor; assumption.
Qed.

Lemma somes_Forall2 {A B : Type} (P : A -> B -> Prop) (l : list A)
  (os : list (option B)) :
  Forall2 (fun a o => exists b, o = Some b /\ P a b) l os ->
  Forall2 P l (somes os).
Proof.
  induction 1 as [|a o l os [b [-> Hb]] _ IH]; simpl; constructor; assumption.
Qed.

Lemma tagged_shark_id (RS : RandomSource) (i : nat) (w : world RS) :
  shark_id (fst (tagged_shark_at RS i w)) = ("MANTIS_" ++ fmt_0d 3 (i + 1))%string.
Proof.
  unfold tagged_shark_at. run_body. reflexivity.
Qed.

Lemma tag_event_from_id (RS : RandomSource) (clock : nat -> datetime)
  (sh : shark) (event_num : nat) (pred : prediction) (w : world RS) :
  tag_id (fst (tag_event_from RS clock sh event_num pred w)) =
  ("TAG_" ++ shark_id sh ++ "_" ++ fmt_0d 2 (event_num + 1))%string.
Proof.
  unfold tag_event_from. run_body; reflexivity.
Qed.

Lemma tag_event_at_id (RS : RandomSource) (clock : nat -> datetime)
  (satellite_df : list prediction) (sh : shark) (event_num : nat)
  (w : world RS) :
  suitable_for satellite_df (temp_pref sh) <> [] ->
  exists e,
    fst (tag_event_at RS clock satellite_df sh event_num w) = Some e
    /\ tag_id e = ("TAG_" ++ shark_id sh ++ "_" ++ fmt_0d 2 (event_num + 1))%string.
Proof.
  intros Hpool.
  pose proof (tag_event_at_cases RS clock satellite_df sh event_num w) as Hc.
  destruct (suitable_for satellite_df (temp_pref sh)) as [|first rest];
    [contradiction|].
  destruct Hc as [pred [w1 [_ Heq]]]. rewrite Heq.
  pose proof (tag_event_from_id RS clock sh event_num pred w1) as Hid.
  destruct (tag_event_from RS clock sh event_num pred w1) as [e w2].
  exists e. split; [reflexivity | exact Hid].
Qed.

Lemma shark_events_numbered (RS : RandomSource) (clock : nat -> datetime)
  (satellite_df : list prediction) (sh : shark) (w : world RS) :
  randint_in_range RS ->
  suitable_for satellite_df (temp_pref sh) <> [] ->
  let block := snd (fst (shark_events RS clock satellite_df sh w)) in
  (8 <= List.length block <= 15)%nat
  /\ Forall2 (fun j t =>
                tag_id t = ("TAG_" ++ shark_id sh ++ "_" ++ fmt_0d 2 (j + 1))%string)
             (seq 0 (List.length block)) block.
Proof.
  intros Hr Hpool block. subst block. rewrite shark_events_run.
  pose proof (Hr 8%Z 16%Z (w_rng w) ltac:(lia)) as Hn.
  destruct (rs_randint RS 8 16 (w_rng w)) as [n g]. cbn [fst] in Hn.
  pose proof (for_each_Forall2
                (fun j o => exists e, o = Some e /\
                   tag_id e = ("TAG_" ++ shark_id sh ++ "_" ++ fmt_0d 2 (j + 1))%string)
                (tag_event_at RS clock satellite_df sh)
                (seq 0 (Z.to_nat n))
                (fun j w0 => tag_event_at_id RS clock satellite_df sh j w0 Hpool)
                {| w_rng := g; w_tick := w_tick w |}) as Hall.
  destruct (for_each (tag_event_at RS clock satellite_df sh)
              (seq 0 (Z.to_nat n)) {| w_rng := g; w_tick := w_tick w |})
    as [appended w1].
  cbn [fst snd] in *. apply somes_Forall2 in Hall.
  pose proof (Forall2_length Hall) as Hlen. rewrite length_seq in Hlen.
  rewrite <- Hlen. split; [lia | exact Hall].
Qed.

Lemma tag_rows_in_blocks (RS : RandomSource) (clock : nat -> datetime)
  (satellite_df : list prediction) (n_sharks : nat) (w : world RS) :
  randint_in_range RS ->
  (exists p, In p satellite_df /\ p_confidence p > 0.3) ->
  exists blocks,
    rows (fst (generate_mantis_tag_data RS clock satellite_df n_sharks w))
    = List.concat blocks
    /\ Forall2 shark_block (seq 0 n_sharks) blocks.
Proof.
  intros Hr Hconf. rewrite generate_mantis_tag_data_run.
  pose proof (for_each_Forall2
                (fun i sh => shark_id sh = ("MANTIS_" ++ fmt_0d 3 (i + 1))%string)
                (tagged_shark_at RS) (seq 0 n_sharks)
                (tagged_shark_id RS) w) as Hsharks.
  destruct (for_each (tagged_shark_at RS) (seq 0 n_sharks) w) as [sharks w1].
  pose proof (for_each_Forall2
                (fun sh (r : Z * list tag_event) =>
                   (8 <= List.length (snd r) <= 15)%nat
                   /\ Forall2 (fun j t =>
                        tag_id t = ("TAG_" ++ shark_id sh ++ "_"
                                    ++ fmt_0d 2 (j + 1))%string)
                        (seq 0 (List.length (snd r))) (snd r))
                (shark_events RS clock satellite_df) sharks
                (fun sh w0 =>
                   shark_events_numbered RS clock satellite_df sh w0 Hr
                     (pool_nonempty satellite_df (temp_pref sh) Hconf))
                w1) as Hper.
  destruct (for_each (shark_events RS clock satellite_df) sharks w1)
    as [per_shark w2].
  cbn [fst snd] in *. exists (map snd per_shark).
  split; [apply rows_DataFrame|].
  apply Forall2_map_snd.
  refine (Forall2_chain _ _ _ _ _ _ _ Hsharks Hper).
  intros i sh r Hid [Hlen Hrows]. split; [exact Hlen|].
  eapply Forall2_impl; [|exact Hrows].
  intros j t Ht. cbv beta in Ht. rewrite Ht, Hid. reflexivity.
Qed.

(** X12.  If [np.random.randint] keeps to its range and at least one
    prediction has confidence above 0.3, every shark gets between 8
    and 15 rows: the tag table is the rows of shark 1, then those of
    shark 2, and so on, each shark's rows numbered from 01 in its tag
    ids, and so the table of n sharks has between 8n and 15n rows. *)
Theorem tag_table_size (RS : RandomSource) (clock : nat -> datetime)
  (satellite_df : list prediction) (n_sharks : nat) (w : world RS) :
  randint_in_range RS ->
  (exists p, In p satellite_df /\ p_confidence p > 0.3) ->
  (exists blocks,
      rows (fst (generate_mantis_tag_data RS clock satellite_df n_sharks w))
      = List.concat blocks
      /\ Forall2 shark_block (seq 0 n_sharks) blocks)
  /\ (8 * n_sharks
      <= df_len (fst (generate_mantis_tag_data RS clock satellite_df n_sharks w))
      <= 15 * n_sharks)%nat.
Proof.
  intros Hr Hconf. split.
  - apply tag_rows_in_blocks; assumption.
  - apply tag_rows_between; assumption.
Qed.

Lemma tag_table_size_witness :
  (exists blocks,
      rows (fst (generate_mantis_tag_data fixed_source
                   (clock_from midnight_2026_11_04)
                   [sample_prediction 0.62 21.0] 12
                   (@seeded fixed_source tt)))
      = List.concat blocks
      /\ Forall2 shark_block (seq 0 12) blocks)
  /\ (8 * 12
      <= df_len (fst (generate_mantis_tag_data fixed_source
                        (clock_from midnight_2026_11_04)
                        [sample_prediction 0.62 21.0] 12
                        (@seeded fixed_source tt)))
      <= 15 * 12)%nat.
Proof.
  apply (tag_table_size fixed_source).
  - intros lo hi g Hlt. simpl. lia.
  - exists (sample_prediction 0.62 21.0). split; [left; reflexivity|].
    simpl. lra.
Defined.

(** X13.  Under the same two conditions and with at least one shark,
    the tag frame has its columns, so the combined table exists and
    has one row per prediction and per tag row. *)
Theorem combined_table_exists_with_confident_prediction (RS : RandomSource)
  (clock : nat -> datetime) (satellite_df : list prediction)
  (n_sharks : nat) (w : world RS) :
  randint_in_range RS ->
  (exists p, In p satellite_df /\ p_confidence p > 0.3) ->
  (0 < n_sharks)%nat ->
  exists combined,
    create_combined_dataset satellite_df
      (fst (generate_mantis_tag_data RS clock satellite_df n_sharks w))
    = Some combined
    /\ List.length combined =
       (List.length satellite_df
        + df_len (fst (generate_mantis_tag_data RS clock satellite_df
                         n_sharks w)))%nat.
Proof.
  intros Hr Hconf Hn.
  pose proof (tag_rows_between RS clock satellite_df n_sharks w Hr Hconf)
    as Hsize.
  destruct (fst (generate_mantis_tag_data RS clock satellite_df n_sharks w))
    as [|events].
  - unfold df_len in Hsize. simpl in Hsize. lia.
  - eexists. split; [reflexivity|].
    rewrite length_app, !length_map. reflexivity.
Qed.

Lemma combined_table_exists_witness :
  exists combined,
    create_combined_dataset [sample_prediction 0.62 21.0]
      (fst (generate_mantis_tag_data fixed_source
              (clock_from midnight_2026_11_04)
              [sample_prediction 0.62 21.0] 12 (@seeded fixed_source tt)))
    = Some combined
    /\ List.length combined =
       (List.length [sample_prediction 0.62 21.0]
        + df_len (fst (generate_mantis_tag_data fixed_source
                         (clock_from midnight_2026_11_04)
                         [sample_prediction 0.62 21.0] 12
                         (@seeded fixed_source tt))))%nat.
Proof.
  apply (combined_table_exists_with_confident_prediction fixed_source).
  - intros lo hi g Hlt. simpl. lia.
  - exists (sample_prediction 0.62 21.0). split; [left; reflexivity|].
    simpl. lra.
  - lia.
Defined.

(** ** Events near a point, for any decoded feed *)

Lemma nearby_geoms_mono (geoms : list json) (lat lon t1 t2 : R) :
  t1 <= t2 ->
  nearby_geoms geoms lat lon t1 = Some true ->
  nearby_geoms geoms lat lon t2 = Some true.
Proof.
  intros Hle. induction geoms as [|geom rest IH]; [discriminate|].
  cbn [nearby_geoms]. unfold obind.
  destruct (dict_get geom "coordinates" (JList [])) as [coords|];
    [|discriminate].
  destruct (py_len coords) as [n|]; [|discriminate].
  destruct (2 <=? n)%nat; [|exact IH].
  destruct (py_index coords 1) as [j1|]; [|discriminate].
  destruct (py_float j1) as [c1|]; [|discriminate].
  destruct (py_index coords 0) as [j0|]; [|discriminate].
  destruct (py_float j0) as [c0|]; [|discriminate].
  destruct (coord_dist lat lon c1 c0 <? t1) eqn:H1.
  - apply Rltb_true in H1.
    assert (H2 : (coord_dist lat lon c1 c0 <? t2) = true)
      by (apply Rltb_true; lra).
    rewrite H2. reflexivity.
  - destruct (coord_dist lat lon c1 c0 <? t2); [reflexivity | exact IH].
Qed.

Lemma event_nearby_at_mono (event : json) (lat lon t1 t2 : R) :
  t1 <= t2 ->
  event_nearby_at event lat lon t1 = true ->
  event_nearby_at event lat lon t2 = true.
Proof.
  intros Hle. unfold event_nearby_at, obind.
  destruct (dict_get event "geometry" (JList [])) as [g|]; [|discriminate].
  destruct (py_iter g) as [geoms|]; [|discriminate].
  destruct (nearby_geoms geoms lat lon t1) as [[|]|] eqn:H1; try discriminate.
  rewrite (nearby_geoms_mono geoms lat lon t1 t2 Hle H1). reflexivity.
Qed.

Lemma filter_length_mono {A : Type} (f g : A -> bool) (l : list A) :
  (forall a, f a = true -> g a = true) ->
  (List.length (filter f l) <= List.length (filter g l))%nat.
Proof.
  intros Hfg. induction l as [|a l IH]; simpl; [lia|].
  destruct (f a) eqn:Hf.
  - rewrite (Hfg a Hf). simpl. lia.
  - destruct (g a); simpl; lia.
Qed.

(** X14.  For any decoded feed, malformed entries included, widening
    the threshold of [event_nearby] never loses an event: an event
    nearby at threshold t1 is nearby at every t2 >= t1, so the count at
    t1 is at most the count at t2. *)
Theorem event_nearby_monotone_in_threshold (eonet_events : list json)
  (event : json) (lat lon t1 t2 : R) :
  t1 <= t2 ->
  (event_nearby_at event lat lon t1 = true ->
   event_nearby_at event lat lon t2 = true)
  /\ (List.length (filter (fun e => event_nearby_at e lat lon t1) eonet_events)
      <= List.length (filter (fun e => event_nearby_at e lat lon t2)
                        eonet_events))%nat.
Proof.
  intros Hle. split.
  - apply event_nearby_at_mono. exact Hle.
  - apply filter_length_mono. intros e. apply event_nearby_at_mono. exact Hle.
Qed.

Lemma event_nearby_monotone_witness :
  (environmental_events_nearby
     [encode_event storm_at_1_8; JNull; JStr "x"] (-34) 151
   <= List.length
        (filter (fun e => event_nearby_at e (-34) 151 2.0)
                [encode_event storm_at_1_8; JNull; JStr "x"]))%nat.
Proof.
  apply (event_nearby_monotone_in_threshold
           [encode_event storm_at_1_8; JNull; JStr "x"] JNull (-34) 151
           event_nearby_default_threshold 2.0).
  unfold event_nearby_default_threshold. lra.
Defined.

(** ** The impact as a running sum over the feed *)

Lemma impact_geom_shift (event geom : json) (lat lon acc : R) :
  impact_geom event geom lat lon acc =
  option_map (fun d => acc + d) (impact_geom event geom lat lon 0).
Proof.
  unfold impact_geom, obind.
  destruct (dict_get geom "coordinates" (JList [])) as [coords|];
    [|reflexivity].
  destruct (py_len coords) as [n|]; [|reflexivity].
  destruct (2 <=? n)%nat; [|simpl; f_equal; lra].
  destruct (py_index coords 1) as [j1|]; [|reflexivity].
  destruct (py_float j1) as [c1|]; [|reflexivity].
  destruct (py_index coords 0) as [j0|]; [|reflexivity].
  destruct (py_float j0) as [c0|]; [|reflexivity].
  destruct (coord_dist lat lon c1 c0 <? 2.0); [|simpl; f_equal; lra].
  destruct (event_title event) as [ty|]; [|reflexivity].
  destruct (py_in "Storm" ty) as [[|]|]; [simpl; f_equal; lra | | reflexivity].
  destruct (py_in "Sea" ty) as [[|]|]; simpl; try reflexivity; f_equal; lra.
Qed.

Lemma impact_geoms_shift (event : json) (geoms : list json) (lat lon acc : R) :
  impact_geoms event geoms lat lon acc =
  acc + impact_geoms event geoms lat lon 0.
Proof.
  revert acc.
  assert (Hgen : forall a b,
             impact_geoms event geoms lat lon (a + b) =
             a + impact_geoms event geoms lat lon b).
  { induction geoms as [|geom rest IH]; intros a b; [reflexivity|].
    cbn [impact_geoms].
    rewrite (impact_geom_shift event geom lat lon (a + b)).
    rewrite (impact_geom_shift event geom lat lon b).
    destruct (impact_geom event geom lat lon 0) as [d|]; cbn [option_map];
      [|reflexivity].
    rewrite <- IH. f_equal. lra. }
  intros acc. rewrite <- Hgen. f_equal. lra.
Qed.

Lemma impact_event_shift (lat lon acc : R) (event : json) :
  impact_event lat lon acc event = acc + impact_event lat lon 0 event.
Proof.
  unfold impact_event.
  destruct (g <-? dict_get event "geometry" (JList []) ;; py_iter g);
    [apply impact_geoms_shift | lra].
Qed.

Lemma impact_fold_shift (lat lon acc : R) (events : list json) :
  fold_left (impact_event lat lon) events acc =
  acc + Rsum (map (impact_event lat lon 0) events).
Proof.
  revert acc. induction events as [|e events IH]; intros acc; simpl; [lra|].
  rewrite IH, (impact_event_shift lat lon acc e). lra.
Qed.

Lemma env_impact_as_sum (events : list json) (lat lon : R) :
  env_impact_of events lat lon = Rsum (map (impact_event lat lon 0) events).
Proof.
  unfold env_impact_of. rewrite impact_fold_shift. lra.
Qed.

Lemma impact_geoms_marks (event : json) (geoms : list json)
  (lat lon acc : R) :
  impact_geoms event geoms lat lon acc =
  fold_left impact_step
    (match event_mark event with
     | Some m => map (fun _ => m)
                     (filter (within 2.0 lat lon) (pairs_before_raise geoms))
     | None => []
     end) acc.
Proof.
  revert acc. induction geoms as [|geom rest IH]; intros acc.
  - destruct (event_mark event); reflexivity.
  - cbn [impact_geoms pairs_before_raise].
    unfold impact_geom, read_entry, obind.
    destruct (dict_get geom "coordinates" (JList [])) as [coords|];
      [|destruct (event_mark event); reflexivity].
    destruct (py_len coords) as [n|];
      [|destruct (event_mark event); reflexivity].
    destruct (2 <=? n)%nat; [|apply IH].
    destruct (py_index coords 1) as [j1|];
      [|destruct (event_mark event); reflexivity].
    destruct (py_float j1) as [c1|];
      [|destruct (py_index coords 0); destruct (event_mark event);
        reflexivity].
    destruct (py_index coords 0) as [j0|];
      [|destruct (event_mark event); reflexivity].
    destruct (py_float j0) as [c0|];
      [|destruct (event_mark event); reflexivity].
    cbn [filter]. unfold within at 1. cbn [fst snd].
    destruct (coord_dist lat lon c1 c0 <? 2.0); [|apply IH].
    specialize (IH (impact_step acc StormEntry)) as IHstorm.
    specialize (IH (impact_step acc SeaEntry)) as IHsea.
    specialize (IH acc).
    unfold event_mark in *.
    destruct (event_title event) as [event_type|]; [|reflexivity].
    destruct (py_in "Storm" event_type) as [[|]|]; [exact IHstorm | | reflexivity].
    destruct (py_in "Sea" event_type) as [[|]|];
      [exact IHsea | exact IH | reflexivity].
Qed.

Lemma impact_event_marks (lat lon acc : R) (event : json) :
  impact_event lat lon acc event =
  fold_left impact_step (event_marks lat lon event) acc.
Proof.
  unfold impact_event, event_marks, event_pairs.
  destruct (g <-? dict_get event "geometry" (JList []) ;; py_iter g)
    as [geoms|].
  - apply impact_geoms_marks.
  - destruct (event_mark event); reflexivity.
Qed.

Lemma impact_fold_marks (lat lon acc : R) (events : list json) :
  fold_left (impact_event lat lon) events acc =
  fold_left impact_step (List.concat (map (event_marks lat lon) events)) acc.
Proof.
  revert acc. induction events as [|e events IH]; intros acc; [reflexivity|].
  cbn [fold_left map List.concat]. rewrite fold_left_app, IH.
  rewrite impact_event_marks. reflexivity.
Qed.

Lemma event_mark_encoded (e : eonet_event) :
  event_mark (encode_event e) =
  if str_contains "Storm" (ev_title e) then Some StormEntry
  else if str_contains "Sea" (ev_title e) then Some SeaEntry
  else None.
Proof.
  unfold event_mark. rewrite event_title_encoded. cbn [py_in].
  destruct (str_contains "Storm" (ev_title e)); [reflexivity|].
  destruct (str_contains "Sea" (ev_title e)); reflexivity.
Qed.

(** X15.  For any decoded feed, malformed entries included, the
    environmental impact is a running sum taken in feed order, started
    at 0: each event is read entry by entry up to its first entry that
    raises, and every pair read that lies within 2.0 degrees subtracts
    0.1 if the event's first category title contains 'Storm' and
    otherwise adds 0.05 if it contains 'Sea'; an event of any other
    category, or whose category cannot be looked up, changes nothing.
    A well-formed event is read whole, by its title. *)
Theorem env_impact_is_running_sum (eonet_events : list json) (lat lon : R) :
  env_impact_of eonet_events lat lon =
    fold_left impact_step
      (List.concat (map (event_marks lat lon) eonet_events)) 0
  /\ (forall e : eonet_event,
        event_pairs (encode_event e) = ev_points e
        /\ event_mark (encode_event e) =
           if str_contains "Storm" (ev_title e) then Some StormEntry
           else if str_contains "Sea" (ev_title e) then Some SeaEntry
           else None).
Proof.
  split.
  - apply impact_fold_marks.
  - intros e. split; [apply event_pairs_encoded | apply event_mark_encoded].
Qed.

(** ** The fetch boundary *)

Lemma chars_are_strings (s : string) : Forall is_str (chars s).
Proof.
  induction s; simpl; constructor; [exact I | assumption].
Qed.

Lemma strings_have_no_effect (events : list json) (lat lon : R) :
  Forall is_str events ->
  env_impact_of events lat lon = 0
  /\ environmental_events_nearby events lat lon = 0%nat.
Proof.
  intros Hstr. rewrite env_impact_as_sum. unfold environmental_events_nearby.
  induction Hstr as [|e events He _ [IH1 IH2]]; [split; reflexivity|].
  destruct e; try contradiction. cbn [map Rsum fold_right filter].
  split.
  - change (fold_right Rplus 0 (map (impact_event lat lon 0) events))
      with (Rsum (map (impact_event lat lon 0) events)).
    rewrite IH1. unfold impact_event. simpl. lra.
  - exact IH2.
Qed.


(** ** The five sub-scores *)

Lemma exp_2_le_9 : exp 2 <= 9.
Proof.
  replace 2 with (1 + 1) by lra. rewrite exp_plus.
  pose proof exp_le_3 as H3. pose proof (exp_pos 1) as Hp. nra.
Qed.

Lemma exp_4_le_81 : exp 4 <= 81.
Proof.
  replace 4 with (2 + 2) by lra. rewrite exp_plus.
  pose proof exp_2_le_9 as H9. pose proof (exp_pos 2) as Hp. nra.
Qed.

Lemma exp_half_le : exp 0.5 <= 1.75.
Proof.
  pose proof exp_le_3 as H3. pose proof (exp_pos 0.5) as Hp.
  replace 1 with (0.5 + 0.5) in H3 by lra. rewrite exp_plus in H3.
  destruct (Rle_dec (exp 0.5) 1.75) as [H|H]; [exact H|]. nra.
Qed.

Lemma exp_mono (x y : R) : x <= y -> exp x <= exp y.
Proof.
  intros [Hlt|Heq]; [left; apply exp_increasing; exact Hlt | rewrite Heq; lra].
Qed.

Lemma thermal_on_clipped (sst : R) :
  0.1 <= thermal_score (np_clip sst 15 26) <= 1.
Proof.
  pose proof (np_clip_bounds sst 15 26 ltac:(lra)) as [Hlo Hhi].
  set (t := np_clip sst 15 26) in *.
  unfold thermal_score.
  assert (Hex : -2 <= - ((t - 20.5) ^ 2) / (2 * 3.2 ^ 2) <= 0).
  { assert (Hsq : 0 <= (t - 20.5) ^ 2 <= 30.25).
    { pose proof (pow2_ge_0 (t - 20.5)) as H0.
      assert (H1 : 0 <= (t - 15) * (26 - t)) by (apply Rmult_le_pos; lra).
      split; [exact H0 | simpl; nra]. }
    unfold Rdiv. replace (/ (2 * 3.2 ^ 2)) with (/ 20.48) by (f_equal; simpl; lra).
    lra. }
  split.
  - apply Rle_trans with (exp (-2)); [|apply exp_mono; lra].
    replace (exp (-2)) with (/ exp 2)
      by (rewrite <- exp_Ropp; f_equal; lra).
    pose proof exp_2_le_9 as H9. pose proof (exp_pos 2) as Hp.
    apply Rle_trans with (/ 9); [lra|].
    apply Rinv_le_contravar; assumption.
  - rewrite <- exp_0. apply exp_mono. lra.
Qed.

Lemma prey_on_clamped (plankton : R) :
  0.05 <= prey_score (Rmax 800 (Rmin 45000 plankton)) <= 0.99.
Proof.
  assert (Hpl : 800 <= Rmax 800 (Rmin 45000 plankton) <= 45000).
  { split; [apply Rmax_l|]. apply Rmax_lub; [lra | apply Rmin_l]. }
  set (pl := Rmax 800 (Rmin 45000 plankton)) in *.
  unfold prey_score.
  assert (Hm : 0.02 <= Rmin (pl / 35000) 1.0 <= 1).
  { split; [apply Rmin_glb; lra | apply Rle_trans with 1.0; [apply Rmin_r | lra]]. }
  set (m := Rmin (pl / 35000) 1.0) in *.
  assert (Hlo : exp (-4) <= exp (- 6 * (m - 0.4))) by (apply exp_mono; lra).
  assert (Hhi : exp (- 6 * (m - 0.4)) <= exp 2.5) by (apply exp_mono; lra).
  assert (H25 : exp 2.5 <= 15.75).
  { replace 2.5 with (2 + 0.5) by lra. rewrite exp_plus.
    pose proof exp_2_le_9. pose proof exp_half_le.
    pose proof (exp_pos 2). pose proof (exp_pos 0.5). nra. }
  assert (H4 : / 81 <= exp (-4)).
  { replace (exp (-4)) with (/ exp 4)
      by (rewrite <- exp_Ropp; f_equal; lra).
    apply Rinv_le_contravar; [apply exp_pos | apply exp_4_le_81]. }
  set (e := exp (- 6 * (m - 0.4))) in *.
  assert (He : / 81 <= e <= 15.75) by lra.
  unfold Rdiv. rewrite Rmult_1_l. split.
  - apply Rle_trans with (/ 16.75); [lra|].
    apply Rinv_le_contravar; lra.
  - apply Rle_trans with (/ (1 + / 81)); [apply Rinv_le_contravar; lra|].
    lra.
Qed.

Lemma productivity_on_clipped (chlor : R) :
  0 < productivity_score (np_clip chlor 0.05 10.0) <= ln 121 / ln 37.
Proof.
  pose proof (np_clip_bounds chlor 0.05 10.0 ltac:(lra)) as [Hlo Hhi].
  set (c := np_clip chlor 0.05 10.0) in *.
  unfold productivity_score.
  assert (Hc : (c >? 0) = true) by (apply Rltb_true; lra).
  rewrite Hc.
  assert (H37 : 0 < ln 37) by (rewrite <- ln_1; apply ln_increasing; lra).
  assert (Hnum : 0 < ln (1 + c * 12))
    by (rewrite <- ln_1; apply ln_increasing; lra).
  assert (Hinv : 0 < / ln 37) by (apply Rinv_0_lt_compat; exact H37).
  unfold Rdiv. split.
  - apply Rmult_lt_0_compat; assumption.
  - apply Rmult_le_compat_r; [lra|].
    destruct (Req_dec (1 + c * 12) 121) as [Heq|Hne].
    + rewrite Heq. lra.
    + left. apply ln_increasing; lra.
Qed.

(** X17.  On the values the generator passes (temperature clipped to
    [15, 26], chlorophyll clipped to [0.05, 10], plankton clamped to
    [800, 45000]) the sub-scores of the habitat index keep to their
    ranges: thermal lies in [0.1, 1] and is 1 at 20.5 degrees; frontal
    lies in [1/3, 1] and is 0.4 for a flat sea surface; prey lies in
    [0.05, 0.99]; coastal lies in [0.3, 1]; productivity is positive
    and at most ln 121 / ln 37, which is above 1.  The weighted
    composite of a sample is therefore above 0.1. *)
Theorem sub_scores_in_range (sst chlor ssh_anomaly plankton dist_coast : R) :
  0.1 <= thermal_score (np_clip sst 15 26) <= 1
  /\ thermal_score 20.5 = 1
  /\ 1 / 3 <= frontal_score ssh_anomaly <= 1
  /\ frontal_score 0 = 0.4
  /\ 0.05 <= prey_score (Rmax 800 (Rmin 45000 plankton)) <= 0.99
  /\ 0.3 <= coastal_score dist_coast <= 1
  /\ 0 < productivity_score (np_clip chlor 0.05 10.0) <= ln 121 / ln 37
  /\ 1 < ln 121 / ln 37
  /\ 0.1 < composite (np_clip sst 15 26) (np_clip chlor 0.05 10.0)
                     ssh_anomaly (Rmax 800 (Rmin 45000 plankton)) dist_coast.
Proof.
  pose proof (thermal_on_clipped sst) as Hthermal.
  assert (Hfrontal : 1 / 3 <= frontal_score ssh_anomaly <= 1).
  { unfold frontal_score. cases_on_comparisons; [|lra].
    split; [apply Rmin_glb; lra | apply Rle_trans with (1.0); [apply Rmin_l | lra]]. }
  pose proof (prey_on_clamped plankton) as Hprey.
  assert (Hcoastal : 0.3 <= coastal_score dist_coast <= 1).
  { unfold coastal_score. cases_on_comparisons; simpl; try lra.
    split; [apply Rmax_l | apply Rmax_lub; lra]. }
  pose proof (productivity_on_clipped chlor) as Hprod.
  split; [exact Hthermal|].
  split.
  { unfold thermal_score.
    replace (20.5 - 20.5) with 0 by lra.
    replace (- (0 ^ 2) / (2 * 3.2 ^ 2)) with 0
      by (unfold Rdiv; ring).
    apply exp_0. }
  split; [exact Hfrontal|].
  split.
  { unfold frontal_score. rewrite Rabs_R0.
    assert (H : (0 >? 0.1) = false) by (apply Rltb_false; lra).
    rewrite H. reflexivity. }
  split; [exact Hprey|].
  split; [exact Hcoastal|].
  split; [exact Hprod|].
  split.
  { assert (H37 : 0 < ln 37) by (rewrite <- ln_1; apply ln_increasing; lra).
    assert (Hlt : ln 37 < ln 121) by (apply ln_increasing; lra).
    apply Rmult_lt_reg_r with (r := ln 37); [exact H37|].
    unfold Rdiv. rewrite Rmult_assoc, Rinv_l by lra. lra. }
  unfold composite. lra.
Qed.

(** ** Taking the combined table apart *)

Lemma filter_map_all {A B : Type} (f : A -> B) (keep : B -> bool) (l : list A) :
  (forall a, keep (f a) = true) -> filter keep (map f l) = map f l.
Proof.
  intros Hk. induction l as [|a l IH]; simpl; [reflexivity|].
  rewrite Hk, IH. reflexivity.
Qed.

Lemma filter_map_none {A B : Type} (f : A -> B) (keep : B -> bool) (l : list A) :
  (forall a, keep (f a) = false) -> filter keep (map f l) = [].
Proof.
  intros Hk. induction l as [|a l IH]; simpl; [reflexivity|].
  rewrite Hk, IH. reflexivity.
Qed.

(** X18.  The combined table can be taken apart again: its rows marked
    prediction are exactly the projected prediction rows, its rows
    marked validation exactly the projected tag rows, both in their
    original order, and its event ids are the prediction ids followed
    by the tag ids. *)
Theorem combined_table_splits_by_marker (satellite_df : list prediction)
  (events : list tag_event) :
  exists combined,
    create_combined_dataset satellite_df (Table events) = Some combined
    /\ filter is_prediction_row combined = map sat_display satellite_df
    /\ filter is_validation_row combined = map tag_display events
    /\ map event_id combined =
       map prediction_id satellite_df ++ map tag_id events
    /\ map display_confidence combined =
       map p_confidence satellite_df ++ map t_tag_confidence events.
Proof.
  eexists. split; [reflexivity|].
  rewrite !filter_app.
  rewrite (filter_map_all sat_display is_prediction_row) by reflexivity.
  rewrite (filter_map_none tag_display is_prediction_row) by reflexivity.
  rewrite (filter_map_none sat_display is_validation_row) by reflexivity.
  rewrite (filter_map_all tag_display is_validation_row) by reflexivity.
  rewrite app_nil_r, !map_app, !map_map. simpl. repeat split.
Qed.

(** ** A whole run *)

Lemma DataFrame_cases {A : Type} (records : list A) :
  (records = [] /\ DataFrame records = Bare)
  \/ (records <> [] /\ DataFrame records = Table records).
Proof.
  destruct records; [left | right]; split; try reflexivity; discriminate.
Qed.

Lemma tag_frame_never_empty_table (RS : RandomSource)
  (clock : nat -> datetime) (satellite_df : list prediction)
  (n_sharks : nat) (w : world RS) :
  match fst (generate_mantis_tag_data RS clock satellite_df n_sharks w) with
  | Bare => True
  | Table events => events <> []
  end.
Proof.
  rewrite generate_mantis_tag_data_run.
  destruct (for_each (tagged_shark_at RS) (seq 0 n_sharks) w) as [sharks w1].
  destruct (for_each (shark_events RS clock satellite_df) sharks w1)
    as [per_shark w2].
  cbn [fst].
  destruct (DataFrame_cases (List.concat (map snd per_shark)))
    as [[_ ->]|[Hne ->]]; [exact I | exact Hne].
Qed.

(** X19.  In every run the satellite table has 150 rows, and the
    combined table exists exactly when at least one tag row was
    appended: then it has 150 rows plus one per tag row; otherwise the
    run has no combined table and an empty tag table. *)
Theorem run_tables_shape (RS : RandomSource) (clock : nat -> datetime)
  (eonet_events : list json) (w : world RS) :
  let run := fst (run_tables RS clock eonet_events w) in
  List.length (satellite_data run) = 150%nat
  /\ match combined_data run with
     | Some combined =>
         (0 < df_len (tag_data run))%nat
         /\ List.length combined = (150 + df_len (tag_data run))%nat
     | None => df_len (tag_data run) = 0%nat
     end.
Proof.
  intros run. subst run. rewrite run_tables_run.
  assert (Hlen : List.length
                   (fst (create_satellite_predictions RS clock eonet_events w))
                 = 150%nat).
  { rewrite create_satellite_predictions_rows.
    rewrite length_map, enumerate_from_length, for_each_length.
    apply length_seq. }
  destruct (create_satellite_predictions RS clock eonet_events w) as [sat w1].
  pose proof (tag_frame_never_empty_table RS clock sat 12 w1) as Hframe.
  destruct (generate_mantis_tag_data RS clock sat 12 w1) as [tags w2].
  cbn [fst satellite_data tag_data combined_data] in *.
  split; [exact Hlen|].
  destruct tags as [|events]; cbn [create_combined_dataset]; [reflexivity|].
  unfold df_len. cbn [rows]. split.
  - destruct events; [contradiction | simpl; lia].
  - rewrite length_app, !length_map, Hlen. reflexivity.
Qed.

(** ** The performance record of generated tables *)

Lemma Rsum_between (a b : R) (l : list R) :
  Forall (fun x => a <= x <= b) l ->
  a * INR (List.length l) <= Rsum l <= b * INR (List.length l).
Proof.
  induction 1 as [|x l Hx _ IH].
  - simpl. lra.
  - cbn [Rsum fold_right List.length]. rewrite S_INR.
    change (fold_right Rplus 0 l) with (Rsum l). lra.
Qed.

Lemma mean_between (a b : R) (l : list R) :
  l <> [] -> Forall (fun x => a <= x <= b) l -> a <= mean l <= b.
Proof.
  intros Hne Hall. unfold mean.
  assert (Hn : 0 < INR (List.length l)).
  { apply lt_0_INR. destruct l; [contradiction | simpl; lia]. }
  pose proof (Rsum_between a b l Hall) as [Hlo Hhi].
  assert (Hinv : 0 < / INR (List.length l)) by (apply Rinv_0_lt_compat; exact Hn).
  unfold Rdiv. split.
  - apply Rmult_le_reg_r with (r := INR (List.length l)); [exact Hn|].
    rewrite Rmult_assoc, Rinv_l by lra. lra.
  - apply Rmult_le_reg_r with (r := INR (List.length l)); [exact Hn|].
    rewrite Rmult_assoc, Rinv_l by lra. lra.
Qed.

Lemma nodup_length_le (l : list string) :
  (List.length (nodup string_dec l) <= List.length l)%nat.
Proof.
  induction l as [|s l IH]; simpl; [lia|].
  destruct (in_dec string_dec s l); simpl; lia.
Qed.

Lemma Forall_map_field {A : Type} (f : A -> R) (a b : R) (l : list A) :
  Forall (fun x => a <= f x <= b) l -> Forall (fun y => a <= y <= b) (map f l).
Proof.
  induction 1; simpl; constructor; assumption.
Qed.

(** X20.  The performance record of tables the generator produced is
    bounded: 150 predictions; an average satellite confidence between
    0.09 and 0.99, the single confidences lying in [0.1, 0.98]; an
    average tag confidence between 0 and 0.73, the single ones lying
    in [0, 0.72], or the fallback 0.82 when there is no tag row; and
    at most five species, never more than there are tag rows. *)
Theorem performance_of_generated_tables (RS : RandomSource)
  (clock : nat -> datetime) (eonet_events : list json) (n_sharks : nat)
  (w w' : world RS) :
  let satellite_df := fst (create_satellite_predictions RS clock eonet_events w) in
  let tag_df :=
    fst (generate_mantis_tag_data RS clock satellite_df n_sharks w') in
  let perf := analyze_performance satellite_df tag_df in
  total_predictions perf = 150%nat
  /\ total_validations perf = df_len tag_df
  /\ 0.09 <= avg_satellite_confidence perf <= 0.99
  /\ (0 <= avg_tag_confidence perf <= 0.73 \/ avg_tag_confidence perf = 0.82)
  /\ (species_diversity perf <= 5)%nat
  /\ (species_diversity perf <= total_validations perf)%nat.
Proof.
  intros satellite_df tag_df perf.
  assert (Hlen : List.length satellite_df = 150%nat).
  { subst satellite_df. rewrite create_satellite_predictions_rows.
    rewrite length_map, enumerate_from_length, for_each_length.
    apply length_seq. }
  assert (Hsat : Forall (fun p => 0.1 <= p_confidence p <= 0.98) satellite_df).
  { subst satellite_df. rewrite create_satellite_predictions_rows.
    apply (Forall_enumerate_map
             (fun op => forall j, prediction_in_range (prediction_of j op))).
    - intros j a Ha. apply (Ha j).
    - apply for_each_Forall. intros i w0 j. apply ocean_point_in_range. }
  assert (Htag : Forall (fun t => 0 <= t_tag_confidence t <= 0.72) (rows tag_df)).
  { subst tag_df. apply tag_rows_Forall. intros sh event_num pred w0 _ _.
    apply tag_event_from_bounded. }
  assert (Hspecies : Forall (fun t => In (t_shark_species t)
                                         (map sp_name shark_species))
                            (rows tag_df)).
  { subst tag_df. apply tag_rows_Forall. intros sh event_num pred w0 Hsh Hin.
    apply (tag_event_from_reference RS clock satellite_df sh event_num pred w0
             Hsh (suitable_incl _ _ _ Hin)). }
  subst perf. unfold analyze_performance.
  cbn [total_predictions total_validations avg_satellite_confidence
       avg_tag_confidence species_diversity].
  rewrite Hlen. change (0 <? 150)%nat with true. cbv iota.
  split; [reflexivity|]. split; [reflexivity|].
  split.
  { assert (Hm : 0.1 <= mean (map p_confidence satellite_df) <= 0.98);
      [|lra].
    apply mean_between.
    - intros Hnil. apply (f_equal (@List.length R)) in Hnil.
      rewrite length_map, Hlen in Hnil. discriminate Hnil.
    - apply Forall_map_field. exact Hsat. }
  destruct (0 <? df_len tag_df)%nat eqn:Hpos.
  - apply Nat.ltb_lt in Hpos. unfold df_len in *.
    split; [left|split].
    + assert (Hm : 0 <= mean (map t_tag_confidence (rows tag_df)) <= 0.72);
        [|lra].
      apply mean_between.
      * intros Hnil. apply (f_equal (@List.length R)) in Hnil.
        rewrite length_map in Hnil. simpl in Hnil. lia.
      * apply Forall_map_field. exact Htag.
    + apply (NoDup_incl_length (l' := map sp_name shark_species)).
      * apply NoDup_nodup.
      * intros s Hin. apply nodup_In in Hin. apply in_map_iff in Hin.
        destruct Hin as [t [<- Ht]].
        apply (proj1 (Forall_forall _ _) Hspecies). exact Ht.
    + rewrite <- (length_map t_shark_species (rows tag_df)).
      apply nodup_length_le.
  - split; [right; reflexivity | split; lia].
Qed.

(** ** Timestamps of the tag rows *)

Lemma tag_event_from_backdated (RS : RandomSource) (clock : nat -> datetime)
  (sh : shark) (event_num : nat) (pred : prediction) (w : world RS) :
  randint_in_range RS ->
  backdated clock (fst (tag_event_from RS clock sh event_num pred w)).
Proof.
  intros Hr. unfold tag_event_from, backdated.
  run_body_keep;
    match goal with
    | H : rs_randint RS 1 168 ?g = (?h, _) |- _ =>
        pose proof (Hr 1%Z 168%Z g ltac:(lia)) as Hh;
        rewrite H in Hh; cbn [fst] in Hh;
        exists (w_tick w), h; split; [lia | reflexivity]
    end.
Qed.

(** X21.  If [np.random.randint] keeps to its range, the timestamp of
    every tag row is a reading of the clock moved back by 1 to 167
    whole hours (the upper end 168 of the call is exclusive). *)
Theorem tag_timestamps_backdated (RS : RandomSource)
  (clock : nat -> datetime) (satellite_df : list prediction)
  (n_sharks : nat) (w : world RS) :
  randint_in_range RS ->
  Forall (backdated clock)
         (rows (fst (generate_mantis_tag_data RS clock satellite_df
                       n_sharks w))).
Proof.
  intros Hr. apply tag_rows_Forall. intros sh event_num pred w0 _ _.
  apply tag_event_from_backdated. exact Hr.
Qed.

Lemma tag_timestamps_backdated_witness :
  Forall (backdated (clock_from midnight_2026_11_04))
         (rows (fst (generate_mantis_tag_data fixed_source
                       (clock_from midnight_2026_11_04)
                       [sample_prediction 0.62 21.0] 1
                       (@seeded fixed_source tt)))).
Proof.
  apply (tag_timestamps_backdated fixed_source).
  intros lo hi g Hlt. simpl. lia.
Defined.

(** ** Two runs on the same day *)

Lemma for_each_related {RS : RandomSource} {A B : Type} (Rel : B -> B -> Prop)
  (body1 body2 : A -> M RS B) (l : list A) :
  (forall a w, Rel (fst (body1 a w)) (fst (body2 a w))
               /\ snd (body1 a w) = snd (body2 a w)) ->
  forall w,
    Forall2 Rel (fst (for_each body1 l w)) (fst (for_each body2 l w))
    /\ snd (for_each body1 l w) = snd (for_each body2 l w).
Proof.
  intros Hbody. induction l as [|a l IH]; intros w.
  - simpl. split; [constructor | reflexivity].
  - rewrite !for_each_cons. destruct (Hbody a w) as [Hrel Hw].
    destruct (body1 a w) as [b1 w1]. destruct (body2 a w) as [b2 w2].
    cbn [fst snd] in *. subst w2. destruct (IH w1) as [IHrel IHw].
    destruct (for_each body1 l w1) as [bs1 w3].
    destruct (for_each body2 l w1) as [bs2 w4].
    cbn [fst snd] in *. split; [constructor; assumption | exact IHw].
Qed.

Lemma for_each_ext {RS : RandomSource} {A B : Type}
  (body1 body2 : A -> M RS B) (l : list A) (w : world RS) :
  (forall a w0, body1 a w0 = body2 a w0) ->
  for_each body1 l w = for_each body2 l w.
Proof.
  intros Hbody. revert w. induction l as [|a l IH]; intros w; [reflexivity|].
  rewrite !for_each_cons, Hbody. destruct (body2 a w) as [b w1].
  rewrite IH. reflexivity.
Qed.

Lemma ocean_point_same_day (RS : RandomSource) (clock1 clock2 : nat -> datetime)
  (eonet_events : list json) (i : nat) (w : world RS) :
  same_day clock1 clock2 ->
  (forall j,
      erase_p (prediction_of j (fst (ocean_point_at RS clock1 eonet_events i w)))
      = erase_p (prediction_of j (fst (ocean_point_at RS clock2 eonet_events i w))))
  /\ snd (ocean_point_at RS clock1 eonet_events i w)
     = snd (ocean_point_at RS clock2 eonet_events i w).
Proof.
  intros Hday. unfold same_day in Hday.
  unfold ocean_point_at, calculate_nasa_hsi, draw_location.
  unfold bind, draw, now, ret. cbn [w_rng w_tick].
  destruct (i <? 90)%nat.
  - destruct (rs_choice RS (List.length shark_hotspots) (w_rng w)) as [k g0].
    cbn [w_rng w_tick].
    destruct (rs_normal RS 0 0.15 g0) as [dlat g1]. cbn [w_rng w_tick].
    destruct (rs_normal RS 0 0.15 g1) as [dlon g2]. cbn [w_rng w_tick].
    destruct (rs_lognormal RS 0 0.5 g2) as [x3 g3]. cbn [w_rng w_tick].
    destruct (rs_normal RS 0 1.2 g3) as [x4 g4]. cbn [w_rng w_tick].
    destruct (rs_normal RS 0 0.2 g4) as [x5 g5]. cbn [w_rng w_tick].
    destruct (rs_normal RS 0 0.3 g5) as [x6 g6]. cbn [w_rng w_tick].
    destruct (rs_uniform RS (-0.02) 0.02 g6) as [x7 g7]. cbn [w_rng w_tick].
    split; [intros j|]; rewrite <- ?Hday; reflexivity.
  - destruct (rs_uniform RS lat_min lat_max (w_rng w)) as [lat g1].
    cbn [w_rng w_tick].
    destruct (rs_uniform RS lon_min lon_max g1) as [lon g2].
    cbn [w_rng w_tick].
    destruct (rs_lognormal RS 0 0.5 g2) as [x3 g3]. cbn [w_rng w_tick].
    destruct (rs_normal RS 0 1.2 g3) as [x4 g4]. cbn [w_rng w_tick].
    destruct (rs_normal RS 0 0.2 g4) as [x5 g5]. cbn [w_rng w_tick].
    destruct (rs_normal RS 0 0.3 g5) as [x6 g6]. cbn [w_rng w_tick].
    destruct (rs_uniform RS (-0.02) 0.02 g6) as [x7 g7]. cbn [w_rng w_tick].
    split; [intros j|]; rewrite <- ?Hday; reflexivity.
Qed.

Lemma enumerate_related {A B : Type} (f : nat -> A -> B) (l1 l2 : list A)
  (k : nat) :
  Forall2 (fun a1 a2 => forall j, f j a1 = f j a2) l1 l2 ->
  map (fun ip => f (fst ip) (snd ip)) (enumerate_from k l1) =
  map (fun ip => f (fst ip) (snd ip)) (enumerate_from k l2).
Proof.
  intros Hrel. revert k. induction Hrel as [|a1 a2 l1 l2 Ha _ IH]; intros k.
  - reflexivity.
  - simpl. rewrite Ha, IH. reflexivity.
Qed.

Lemma satellite_table_same_day (RS : RandomSource)
  (clock1 clock2 : nat -> datetime) (eonet_events : list json) (w : world RS) :
  same_day clock1 clock2 ->
  map erase_p (fst (create_satellite_predictions RS clock1 eonet_events w)) =
  map erase_p (fst (create_satellite_predictions RS clock2 eonet_events w))
  /\ snd (create_satellite_predictions RS clock1 eonet_events w) =
     snd (create_satellite_predictions RS clock2 eonet_events w).
Proof.
  intros Hday.
  destruct (for_each_related
              (fun a1 a2 => forall j, erase_p (prediction_of j a1)
                                      = erase_p (prediction_of j a2))
              (ocean_point_at RS clock1 eonet_events)
              (ocean_point_at RS clock2 eonet_events) (seq 0 150)
              (fun i w0 => ocean_point_same_day RS clock1 clock2 eonet_events
                             i w0 Hday) w) as [Hrel Hw].
  split.
  - rewrite !create_satellite_predictions_rows, !map_map.
    apply (enumerate_related (fun j a => erase_p (prediction_of j a))).
    exact Hrel.
  - unfold create_satellite_predictions, generate_nasa_enhanced_data, bind, ret.
    destruct (for_each (ocean_point_at RS clock1 eonet_events) (seq 0 150) w).
    destruct (for_each (ocean_point_at RS clock2 eonet_events) (seq 0 150) w).
    cbn [fst snd] in *. exact Hw.
Qed.

(** The tag simulator does not read the timestamps of the predictions. *)
Lemma filter_map_commute {A : Type} (f : A -> bool) (g : A -> A) (l : list A) :
  (forall a, f (g a) = f a) -> filter f (map g l) = map g (filter f l).
Proof.
  intros Hfg. induction l as [|a l IH]; simpl; [reflexivity|].
  rewrite Hfg. destruct (f a); simpl; rewrite IH; reflexivity.
Qed.

Lemma suitable_for_erased (satellite_df : list prediction) (tp : R) :
  suitable_for (map erase_p satellite_df) tp =
  map erase_p (suitable_for satellite_df tp).
Proof.
  unfold suitable_for.
  rewrite !(filter_map_commute _ erase_p) by reflexivity.
  rewrite length_map.
  destruct (List.length (filter (primary_mask tp) satellite_df) =? 0)%nat;
    reflexivity.
Qed.

Lemma tag_event_at_erased (RS : RandomSource) (clock : nat -> datetime)
  (satellite_df : list prediction) (sh : shark) (event_num : nat)
  (w : world RS) :
  tag_event_at RS clock (map erase_p satellite_df) sh event_num w =
  tag_event_at RS clock satellite_df sh event_num w.
Proof.
  rewrite !tag_event_at_run, suitable_for_erased.
  destruct (suitable_for satellite_df (temp_pref sh)) as [|first rest];
    [reflexivity|].
  cbn [map]. rewrite <- (map_cons erase_p first rest), length_map.
  destruct (rs_sample RS (List.length (first :: rest)) (w_rng w)) as [k g].
  rewrite (map_nth erase_p (first :: rest) first k). reflexivity.
Qed.

Lemma generate_mantis_tag_data_erased (RS : RandomSource)
  (clock : nat -> datetime) (satellite_df : list prediction)
  (n_sharks : nat) (w : world RS) :
  generate_mantis_tag_data RS clock (map erase_p satellite_df) n_sharks w =
  generate_mantis_tag_data RS clock satellite_df n_sharks w.
Proof.
  rewrite !generate_mantis_tag_data_run.
  destruct (for_each (tagged_shark_at RS) (seq 0 n_sharks) w) as [sharks w1].
  rewrite (for_each_ext (shark_events RS clock (map erase_p satellite_df))
             (shark_events RS clock satellite_df)); [reflexivity|].
  intros sh w0. rewrite !shark_events_run.
  destruct (rs_randint RS 8 16 (w_rng w0)) as [n g].
  rewrite (for_each_ext (tag_event_at RS clock (map erase_p satellite_df) sh)
             (tag_event_at RS clock satellite_df sh)); [reflexivity|].
  intros a w2. apply tag_event_at_erased.
Qed.

Lemma tag_event_from_two_clocks (RS : RandomSource)
  (clock1 clock2 : nat -> datetime) (sh : shark) (event_num : nat)
  (pred : prediction) (w : world RS) :
  erase_t (fst (tag_event_from RS clock1 sh event_num pred w)) =
  erase_t (fst (tag_event_from RS clock2 sh event_num pred w))
  /\ snd (tag_event_from RS clock1 sh event_num pred w) =
     snd (tag_event_from RS clock2 sh event_num pred w).
Proof.
  unfold tag_event_from. run_body; split; reflexivity.
Qed.

Lemma tag_event_at_two_clocks (RS : RandomSource)
  (clock1 clock2 : nat -> datetime) (satellite_df : list prediction)
  (sh : shark) (event_num : nat) (w : world RS) :
  option_map erase_t (fst (tag_event_at RS clock1 satellite_df sh event_num w)) =
  option_map erase_t (fst (tag_event_at RS clock2 satellite_df sh event_num w))
  /\ snd (tag_event_at RS clock1 satellite_df sh event_num w) =
     snd (tag_event_at RS clock2 satellite_df sh event_num w).
Proof.
  rewrite !tag_event_at_run.
  destruct (suitable_for satellite_df (temp_pref sh)) as [|first rest];
    [split; reflexivity|].
  destruct (rs_sample RS (List.length (first :: rest)) (w_rng w)) as [k g].
  destruct (tag_event_from_two_clocks RS clock1 clock2 sh event_num
              (nth k (first :: rest) first)
              {| w_rng := g; w_tick := w_tick w |}) as [He Hw].
  destruct (tag_event_from RS clock1 sh event_num (nth k (first :: rest) first)
              {| w_rng := g; w_tick := w_tick w |}) as [e1 w1].
  destruct (tag_event_from RS clock2 sh event_num (nth k (first :: rest) first)
              {| w_rng := g; w_tick := w_tick w |}) as [e2 w2].
  cbn [fst snd option_map] in *. split; [f_equal; exact He | exact Hw].
Qed.

Lemma somes_related (l1 l2 : list (option tag_event)) :
  Forall2 (fun o1 o2 => option_map erase_t o1 = option_map erase_t o2) l1 l2 ->
  map erase_t (somes l1) = map erase_t (somes l2).
Proof.
  induction 1 as [|o1 o2 l1 l2 Ho _ IH]; [reflexivity|].
  destruct o1 as [t1|], o2 as [t2|]; cbn [option_map] in Ho;
    try discriminate Ho; cbn [somes map]; [|exact IH].
  f_equal; [|exact IH].
  exact (f_equal (fun o => match o with
                           | Some x => x
                           | None => erase_t t1
                           end) Ho).
Qed.

Lemma shark_events_two_clocks (RS : RandomSource)
  (clock1 clock2 : nat -> datetime) (satellite_df : list prediction)
  (sh : shark) (w : world RS) :
  map erase_t (snd (fst (shark_events RS clock1 satellite_df sh w))) =
  map erase_t (snd (fst (shark_events RS clock2 satellite_df sh w)))
  /\ snd (shark_events RS clock1 satellite_df sh w) =
     snd (shark_events RS clock2 satellite_df sh w).
Proof.
  rewrite !shark_events_run.
  destruct (rs_randint RS 8 16 (w_rng w)) as [n g].
  destruct (for_each_related
              (fun o1 o2 => option_map erase_t o1 = option_map erase_t o2)
              (tag_event_at RS clock1 satellite_df sh)
              (tag_event_at RS clock2 satellite_df sh) (seq 0 (Z.to_nat n))
              (tag_event_at_two_clocks RS clock1 clock2 satellite_df sh)
              {| w_rng := g; w_tick := w_tick w |}) as [Hrel Hw].
  destruct (for_each (tag_event_at RS clock1 satellite_df sh)
              (seq 0 (Z.to_nat n)) {| w_rng := g; w_tick := w_tick w |}).
  destruct (for_each (tag_event_at RS clock2 satellite_df sh)
              (seq 0 (Z.to_nat n)) {| w_rng := g; w_tick := w_tick w |}).
  cbn [fst snd] in *. split; [apply somes_related; exact Hrel | exact Hw].
Qed.

Lemma concat_related (l1 l2 : list (Z * list tag_event)) :
  Forall2 (fun r1 r2 => map erase_t (snd r1) = map erase_t (snd r2)) l1 l2 ->
  map erase_t (List.concat (map snd l1)) =
  map erase_t (List.concat (map snd l2)).
Proof.
  induction 1 as [|r1 r2 l1 l2 Hr _ IH]; [reflexivity|].
  cbn [map List.concat]. rewrite !map_app, Hr, IH. reflexivity.
Qed.

Lemma frame_map_DataFrame {A B : Type} (f : A -> B) (records : list A) :
  frame_map f (DataFrame records) = DataFrame (map f records).
Proof.
  destruct records; reflexivity.
Qed.

Lemma tag_table_two_clocks (RS : RandomSource)
  (clock1 clock2 : nat -> datetime) (satellite_df : list prediction)
  (n_sharks : nat) (w : world RS) :
  frame_map erase_t
    (fst (generate_mantis_tag_data RS clock1 satellite_df n_sharks w)) =
  frame_map erase_t
    (fst (generate_mantis_tag_data RS clock2 satellite_df n_sharks w))
  /\ snd (generate_mantis_tag_data RS clock1 satellite_df n_sharks w) =
     snd (generate_mantis_tag_data RS clock2 satellite_df n_sharks w).
Proof.
  rewrite !generate_mantis_tag_data_run.
  destruct (for_each (tagged_shark_at RS) (seq 0 n_sharks) w) as [sharks w1].
  destruct (for_each_related
              (fun r1 r2 : Z * list tag_event =>
                 map erase_t (snd r1) = map erase_t (snd r2))
              (shark_events RS clock1 satellite_df)
              (shark_events RS clock2 satellite_df) sharks
              (shark_events_two_clocks RS clock1 clock2 satellite_df) w1)
    as [Hrel Hw].
  destruct (for_each (shark_events RS clock1 satellite_df) sharks w1).
  destruct (for_each (shark_events RS clock2 satellite_df) sharks w1).
  cbn [fst snd] in *. split; [|exact Hw].
  rewrite !frame_map_DataFrame. f_equal. apply concat_related. exact Hrel.
Qed.

Lemma combined_erased (sat1 sat2 : list prediction) (tags1 tags2 : frame tag_event) :
  map erase_p sat1 = map erase_p sat2 ->
  frame_map erase_t tags1 = frame_map erase_t tags2 ->
  option_map (map erase_c) (create_combined_dataset sat1 tags1) =
  option_map (map erase_c) (create_combined_dataset sat2 tags2).
Proof.
  intros Hsat Htags.
  destruct tags1 as [|e1], tags2 as [|e2]; cbn [frame_map] in Htags;
    try discriminate Htags; [reflexivity|].
  injection Htags as Htags.
  cbn [create_combined_dataset option_map]. f_equal.
  rewrite !map_app, !map_map.
  assert (Hp : forall l,
             map (fun p => erase_c (sat_display p)) l =
             map (fun p => erase_c (sat_display p)) (map erase_p l))
    by (intros l; rewrite map_map; apply map_ext; reflexivity).
  assert (Ht : forall l,
             map (fun t => erase_c (tag_display t)) l =
             map (fun t => erase_c (tag_display t)) (map erase_t l))
    by (intros l; rewrite map_map; apply map_ext; reflexivity).
  rewrite (Hp sat1), (Hp sat2), (Ht e1), (Ht e2), Hsat, Htags. reflexivity.
Qed.

Lemma run_tables_same_day (RS : RandomSource) (clock1 clock2 : nat -> datetime)
  (eonet_events : list json) (w : world RS) :
  same_day clock1 clock2 ->
  map erase_p (satellite_data (fst (run_tables RS clock1 eonet_events w))) =
    map erase_p (satellite_data (fst (run_tables RS clock2 eonet_events w)))
  /\ frame_map erase_t (tag_data (fst (run_tables RS clock1 eonet_events w))) =
     frame_map erase_t (tag_data (fst (run_tables RS clock2 eonet_events w)))
  /\ option_map (map erase_c)
       (combined_data (fst (run_tables RS clock1 eonet_events w))) =
     option_map (map erase_c)
       (combined_data (fst (run_tables RS clock2 eonet_events w)))
  /\ snd (run_tables RS clock1 eonet_events w) =
     snd (run_tables RS clock2 eonet_events w).
Proof.
  intros Hday. rewrite !run_tables_run.
  destruct (satellite_table_same_day RS clock1 clock2 eonet_events w Hday)
    as [Hsat Hw].
  destruct (create_satellite_predictions RS clock1 eonet_events w) as [sat1 w1].
  destruct (create_satellite_predictions RS clock2 eonet_events w) as [sat2 w2].
  cbn [fst snd] in Hsat, Hw. subst w2.
  destruct (tag_table_two_clocks RS clock1 clock2 sat1 12 w1) as [Htag Hw].
  rewrite <- (generate_mantis_tag_data_erased RS clock2 sat2),
    <- Hsat, (generate_mantis_tag_data_erased RS clock2 sat1).
  destruct (generate_mantis_tag_data RS clock1 sat1 12 w1) as [tags1 w3].
  destruct (generate_mantis_tag_data RS clock2 sat1 12 w1) as [tags2 w4].
  cbn [fst snd satellite_data tag_data combined_data] in *.
  repeat split; try assumption.
  apply combined_erased; assumption.
Qed.

(** X22.  Two runs from the same random state and feed whose clock
    readings fall on the same days of the year produce the same three
    tables in every column but the timestamps, and leave the random
    state the same: the clock enters the tables only through the day
    of the year and the timestamp columns. *)
Theorem same_day_runs_differ_only_in_timestamps (RS : RandomSource)
  (clock1 clock2 : nat -> datetime) (eonet_events : list json)
  (w : world RS) :
  same_day clock1 clock2 ->
  map erase_p (satellite_data (fst (run_tables RS clock1 eonet_events w))) =
    map erase_p (satellite_data (fst (run_tables RS clock2 eonet_events w)))
  /\ frame_map erase_t (tag_data (fst (run_tables RS clock1 eonet_events w))) =
     frame_map erase_t (tag_data (fst (run_tables RS clock2 eonet_events w)))
  /\ option_map (map erase_c)
       (combined_data (fst (run_tables RS clock1 eonet_events w))) =
     option_map (map erase_c)
       (combined_data (fst (run_tables RS clock2 eonet_events w)))
  /\ snd (run_tables RS clock1 eonet_events w) =
     snd (run_tables RS clock2 eonet_events w).
Proof.
  apply run_tables_same_day.
Qed.

Lemma same_day_runs_witness :
  map erase_p
    (satellite_data
       (fst (run_tables fixed_source (frozen_clock midnight_2026_11_04) []
               (@seeded fixed_source tt)))) =
  map erase_p
    (satellite_data
       (fst (run_tables fixed_source
               (frozen_clock (midnight_2026_11_04 + 1000000)%Z) []
               (@seeded fixed_source tt)))).
Proof.
  apply (same_day_runs_differ_only_in_timestamps fixed_source
           (frozen_clock midnight_2026_11_04)
           (frozen_clock (midnight_2026_11_04 + 1000000)%Z) []
           (@seeded fixed_source tt)).
  intros n. reflexivity.
Defined.
